(** * The cpufreq core (drivers/cpufreq/cpufreq.c): a shallow embedding

    The kernel state this file touches (the per-CPU variables, the policy
    objects they point to, the reader/writer semaphores, the governor list)
    is one record, [world]; every C function becomes a function in a small
    state monad over it whose result is either a return value with the new
    world or a kernel fault (BUG, NULL dereference, a sleep nobody ends).

    What lives outside the file (the platform driver, the governors'
    callbacks, the notifier chains, sysfs, PM QoS, the allocator) is a
    record of functions, [platform]; every call into it is logged in the
    world's [trace], oldest first.

    Configuration: CONFIG_SMP and CONFIG_HOTPLUG_CPU are set (the saved
    per-CPU policy exists only then); CONFIG_UNI_CPU_POLICY_LIMIT and
    CONFIG_CPU_FREQ_GOV_PERFORMANCE are fields of [platform].  Module and
    kobject reference counts are not part of the state: try_module_get's
    verdict is a platform function and kobject_get on an embedded kobject
    cannot fail.  wait_for_completion returns after the kobject_put that
    drops the last reference; cpufreq_add_dev_interface reports whether it
    has already waited, because a second wait on the same completion never
    ends.  Callers run with
    interrupts enabled (the BUG_ON of cpufreq_notify_transition does not
    fire), and int, unsigned int and ssize_t are 32 bits wide, as on the
    ARM boards this tree is for, so an [unsigned int ret] that holds an
    errno is returned as the negative number. *)

From Stdlib Require Import ZArith NArith List String Ascii Bool Lia DecimalString.
Import ListNotations.
Local Open Scope string_scope.
Local Open Scope list_scope.
Local Open Scope Z_scope.

(** ** Plain data *)

(** errno values (asm-generic/errno-base.h). *)
Definition EIO : Z := 5.
Definition ENOMEM : Z := 12.
Definition EBUSY : Z := 16.
Definition ENODEV : Z := 19.
Definition EINVAL : Z := 22.

(** [(unsigned int) x] for an [int] x. *)
Definition to_uint (x : Z) : Z := x mod 2 ^ 32.

(** A cpumask is a bitmap: bit [c] is set when CPU [c] is in the mask. *)
Definition cpumask := N.

Definition cpumask_test_cpu (c : nat) (m : cpumask) : bool :=
  N.testbit m (N.of_nat c).
Definition cpumask_of (c : nat) : cpumask := N.shiftl 1 (N.of_nat c).
Definition cpumask_and (a b : cpumask) : cpumask := N.land a b.
Definition cpumask_clear_cpu (c : nat) (m : cpumask) : cpumask :=
  N.clearbit m (N.of_nat c).
Definition cpumask_empty (m : cpumask) : bool := N.eqb m 0.

(** The CPUs [for_each_cpu] visits, in increasing order. *)
Definition for_each_cpu (nr_cpu_ids : nat) (m : cpumask) : list nat :=
  filter (fun c => cpumask_test_cpu c m) (seq 0 nr_cpu_ids).
Definition cpumask_weight (nr_cpu_ids : nat) (m : cpumask) : nat :=
  List.length (for_each_cpu nr_cpu_ids m).
Definition cpumask_first (nr_cpu_ids : nat) (m : cpumask) : nat :=
  hd nr_cpu_ids (for_each_cpu nr_cpu_ids m).

Record cpufreq_cpuinfo := {
  max_freq : Z;
  min_freq : Z;
  transition_latency : Z
}.

(** A governor pointer is modelled by the governor's descriptor; the list of
    registered governors holds no two descriptors of one name, so equality
    of descriptors is equality of pointers. *)
Record cpufreq_governor := {
  name : string;
  max_transition_latency : Z;
  owner : string
}.

Record cpufreq_real_policy := {
  rp_min : Z;
  rp_max : Z;
  rp_policy : Z;
  rp_governor : option cpufreq_governor
}.

(** struct cpufreq_policy, with the fields this file reads or writes. *)
Record cpufreq_policy := {
  cpus : cpumask;
  related_cpus : cpumask;
  cpu : nat;
  cpuinfo : cpufreq_cpuinfo;
  min : Z;
  max : Z;
  cur : Z;
  util : Z;
  policy : Z;
  governor : option cpufreq_governor;
  user_policy : cpufreq_real_policy
}.

Definition with_cpus (p : cpufreq_policy) (v : cpumask) : cpufreq_policy :=
  {| cpus := v; related_cpus := related_cpus p; cpu := cpu p;
     cpuinfo := cpuinfo p; min := min p; max := max p; cur := cur p;
     util := util p; policy := policy p; governor := governor p;
     user_policy := user_policy p |}.
Definition with_cpuinfo (p : cpufreq_policy) (v : cpufreq_cpuinfo) :=
  {| cpus := cpus p; related_cpus := related_cpus p; cpu := cpu p;
     cpuinfo := v; min := min p; max := max p; cur := cur p;
     util := util p; policy := policy p; governor := governor p;
     user_policy := user_policy p |}.
Definition with_min (p : cpufreq_policy) (v : Z) :=
  {| cpus := cpus p; related_cpus := related_cpus p; cpu := cpu p;
     cpuinfo := cpuinfo p; min := v; max := max p; cur := cur p;
     util := util p; policy := policy p; governor := governor p;
     user_policy := user_policy p |}.
Definition with_max (p : cpufreq_policy) (v : Z) :=
  {| cpus := cpus p; related_cpus := related_cpus p; cpu := cpu p;
     cpuinfo := cpuinfo p; min := min p; max := v; cur := cur p;
     util := util p; policy := policy p; governor := governor p;
     user_policy := user_policy p |}.
Definition with_cur (p : cpufreq_policy) (v : Z) :=
  {| cpus := cpus p; related_cpus := related_cpus p; cpu := cpu p;
     cpuinfo := cpuinfo p; min := min p; max := max p; cur := v;
     util := util p; policy := policy p; governor := governor p;
     user_policy := user_policy p |}.
Definition with_util (p : cpufreq_policy) (v : Z) :=
  {| cpus := cpus p; related_cpus := related_cpus p; cpu := cpu p;
     cpuinfo := cpuinfo p; min := min p; max := max p; cur := cur p;
     util := v; policy := policy p; governor := governor p;
     user_policy := user_policy p |}.
Definition with_policy (p : cpufreq_policy) (v : Z) :=
  {| cpus := cpus p; related_cpus := related_cpus p; cpu := cpu p;
     cpuinfo := cpuinfo p; min := min p; max := max p; cur := cur p;
     util := util p; policy := v; governor := governor p;
     user_policy := user_policy p |}.
Definition with_governor (p : cpufreq_policy) (v : option cpufreq_governor) :=
  {| cpus := cpus p; related_cpus := related_cpus p; cpu := cpu p;
     cpuinfo := cpuinfo p; min := min p; max := max p; cur := cur p;
     util := util p; policy := policy p; governor := v;
     user_policy := user_policy p |}.
Definition with_user_policy (p : cpufreq_policy) (v : cpufreq_real_policy) :=
  {| cpus := cpus p; related_cpus := related_cpus p; cpu := cpu p;
     cpuinfo := cpuinfo p; min := min p; max := max p; cur := cur p;
     util := util p; policy := policy p; governor := governor p;
     user_policy := v |}.

Definition with_rp_min (u : cpufreq_real_policy) (v : Z) :=
  {| rp_min := v; rp_max := rp_max u; rp_policy := rp_policy u;
     rp_governor := rp_governor u |}.
Definition with_rp_max (u : cpufreq_real_policy) (v : Z) :=
  {| rp_min := rp_min u; rp_max := v; rp_policy := rp_policy u;
     rp_governor := rp_governor u |}.
Definition with_rp_kind (u : cpufreq_real_policy) (k : Z)
    (g : option cpufreq_governor) :=
  {| rp_min := rp_min u; rp_max := rp_max u; rp_policy := k;
     rp_governor := g |}.

(** struct cpufreq_freqs. *)
Record cpufreq_freqs := {
  f_cpu : nat;
  f_old : Z;
  f_new : Z;
  f_flags : Z
}.

(** struct cpufreq_cpu_save_data: what is kept of a removed CPU's policy. *)
Record cpufreq_cpu_save_data := {
  gov : string;
  save_max : Z;
  save_min : Z
}.

Record rw_semaphore := {
  readers : nat;
  writer : bool
}.

Inductive lock_mode := read | write.

Inductive gov_event := CPUFREQ_GOV_START | CPUFREQ_GOV_STOP | CPUFREQ_GOV_LIMITS.

Inductive policy_event :=
  CPUFREQ_ADJUST | CPUFREQ_INCOMPATIBLE | CPUFREQ_NOTIFY | CPUFREQ_START.

Inductive transition_state :=
  CPUFREQ_PRECHANGE | CPUFREQ_POSTCHANGE | CPUFREQ_RESUMECHANGE
| CPUFREQ_SUSPENDCHANGE.

Inductive pm_qos_class := PM_QOS_CPU_FREQ_MIN | PM_QOS_CPU_FREQ_MAX.

Inductive hotplug_action :=
  CPU_ONLINE | CPU_ONLINE_FROZEN | CPU_DOWN_PREPARE | CPU_DOWN_PREPARE_FROZEN
| CPU_DOWN_FAILED | CPU_DOWN_FAILED_FROZEN | CPU_DEAD.

(** A policy object is addressed by a pointer. *)
Definition ptr := nat.

(** What sysfs is asked to do; the devices and kobjects are named by the CPU
    they belong to. *)
Inductive sysfs_op :=
| kobject_init_and_add (owner_cpu : nat)
| sysfs_create_file (owner_cpu : nat) (attr : string)
| sysfs_create_link (dev_cpu : nat) (target_cpu : nat)
| sysfs_remove_link (dev_cpu : nat)
| kobject_put (owner_cpu : nat)
| kobject_uevent (owner_cpu : nat)
| sysfs_notify (owner_cpu : nat) (attr : string).

(** One entry of the log of calls that leave the file. *)
Inductive event :=
| EvInit (c : nat)
| EvExit (p : ptr)
| EvVerify (c : nat)
| EvSetpolicy (c : nat)
| EvGet (c : nat)
| EvGovernor (p : ptr) (g : cpufreq_governor) (e : gov_event) (ret : Z)
| EvPolicyNotifier (e : policy_event) (c : nat)
| EvTransition (s : transition_state) (f : cpufreq_freqs)
| EvScheduleWork (p : ptr)
| EvSysfs (o : sysfs_op) (ret : Z).

(** struct cpufreq_driver: the capability the platform registers.  A
    callback that receives a pointer to a policy returns the policy it
    leaves behind. *)
Record cpufreq_driver_t := {
  drv_name : string;
  drv_owner : string;
  flags : Z;
  init : cpufreq_policy -> Z * cpufreq_policy;
  verify : cpufreq_policy -> Z * cpufreq_policy;
  setpolicy : option (cpufreq_policy -> Z * cpufreq_policy);
  target : bool;
  get : option (nat -> Z);
  exit : bool;
  bios_limit : bool;
  attr : list string
}.

(** ** The world *)

Record world := {
  cpufreq_driver : option cpufreq_driver_t;
  cpufreq_cpu_data : nat -> option ptr;
  cpufreq_policy_save : nat -> cpufreq_cpu_save_data;
  cpufreq_policy_cpu : nat -> Z;
  cpu_policy_rwsem : nat -> rw_semaphore;
  cpufreq_governor_list : list cpufreq_governor;
  cpu_online_mask : cpumask;
  heap : ptr -> option cpufreq_policy;
  next_ptr : ptr;
  trace : list event
}.

(** Everything the file calls but does not define. *)
Record platform := {
  nr_cpu_ids : nat;
  (* constants of include/linux/cpufreq.h *)
  CPUFREQ_CONST_LOOPS : Z;
  CPUFREQ_NAME_LEN : nat;
  CPUFREQ_POLICY_POWERSAVE : Z;
  CPUFREQ_POLICY_PERFORMANCE : Z;
  CPUFREQ_DEFAULT_GOVERNOR : cpufreq_governor;
  (* configuration *)
  CONFIG_UNI_CPU_POLICY_LIMIT : bool;
  cpufreq_gov_performance : option cpufreq_governor;
  (* collaborators *)
  governor_fn : cpufreq_governor -> gov_event -> cpufreq_policy ->
                Z * cpufreq_policy;
  policy_notifier : policy_event -> cpufreq_policy -> cpufreq_policy;
  pm_qos_request : pm_qos_class -> Z;
  try_module_get : string -> bool;
  request_module : string -> list cpufreq_governor ->
                   Z * list cpufreq_governor;
  sysfs : sysfs_op -> Z;
  kzalloc_policy : bool;
  alloc_cpumask_var : bool;
  zalloc_cpumask_var : bool;
  get_max_lock : nat -> Z;
  sscanf_u : string -> option Z;
  (* what CPU hotplug does to the online mask while a caller sleeps in
     down_read or down_write *)
  hotplug_while_asleep : cpumask -> cpumask
}.

(** Updating one entry of a per-CPU variable or of the heap. *)
Definition upd {A : Type} (f : nat -> A) (k : nat) (v : A) : nat -> A :=
  fun i => if Nat.eqb i k then v else f i.
Arguments upd : simpl never.

Definition set_cpu_data (w : world) (v : nat -> option ptr) : world :=
  {| cpufreq_driver := cpufreq_driver w; cpufreq_cpu_data := v;
     cpufreq_policy_save := cpufreq_policy_save w;
     cpufreq_policy_cpu := cpufreq_policy_cpu w;
     cpu_policy_rwsem := cpu_policy_rwsem w;
     cpufreq_governor_list := cpufreq_governor_list w;
     cpu_online_mask := cpu_online_mask w; heap := heap w;
     next_ptr := next_ptr w; trace := trace w |}.
Definition set_policy_save (w : world) (v : nat -> cpufreq_cpu_save_data) :=
  {| cpufreq_driver := cpufreq_driver w;
     cpufreq_cpu_data := cpufreq_cpu_data w;
     cpufreq_policy_save := v;
     cpufreq_policy_cpu := cpufreq_policy_cpu w;
     cpu_policy_rwsem := cpu_policy_rwsem w;
     cpufreq_governor_list := cpufreq_governor_list w;
     cpu_online_mask := cpu_online_mask w; heap := heap w;
     next_ptr := next_ptr w; trace := trace w |}.
Definition set_policy_cpu (w : world) (v : nat -> Z) :=
  {| cpufreq_driver := cpufreq_driver w;
     cpufreq_cpu_data := cpufreq_cpu_data w;
     cpufreq_policy_save := cpufreq_policy_save w;
     cpufreq_policy_cpu := v;
     cpu_policy_rwsem := cpu_policy_rwsem w;
     cpufreq_governor_list := cpufreq_governor_list w;
     cpu_online_mask := cpu_online_mask w; heap := heap w;
     next_ptr := next_ptr w; trace := trace w |}.
Definition set_rwsem (w : world) (v : nat -> rw_semaphore) :=
  {| cpufreq_driver := cpufreq_driver w;
     cpufreq_cpu_data := cpufreq_cpu_data w;
     cpufreq_policy_save := cpufreq_policy_save w;
     cpufreq_policy_cpu := cpufreq_policy_cpu w;
     cpu_policy_rwsem := v;
     cpufreq_governor_list := cpufreq_governor_list w;
     cpu_online_mask := cpu_online_mask w; heap := heap w;
     next_ptr := next_ptr w; trace := trace w |}.
Definition set_governor_list (w : world) (v : list cpufreq_governor) :=
  {| cpufreq_driver := cpufreq_driver w;
     cpufreq_cpu_data := cpufreq_cpu_data w;
     cpufreq_policy_save := cpufreq_policy_save w;
     cpufreq_policy_cpu := cpufreq_policy_cpu w;
     cpu_policy_rwsem := cpu_policy_rwsem w;
     cpufreq_governor_list := v;
     cpu_online_mask := cpu_online_mask w; heap := heap w;
     next_ptr := next_ptr w; trace := trace w |}.
Definition set_online_mask (w : world) (v : cpumask) :=
  {| cpufreq_driver := cpufreq_driver w;
     cpufreq_cpu_data := cpufreq_cpu_data w;
     cpufreq_policy_save := cpufreq_policy_save w;
     cpufreq_policy_cpu := cpufreq_policy_cpu w;
     cpu_policy_rwsem := cpu_policy_rwsem w;
     cpufreq_governor_list := cpufreq_governor_list w;
     cpu_online_mask := v; heap := heap w;
     next_ptr := next_ptr w; trace := trace w |}.
Definition set_heap (w : world) (v : ptr -> option cpufreq_policy) :=
  {| cpufreq_driver := cpufreq_driver w;
     cpufreq_cpu_data := cpufreq_cpu_data w;
     cpufreq_policy_save := cpufreq_policy_save w;
     cpufreq_policy_cpu := cpufreq_policy_cpu w;
     cpu_policy_rwsem := cpu_policy_rwsem w;
     cpufreq_governor_list := cpufreq_governor_list w;
     cpu_online_mask := cpu_online_mask w; heap := v;
     next_ptr := next_ptr w; trace := trace w |}.
Definition set_next_ptr (w : world) (v : ptr) :=
  {| cpufreq_driver := cpufreq_driver w;
     cpufreq_cpu_data := cpufreq_cpu_data w;
     cpufreq_policy_save := cpufreq_policy_save w;
     cpufreq_policy_cpu := cpufreq_policy_cpu w;
     cpu_policy_rwsem := cpu_policy_rwsem w;
     cpufreq_governor_list := cpufreq_governor_list w;
     cpu_online_mask := cpu_online_mask w; heap := heap w;
     next_ptr := v; trace := trace w |}.
Definition set_trace (w : world) (v : list event) :=
  {| cpufreq_driver := cpufreq_driver w;
     cpufreq_cpu_data := cpufreq_cpu_data w;
     cpufreq_policy_save := cpufreq_policy_save w;
     cpufreq_policy_cpu := cpufreq_policy_cpu w;
     cpu_policy_rwsem := cpu_policy_rwsem w;
     cpufreq_governor_list := cpufreq_governor_list w;
     cpu_online_mask := cpu_online_mask w; heap := heap w;
     next_ptr := next_ptr w; trace := v |}.

(** ** The monad *)

Inductive fault := BUG | NULL_DEREF | BLOCKED.

Inductive outcome (A : Type) :=
| Ret (a : A) (w : world)
| Oops (f : fault).
Arguments Ret {A} a w.
Arguments Oops {A} f.

Definition M (A : Type) := world -> outcome A.

Definition ret {A} (a : A) : M A := fun w => Ret a w.
Definition oops {A} (f : fault) : M A := fun _ => Oops f.
Definition bind {A B} (m : M A) (k : A -> M B) : M B :=
  fun w => match m w with
           | Ret a w' => k a w'
           | Oops f => Oops f
           end.
Definition gets {A} (f : world -> A) : M A := fun w => Ret (f w) w.
Definition modify (f : world -> world) : M unit := fun w => Ret tt (f w).

Notation "x <- m ;; k" := (bind m (fun x => k))
  (at level 61, m at next level, right associativity).
Notation "m ;;; k" := (bind m (fun _ => k))
  (at level 61, right associativity).

Definition log (e : event) : M unit :=
  modify (fun w => set_trace w (trace w ++ [e])).

(** Dereferencing a policy pointer. *)
Definition deref (p : ptr) : M cpufreq_policy :=
  fun w => match heap w p with
           | Some v => Ret v w
           | None => Oops NULL_DEREF
           end.
Definition assign (p : ptr) (v : cpufreq_policy) : M unit :=
  modify (fun w => set_heap w (upd (heap w) p (Some v))).
Definition update (p : ptr) (f : cpufreq_policy -> cpufreq_policy) : M unit :=
  v <- deref p ;; assign p (f v).

(** [cpufreq_driver->...]: a NULL driver faults. *)
Definition driver : M cpufreq_driver_t :=
  fun w => match cpufreq_driver w with
           | Some d => Ret d w
           | None => Oops NULL_DEREF
           end.

Definition cpu_online (c : nat) : M bool :=
  gets (fun w => cpumask_test_cpu c (cpu_online_mask w)).

(** ** String helpers (lib/string.c, lib/vsprintf.c) *)

Definition tolower (c : ascii) : ascii :=
  let n := nat_of_ascii c in
  if ((65 <=? n) && (n <=? 90))%nat then ascii_of_nat (n + 32) else c.

(** [strnicmp s1 s2 len] is [true] when the C function returns 0. *)
Fixpoint strnicmp (s1 s2 : string) (len : nat) : bool :=
  match len with
  | O => true
  | S len' =>
      match s1, s2 with
      | EmptyString, EmptyString => true
      | String c1 r1, String c2 r2 =>
          if Ascii.eqb (tolower c1) (tolower c2) then strnicmp r1 r2 len'
          else false
      | _, _ => false
      end
  end.

(** What a reader of the destination sees after [strncpy(dst, src, n)]. *)
Definition strncpy (src : string) (n : nat) : string := substring 0 n src.

(** The white space of lib/ctype.c: the blank, the controls 9 to 13 and
    the character 160. *)
Definition isspace (c : ascii) : bool :=
  let n := nat_of_ascii c in
  (Nat.eqb n 32 || ((9 <=? n) && (n <=? 13)) || Nat.eqb n 160)%nat.

Fixpoint skip_spaces (s : string) : string :=
  match s with
  | String c r => if isspace c then skip_spaces r else s
  | EmptyString => s
  end.

Fixpoint take_word (n : nat) (s : string) : string :=
  match n, s with
  | S n', String c r =>
      if isspace c then EmptyString else String c (take_word n' r)
  | _, _ => EmptyString
  end.

(** [sscanf(buf, "%15s", str)]: [Some str] when one item was converted.
    vsscanf converts nothing from an empty buffer; from any other it skips
    the leading white space and copies what follows up to the next white
    space, at most 15 characters, which may be none at all. *)
Definition sscanf_15s (buf : string) : option string :=
  match buf with
  | EmptyString => None
  | _ => Some (take_word 15 (skip_spaces buf))
  end.

(** [sprintf(buf, "%u\n", v)]. *)
Definition sprintf_u (v : Z) : string :=
  String.append (NilZero.string_of_uint (N.to_uint (Z.to_N v)))
                (String (ascii_of_nat 10) EmptyString).

Definition governor_eqb (a b : cpufreq_governor) : bool :=
  String.eqb (name a) (name b)
  && (max_transition_latency a =? max_transition_latency b)
  && String.eqb (owner a) (owner b).

(** [a == b] on governor pointers. *)
Definition governor_ptr_eqb (a b : option cpufreq_governor) : bool :=
  match a, b with
  | Some x, Some y => governor_eqb x y
  | None, None => true
  | _, _ => false
  end.

Section Core.

Variable P : platform.

(** ** The per-CPU policy semaphore (lines 81-112) *)

(** down_read / down_write.  A semaphore that cannot be taken puts the
    caller to sleep, and in a sequential run nobody wakes it; while the
    caller waits, hotplug may change the online mask. *)
Definition down (mode : lock_mode) (i : nat) : M unit :=
  fun w =>
    let s := cpu_policy_rwsem w i in
    let w1 := set_online_mask w (hotplug_while_asleep P (cpu_online_mask w)) in
    match mode with
    | read =>
        if writer s then Oops BLOCKED
        else Ret tt (set_rwsem w1 (upd (cpu_policy_rwsem w) i
                       {| readers := S (readers s); writer := false |}))
    | write =>
        if writer s || negb (Nat.eqb (readers s) 0) then Oops BLOCKED
        else Ret tt (set_rwsem w1 (upd (cpu_policy_rwsem w) i
                       {| readers := 0; writer := true |}))
    end.

Definition up (mode : lock_mode) (i : nat) : M unit :=
  modify (fun w =>
    let s := cpu_policy_rwsem w i in
    set_rwsem w (upd (cpu_policy_rwsem w) i
      match mode with
      | read => {| readers := pred (readers s); writer := writer s |}
      | write => {| readers := readers s; writer := false |}
      end)).

Definition lock_policy_rwsem (mode : lock_mode) (c : nat) : M Z :=
  policy_cpu <- gets (fun w => cpufreq_policy_cpu w c) ;;
  if policy_cpu =? -1 then oops BUG else
  down mode (Z.to_nat policy_cpu) ;;;
  online <- cpu_online c ;;
  if negb online then
    up mode (Z.to_nat policy_cpu) ;;;
    ret (-1)
  else ret 0.

Definition lock_policy_rwsem_read := lock_policy_rwsem read.
Definition lock_policy_rwsem_write := lock_policy_rwsem write.

Definition unlock_policy_rwsem (mode : lock_mode) (c : nat) : M unit :=
  policy_cpu <- gets (fun w => cpufreq_policy_cpu w c) ;;
  if policy_cpu =? -1 then oops BUG else
  up mode (Z.to_nat policy_cpu).

Definition unlock_policy_rwsem_read := unlock_policy_rwsem read.
Definition unlock_policy_rwsem_write := unlock_policy_rwsem write.

(** ** Looking a policy up (lines 187-252) *)

Definition __cpufreq_cpu_get (c : nat) (sysfs_ref : bool) : M (option ptr) :=
  if (nr_cpu_ids P <=? c)%nat then ret None else
  d <- gets cpufreq_driver ;;
  match d with
  | None => ret None
  | Some drv =>
      if negb (try_module_get P (drv_owner drv)) then ret None else
      gets (fun w => cpufreq_cpu_data w c)
  end.

Definition cpufreq_cpu_get (c : nat) := __cpufreq_cpu_get c false.
Definition cpufreq_cpu_get_sysfs (c : nat) := __cpufreq_cpu_get c true.

(** ** Transition notification (lines 305-351) *)

Definition const_loops (drv : cpufreq_driver_t) : bool :=
  negb (Z.land (flags drv) (CPUFREQ_CONST_LOOPS P) =? 0).

Definition with_old (f : cpufreq_freqs) (v : Z) : cpufreq_freqs :=
  {| f_cpu := f_cpu f; f_old := v; f_new := f_new f; f_flags := f_flags f |}.
Definition with_flags (f : cpufreq_freqs) (v : Z) : cpufreq_freqs :=
  {| f_cpu := f_cpu f; f_old := f_old f; f_new := f_new f; f_flags := v |}.

(** The transition observers read [freqs]; the call returns the [freqs] it
    leaves in the caller's struct.  adjust_jiffies is empty under
    CONFIG_SMP. *)
Definition cpufreq_notify_transition (freqs : cpufreq_freqs)
    (state : transition_state) : M cpufreq_freqs :=
  drv <- driver ;;
  let freqs := with_flags freqs (flags drv) in
  pol <- gets (fun w => cpufreq_cpu_data w (f_cpu freqs)) ;;
  match state with
  | CPUFREQ_PRECHANGE =>
      freqs <- (if negb (const_loops drv) then
                  match pol with
                  | Some pp =>
                      p <- deref pp ;;
                      if Nat.eqb (cpu p) (f_cpu freqs) && negb (cur p =? 0)
                         && negb (cur p =? f_old freqs)
                      then ret (with_old freqs (cur p))
                      else ret freqs
                  | None => ret freqs
                  end
                else ret freqs) ;;
      log (EvTransition CPUFREQ_PRECHANGE freqs) ;;;
      ret freqs
  | CPUFREQ_POSTCHANGE =>
      log (EvTransition CPUFREQ_POSTCHANGE freqs) ;;;
      match pol with
      | Some pp =>
          p <- deref pp ;;
          if Nat.eqb (cpu p) (f_cpu freqs) then
            assign pp (with_cur p (f_new freqs)) ;;;
            log (EvSysfs (sysfs_notify (cpu p) "scaling_cur_freq") 0)
          else ret tt
      | None => ret tt
      end ;;;
      ret freqs
  | _ => ret freqs
  end.

(** ** Governor lookup and parsing (lines 370-428) *)

Definition __find_governor (str_governor : string) : M (option cpufreq_governor) :=
  gets (fun w =>
    find (fun t => strnicmp str_governor (name t) (CPUFREQ_NAME_LEN P))
         (cpufreq_governor_list w)).

(** Returns [err] and what is left in [*policy] and [*governor]. *)
Definition cpufreq_parse_governor (str_governor : string) (pol : Z)
    (g : option cpufreq_governor) : M (Z * Z * option cpufreq_governor) :=
  d <- gets cpufreq_driver ;;
  match d with
  | None => ret (- EINVAL, pol, g)
  | Some drv =>
      match setpolicy drv with
      | Some _ =>
          if strnicmp str_governor "performance" (CPUFREQ_NAME_LEN P) then
            ret (0, CPUFREQ_POLICY_PERFORMANCE P, g)
          else if strnicmp str_governor "powersave" (CPUFREQ_NAME_LEN P) then
            ret (0, CPUFREQ_POLICY_POWERSAVE P, g)
          else ret (- EINVAL, pol, g)
      | None =>
          if target drv then
            t <- __find_governor str_governor ;;
            t <- match t with
                 | Some _ => ret t
                 | None =>
                     l <- gets cpufreq_governor_list ;;
                     let r := request_module P (String.append "cpufreq_" str_governor) l in
                     modify (fun w => set_governor_list w (snd r)) ;;;
                     if fst r =? 0 then __find_governor str_governor
                     else ret None
                 end ;;
            match t with
            | Some t => ret (0, pol, Some t)
            | None => ret (- EINVAL, pol, g)
            end
          else ret (- EINVAL, pol, g)
      end
  end.

(** ** Attribute readers (lines 438-464) *)

Definition show_policy_min_freq (p : cpufreq_policy) : string :=
  sprintf_u (rp_min (user_policy p)).
Definition show_policy_max_freq (p : cpufreq_policy) : string :=
  sprintf_u (rp_max (user_policy p)).

(** ** Frequency queries and the out-of-sync path (lines 1608-1725) *)

Definition cpufreq_out_of_sync (c : nat) (old_freq new_freq : Z) : M unit :=
  let freqs := {| f_cpu := c; f_old := old_freq; f_new := new_freq;
                  f_flags := 0 |} in
  freqs <- cpufreq_notify_transition freqs CPUFREQ_PRECHANGE ;;
  cpufreq_notify_transition freqs CPUFREQ_POSTCHANGE ;;;
  ret tt.

Definition schedule_work (p : ptr) : M unit := log (EvScheduleWork p).

Definition __cpufreq_get (c : nat) : M Z :=
  pol <- gets (fun w => cpufreq_cpu_data w c) ;;
  drv <- driver ;;
  match get drv with
  | None => ret 0
  | Some get_fn =>
      let ret_freq := get_fn c in
      log (EvGet c) ;;;
      (if negb (ret_freq =? 0) then
         match pol with
         | None => oops NULL_DEREF
         | Some pp =>
             p <- deref pp ;;
             if negb (cur p =? 0) && negb (const_loops drv) then
               if negb (ret_freq =? cur p) then
                 cpufreq_out_of_sync c (cur p) ret_freq ;;;
                 schedule_work pp
               else ret tt
             else ret tt
         end
       else ret tt) ;;;
      ret ret_freq
  end.

Definition cpufreq_get (c : nat) : M Z :=
  pol <- cpufreq_cpu_get c ;;
  match pol with
  | None => ret 0
  | Some _ =>
      r <- lock_policy_rwsem_read c ;;
      if negb (r =? 0) then ret 0 else
      ret_freq <- __cpufreq_get c ;;
      unlock_policy_rwsem_read c ;;;
      ret ret_freq
  end.

(** ** The governor state machine (lines 2134-2179) *)

Definition __cpufreq_governor (pol : ptr) (ev : gov_event) : M Z :=
  p <- deref pol ;;
  match governor p with
  | None => oops NULL_DEREF
  | Some g =>
      let too_slow :=
        negb (max_transition_latency g =? 0)
        && (transition_latency (cpuinfo p) >? max_transition_latency g) in
      match (if too_slow then cpufreq_gov_performance P else Some g) with
      | None => ret (- EINVAL)
      | Some g' =>
          (if too_slow then assign pol (with_governor p (Some g')) else ret tt) ;;;
          if negb (try_module_get P (owner g')) then ret (- EINVAL) else
          p <- deref pol ;;
          let r := governor_fn P g' ev p in
          assign pol (snd r) ;;;
          log (EvGovernor pol g' ev (fst r)) ;;;
          ret (fst r)
      end
  end.

(** ** The policy-set protocol (lines 2250-2397) *)

Definition cpufreq_get_policy (c : nat) : M (Z * option cpufreq_policy) :=
  cpu_policy <- cpufreq_cpu_get c ;;
  match cpu_policy with
  | None => ret (- EINVAL, None)
  | Some pp => p <- deref pp ;; ret (0, Some p)
  end.

(** Lines 2343-2385: handing the committed limits to the driver or to the
    governor.  [pol] is the candidate, [cpu0_policy] what the commit left in
    the variable of that name; the result is [ret] and the candidate.

    The conditional opened at line 2359 is closed at line 2365, and line
    2367 closes it once more; the text is taken as it stands, so the
    assignment of line 2366 runs in either configuration.  Without
    CONFIG_UNI_CPU_POLICY_LIMIT, which is what the statements about the
    governor switch assume, no other reading of these lines exists. *)
Definition set_policy_enforce (drv : cpufreq_driver_t) (data : ptr)
    (pol : cpufreq_policy) (cpu0_policy : option ptr)
    : M (Z * cpufreq_policy) :=
  match setpolicy drv with
  | Some setpolicy_fn =>
      update data (fun d => with_policy d (policy pol)) ;;;
      let v := setpolicy_fn pol in
      log (EvSetpolicy (cpu pol)) ;;;
      ret v
  | None =>
      d <- deref data ;;
      if negb (governor_ptr_eqb (governor pol) (governor d)) then
        let old_gov := governor d in
        match old_gov with
        | Some _ => __cpufreq_governor data CPUFREQ_GOV_STOP ;;; ret tt
        | None => ret tt
        end ;;;
        (if CONFIG_UNI_CPU_POLICY_LIMIT P then
           match cpu0_policy with
           | Some q =>
               if negb (Nat.eqb (cpu pol) 0) then
                 p0 <- deref q ;;
                 update data (fun d => with_governor d (governor p0))
               else update data (fun d => with_governor d (governor pol))
           | None => update data (fun d => with_governor d (governor pol))
           end
         else ret tt) ;;;
        update data (fun d => with_governor d (governor pol)) ;;;
        r <- __cpufreq_governor data CPUFREQ_GOV_START ;;
        if negb (r =? 0) then
          match old_gov with
          | Some _ =>
              update data (fun d => with_governor d old_gov) ;;;
              __cpufreq_governor data CPUFREQ_GOV_START ;;;
              ret tt
          | None => ret tt
          end ;;;
          ret (- EINVAL, pol)
        else
          __cpufreq_governor data CPUFREQ_GOV_LIMITS ;;;
          ret (0, pol)
      else
        __cpufreq_governor data CPUFREQ_GOV_LIMITS ;;;
        ret (0, pol)
  end.

(** Lines 2326-2338: the commit of the candidate's limits (of CPU 0's, for
    another CPU under CONFIG_UNI_CPU_POLICY_LIMIT); the result is what is
    left in [cpu0_policy]. *)
Definition set_policy_commit (data : ptr) (pol : cpufreq_policy)
    : M (option ptr) :=
  if CONFIG_UNI_CPU_POLICY_LIMIT P && negb (Nat.eqb (cpu pol) 0) then
    c0 <- __cpufreq_cpu_get 0 false ;;
    match c0 with
    | None => oops NULL_DEREF
    | Some q =>
        p0 <- deref q ;;
        update data (fun d => with_min d (min p0)) ;;;
        p0 <- deref q ;;
        update data (fun d => with_max d (max p0)) ;;;
        ret c0
    end
  else
    update data (fun d => with_max (with_min d (min pol)) (max pol)) ;;;
    ret None.

(** [data] is the live policy, [pol] the caller's struct; the result is the
    return value and what is left in the caller's struct. *)
Definition __cpufreq_set_policy (data : ptr) (pol : cpufreq_policy)
    : M (Z * cpufreq_policy) :=
  let pmin := min pol in
  let pmax := max pol in
  let error_out (r : Z) (pol : cpufreq_policy) : M (Z * cpufreq_policy) :=
    ret (r, with_max (with_min pol pmin) pmax) in
  d <- deref data ;;
  let qmin := Z.min (to_uint (pm_qos_request P PM_QOS_CPU_FREQ_MIN))
                    (rp_max (user_policy d)) in
  let qmax := Z.max (to_uint (pm_qos_request P PM_QOS_CPU_FREQ_MAX))
                    (rp_min (user_policy d)) in
  let pol := with_max (with_min pol (Z.max pmin qmin)) (Z.min pmax qmax) in
  let pol := with_cpuinfo pol (cpuinfo d) in
  if (min pol >? rp_max (user_policy d)) || (max pol <? rp_min (user_policy d))
  then error_out (- EINVAL) pol else
  drv <- driver ;;
  let v := verify drv pol in
  log (EvVerify (cpu pol)) ;;;
  if negb (fst v =? 0) then error_out (fst v) (snd v) else
  let pol := policy_notifier P CPUFREQ_ADJUST (snd v) in
  log (EvPolicyNotifier CPUFREQ_ADJUST (cpu pol)) ;;;
  let pol := policy_notifier P CPUFREQ_INCOMPATIBLE pol in
  log (EvPolicyNotifier CPUFREQ_INCOMPATIBLE (cpu pol)) ;;;
  let v := verify drv pol in
  log (EvVerify (cpu pol)) ;;;
  if negb (fst v =? 0) then error_out (fst v) (snd v) else
  let pol := policy_notifier P CPUFREQ_NOTIFY (snd v) in
  log (EvPolicyNotifier CPUFREQ_NOTIFY (cpu pol)) ;;;
  cpu0_policy <- set_policy_commit data pol ;;
  x <- set_policy_enforce drv data pol cpu0_policy ;;
  error_out (fst x) (snd x).

(** ** Re-evaluating a policy (lines 2406-2452) *)

Definition cpufreq_update_policy (c : nat) : M Z :=
  data <- cpufreq_cpu_get c ;;
  match data with
  | None => ret (- ENODEV)
  | Some dp =>
      r <- lock_policy_rwsem_write c ;;
      if negb (r =? 0) then ret (- EINVAL) else
      d <- deref dp ;;
      let u := user_policy d in
      let pol := with_governor
                   (with_policy (with_max (with_min d (rp_min u)) (rp_max u))
                                (rp_policy u))
                   (rp_governor u) in
      drv <- driver ;;
      pol <- match get drv with
             | None => ret pol
             | Some get_fn =>
                 let pol := with_cur pol (get_fn c) in
                 log (EvGet c) ;;;
                 (if cur d =? 0 then assign dp (with_cur d (cur pol))
                  else if negb (cur d =? cur pol)
                       then cpufreq_out_of_sync c (cur d) (cur pol)
                       else ret tt) ;;;
                 ret pol
             end ;;
      r <- __cpufreq_set_policy dp pol ;;
      unlock_policy_rwsem_write c ;;;
      ret (fst r)
  end.

Definition handle_update (pol : ptr) : M unit :=
  p <- deref pol ;;
  cpufreq_update_policy (cpu p) ;;;
  ret tt.

(** ** Attribute writers (lines 472-512, 666-701, 1027-1074) *)

Inductive limit_field := scaling_min_freq | scaling_max_freq.

(** The function the macro [store_one(file_name, object)] expands to. *)
Definition store_one (object : limit_field) (pol : ptr) (buf : string)
    (count : Z) : M Z :=
  p <- deref pol ;;
  r <- cpufreq_get_policy (cpu p) ;;
  match snd r with
  | None => ret (- EINVAL)
  | Some new_policy =>
      let limited_cpu_freq := get_max_lock P (cpu p) in
      let new_policy := with_min new_policy (rp_min (user_policy new_policy)) in
      let new_policy := with_max new_policy (rp_max (user_policy new_policy)) in
      match sscanf_u P buf with
      | None => ret (- EINVAL)
      | Some v =>
          let new_policy := match object with
                            | scaling_min_freq => with_min new_policy v
                            | scaling_max_freq => with_max new_policy v
                            end in
          drv <- driver ;;
          let new_policy := snd (verify drv new_policy) in
          log (EvVerify (cpu new_policy)) ;;;
          let new_policy :=
            if (limited_cpu_freq >? 0) && (max new_policy >? limited_cpu_freq)
            then with_max new_policy limited_cpu_freq else new_policy in
          update pol (fun p =>
            with_user_policy p
              (with_rp_min (with_rp_max (user_policy p) (max new_policy))
                           (min new_policy))) ;;;
          r <- __cpufreq_set_policy pol new_policy ;;
          let new_policy := snd r in
          update pol (fun p =>
            with_user_policy p
              match object with
              | scaling_min_freq => with_rp_min (user_policy p) (min new_policy)
              | scaling_max_freq => with_rp_max (user_policy p) (max new_policy)
              end) ;;;
          ret (if negb (fst r =? 0) then fst r else count)
      end
  end.

Definition store_scaling_min_freq := store_one scaling_min_freq.
Definition store_scaling_max_freq := store_one scaling_max_freq.

Definition store_scaling_governor (pol : ptr) (buf : string) (count : Z)
    : M Z :=
  p <- deref pol ;;
  r <- cpufreq_get_policy (cpu p) ;;
  match snd r with
  | None => ret (fst r)
  | Some new_policy =>
      match sscanf_15s buf with
      | None => ret (- EINVAL)
      | Some str_governor =>
          parsed <- cpufreq_parse_governor str_governor (policy new_policy)
                                           (governor new_policy) ;;
          if negb (fst (fst parsed) =? 0) then ret (- EINVAL) else
          let new_policy :=
            with_governor (with_policy new_policy (snd (fst parsed)))
                          (snd parsed) in
          r <- __cpufreq_set_policy pol new_policy ;;
          p <- deref pol ;;
          (if max p >? 2803200 then assign pol (with_max p 2803200)
           else ret tt) ;;;
          update pol (fun p =>
            with_user_policy p
              (with_rp_kind (user_policy p) (policy p) (governor p))) ;;;
          p <- deref pol ;;
          log (EvSysfs (sysfs_notify (cpu p) "scaling_governor") 0) ;;;
          ret (if negb (fst r =? 0) then fst r else count)
      end
  end.

(** sysfs_ops.show and sysfs_ops.store: [fattr] is the handler of the
    attribute, if it has one. *)
Definition show (pol : ptr) (fattr : option (cpufreq_policy -> string))
    : M (Z + string) :=
  p <- deref pol ;;
  q <- cpufreq_cpu_get_sysfs (cpu p) ;;
  match q with
  | None => ret (inl (- EINVAL))
  | Some q =>
      p <- deref q ;;
      r <- lock_policy_rwsem_read (cpu p) ;;
      if r <? 0 then ret (inl (- EINVAL)) else
      p <- deref q ;;
      let res := match fattr with
                 | Some f => inr (f p)
                 | None => inl (- EIO)
                 end in
      unlock_policy_rwsem_read (cpu p) ;;;
      ret res
  end.

Definition store (pol : ptr) (fattr : option (ptr -> string -> Z -> M Z))
    (buf : string) (count : Z) : M Z :=
  p <- deref pol ;;
  q <- cpufreq_cpu_get_sysfs (cpu p) ;;
  match q with
  | None => ret (- EINVAL)
  | Some q =>
      p <- deref q ;;
      r <- lock_policy_rwsem_write (cpu p) ;;
      if r <? 0 then ret (- EINVAL) else
      res <- match fattr with
             | Some f => f q buf count
             | None => ret (- EIO)
             end ;;
      p <- deref q ;;
      unlock_policy_rwsem_write (cpu p) ;;;
      ret res
  end.

(** ** Adding a CPU (lines 1100-1438) *)

(** [if (cpufreq_driver->exit) cpufreq_driver->exit(policy)]. *)
Definition driver_exit (pol : ptr) : M unit :=
  drv <- driver ;;
  if exit drv then log (EvExit pol) else ret tt.

Definition do_sysfs (o : sysfs_op) : M Z :=
  log (EvSysfs o (sysfs P o)) ;;; ret (sysfs P o).

Definition bind_cpu (c : nat) (pol : option ptr) : M unit :=
  modify (fun w => set_cpu_data w (upd (cpufreq_cpu_data w) c pol)).

Definition set_owner_cpu (c : nat) (owner_cpu : nat) : M unit :=
  modify (fun w =>
    set_policy_cpu w (upd (cpufreq_policy_cpu w) c (Z.of_nat owner_cpu))).

(** The loop of cpufreq_add_dev_policy over the CPUs [js] of
    [policy->cpus]. *)
Fixpoint add_dev_policy_loop (c : nat) (pol : ptr) (dev : nat)
    (js : list nat) : M Z :=
  match js with
  | [] => ret 0
  | j :: js' =>
      if Nat.eqb c j then add_dev_policy_loop c pol dev js' else
      managed_policy <- cpufreq_cpu_get j ;;
      match managed_policy with
      | None => add_dev_policy_loop c pol dev js'
      | Some mp =>
          unlock_policy_rwsem_write c ;;;
          m <- deref mp ;;
          set_owner_cpu c (cpu m) ;;;
          r <- lock_policy_rwsem_write c ;;
          if r <? 0 then
            driver_exit pol ;;;
            ret (- EBUSY)
          else
            __cpufreq_governor mp CPUFREQ_GOV_STOP ;;;
            p <- deref pol ;;
            update mp (fun m => with_cpus m (cpus p)) ;;;
            online <- gets cpu_online_mask ;;
            update mp (fun m => with_cpus m (cpumask_and (cpus m) online)) ;;;
            bind_cpu c (Some mp) ;;;
            __cpufreq_governor mp CPUFREQ_GOV_START ;;;
            __cpufreq_governor mp CPUFREQ_GOV_LIMITS ;;;
            m <- deref mp ;;
            r <- do_sysfs (sysfs_create_link dev (cpu m)) ;;
            driver_exit pol ;;;
            ret (if r =? 0 then 1 else r)
      end
  end.

Definition cpufreq_add_dev_policy (c : nat) (pol : ptr) (dev : nat) : M Z :=
  sv <- gets (fun w => cpufreq_policy_save w c) ;;
  g <- __find_governor (gov sv) ;;
  match g with
  | Some _ => update pol (fun p => with_governor p g)
  | None => ret tt
  end ;;;
  (if negb (save_min sv =? 0) then
     update pol (fun p => with_min p (save_min sv)) ;;;
     update pol (fun p =>
       with_user_policy p (with_rp_min (user_policy p) (min p)))
   else ret tt) ;;;
  (if negb (save_max sv =? 0) then
     update pol (fun p => with_max p (save_max sv)) ;;;
     update pol (fun p =>
       with_user_policy p (with_rp_max (user_policy p) (max p)))
   else ret tt) ;;;
  p <- deref pol ;;
  add_dev_policy_loop c pol dev (for_each_cpu (nr_cpu_ids P) (cpus p)).

Fixpoint add_dev_symlink_loop (c : nat) (pol : ptr) (js : list nat) : M Z :=
  match js with
  | [] => ret 0
  | j :: js' =>
      if Nat.eqb j c then add_dev_symlink_loop c pol js' else
      online <- cpu_online j ;;
      if negb online then add_dev_symlink_loop c pol js' else
      cpufreq_cpu_get c ;;;
      p <- deref pol ;;
      r <- do_sysfs (sysfs_create_link j (cpu p)) ;;
      if negb (r =? 0) then ret r
      else add_dev_symlink_loop c pol js'
  end.

Definition cpufreq_add_dev_symlink (c : nat) (pol : ptr) : M Z :=
  p <- deref pol ;;
  add_dev_symlink_loop c pol (for_each_cpu (nr_cpu_ids P) (cpus p)).

(** sysfs_create_file for each attribute in turn, up to the first failure. *)
Fixpoint create_files (c : nat) (attrs : list string) : M Z :=
  match attrs with
  | [] => ret 0
  | a :: attrs' =>
      r <- do_sysfs (sysfs_create_file c a) ;;
      if negb (r =? 0) then ret r else create_files c attrs'
  end.

(** The loop that binds the online CPUs of [policy->cpus] to the policy. *)
Fixpoint bind_online_cpus (pol : ptr) (js : list nat) : M unit :=
  match js with
  | [] => ret tt
  | j :: js' =>
      online <- cpu_online j ;;
      (if negb online then ret tt
       else
         bind_cpu j (Some pol) ;;;
         p <- deref pol ;;
         set_owner_cpu j (cpu p)) ;;;
      bind_online_cpus pol js'
  end.

(** [wait_for_completion(&policy->kobj_unregister)]: the release of the
    kobject signals the completion once, and a wait uses that up; [signalled]
    says whether a signal is there to be had.  Without one the caller sleeps
    for ever. *)
Definition wait_for_completion (signalled : bool) : M unit :=
  if signalled then ret tt else oops BLOCKED.

(** The result is [ret] and whether policy->kobj still holds its reference
    on return: it does not after err_out_kobj_put, where the kobject was put
    and its release waited for. *)
Definition cpufreq_add_dev_interface (c : nat) (pol : ptr) (dev : nat)
    : M (Z * bool) :=
  r <- do_sysfs (kobject_init_and_add dev) ;;
  if negb (r =? 0) then ret (r, true) else
  let err_out_kobj_put (r : Z) : M (Z * bool) :=
    do_sysfs (kobject_put dev) ;;;
    wait_for_completion true ;;;
    ret (r, false) in
  drv <- driver ;;
  r <- create_files dev
         (attr drv
          ++ (match get drv with Some _ => ["cpuinfo_cur_freq"] | None => [] end)
          ++ ["scaling_cur_freq"]
          ++ (if bios_limit drv then ["bios_limit"] else [])) ;;
  if negb (r =? 0) then err_out_kobj_put r else
  p <- deref pol ;;
  bind_online_cpus pol (for_each_cpu (nr_cpu_ids P) (cpus p)) ;;;
  r <- cpufreq_add_dev_symlink c pol ;;
  if negb (r =? 0) then err_out_kobj_put r else
  new_policy <- deref pol ;;
  update pol (fun p => with_governor p None) ;;;
  r <- __cpufreq_set_policy pol new_policy ;;
  update pol (fun p =>
    with_user_policy p (with_rp_kind (user_policy p) (policy p) (governor p))) ;;;
  (if negb (fst r =? 0) then driver_exit pol else ret tt) ;;;
  ret (fst r, true).

(** The governor of the first online CPU whose policy counts [c] among its
    related CPUs. *)
Fixpoint sibling_governor (c : nat) (siblings : list nat)
    : M (option cpufreq_governor) :=
  match siblings with
  | [] => ret None
  | sibling :: rest =>
      cp <- gets (fun w => cpufreq_cpu_data w sibling) ;;
      match cp with
      | None => sibling_governor c rest
      | Some q =>
          p <- deref q ;;
          match governor p with
          | Some g =>
              if cpumask_test_cpu c (related_cpus p) then ret (Some g)
              else sibling_governor c rest
          | None => sibling_governor c rest
          end
      end
  end.

Fixpoint unbind_cpus (js : list nat) : M unit :=
  match js with
  | [] => ret tt
  | j :: js' => bind_cpu j None ;;; unbind_cpus js'
  end.

Definition kzalloc : M ptr :=
  fun w =>
    let p := next_ptr w in
    Ret p (set_next_ptr
             (set_heap w (upd (heap w) p
                (Some {| cpus := 0%N; related_cpus := 0%N; cpu := 0%nat;
                         cpuinfo := {| max_freq := 0; min_freq := 0;
                                       transition_latency := 0 |};
                         min := 0; max := 0; cur := 0; util := 0;
                         policy := 0; governor := None;
                         user_policy := {| rp_min := 0; rp_max := 0;
                                           rp_policy := 0;
                                           rp_governor := None |} |})))
             (S p)).

Definition kfree (p : ptr) : M unit :=
  modify (fun w => set_heap w (upd (heap w) p None)).

Definition with_cpu (p : cpufreq_policy) (v : nat) : cpufreq_policy :=
  {| cpus := cpus p; related_cpus := related_cpus p; cpu := v;
     cpuinfo := cpuinfo p; min := min p; max := max p; cur := cur p;
     util := util p; policy := policy p; governor := governor p;
     user_policy := user_policy p |}.

Definition cpufreq_add_dev (dev : nat) : M Z :=
  let c := dev in
  online <- cpu_online c ;;
  if negb online then ret 0 else
  managed <- cpufreq_cpu_get c ;;
  match managed with
  | Some _ => ret 0
  | None =>
      drv <- driver ;;
      if negb (try_module_get P (drv_owner drv)) then ret (- EINVAL) else
      if negb (kzalloc_policy P) then ret (- ENOMEM) else
      if negb (alloc_cpumask_var P) then ret (- ENOMEM) else
      if negb (zalloc_cpumask_var P) then ret (- ENOMEM) else
      pol <- kzalloc ;;
      let err_unlock_policy (r : Z) : M Z :=
        unlock_policy_rwsem_write c ;;;
        kfree pol ;;;
        ret r in
      update pol (fun p => with_cpu p c) ;;;
      update pol (fun p => with_cpus p (cpumask_of c)) ;;;
      set_owner_cpu c c ;;;
      lock_policy_rwsem_write c ;;;
      online_mask <- gets cpu_online_mask ;;
      g <- sibling_governor c (for_each_cpu (nr_cpu_ids P) online_mask) ;;
      update pol (fun p =>
        with_governor p
          (match g with
           | Some _ => g
           | None => Some (CPUFREQ_DEFAULT_GOVERNOR P)
           end)) ;;;
      p <- deref pol ;;
      let r := init drv p in
      assign pol (snd r) ;;;
      log (EvInit c) ;;;
      if negb (fst r =? 0) then err_unlock_policy (fst r) else
      online_mask <- gets cpu_online_mask ;;
      update pol (fun p => with_cpus p (cpumask_and (cpus p) online_mask)) ;;;
      update pol (fun p =>
        with_user_policy p (with_rp_min (user_policy p) (min p))) ;;;
      update pol (fun p =>
        with_user_policy p (with_rp_max (user_policy p) (max p))) ;;;
      update pol (fun p => with_util p 0) ;;;
      update pol (policy_notifier P CPUFREQ_START) ;;;
      log (EvPolicyNotifier CPUFREQ_START c) ;;;
      r <- cpufreq_add_dev_policy c pol dev ;;
      if negb (r =? 0) then
        err_unlock_policy (if r >? 0 then 0 else r)
      else
      x <- cpufreq_add_dev_interface c pol dev ;;
      let r := fst x in
      if negb (r =? 0) then
        p <- deref pol ;;
        unbind_cpus (for_each_cpu (nr_cpu_ids P) (cpus p)) ;;;
        do_sysfs (kobject_put dev) ;;;
        wait_for_completion (snd x) ;;;
        err_unlock_policy r
      else
        unlock_policy_rwsem_write c ;;;
        do_sysfs (kobject_uevent dev) ;;;
        ret 0
  end.

(** ** Removing a CPU (lines 1448-1605) *)

Definition save_policy (j : nat) (d : cpufreq_policy) : M unit :=
  match governor d with
  | None => oops NULL_DEREF
  | Some g =>
      modify (fun w =>
        set_policy_save w
          (upd (cpufreq_policy_save w) j
             {| gov := strncpy (name g) (CPUFREQ_NAME_LEN P);
                save_max := rp_max (user_policy d);
                save_min := rp_min (user_policy d) |}))
  end.

Fixpoint unbind_siblings (c : nat) (js : list nat) : M unit :=
  match js with
  | [] => ret tt
  | j :: js' =>
      (if Nat.eqb j c then ret tt else bind_cpu j None) ;;;
      unbind_siblings c js'
  end.

Fixpoint unlink_siblings (c : nat) (data : ptr) (js : list nat) : M unit :=
  match js with
  | [] => ret tt
  | j :: js' =>
      (if Nat.eqb j c then ret tt
       else
         d <- deref data ;;
         save_policy j d ;;;
         unlock_policy_rwsem_write c ;;;
         do_sysfs (sysfs_remove_link j) ;;;
         lock_policy_rwsem_write c ;;;
         ret tt) ;;;
      unlink_siblings c data js'
  end.

(** The recursion of the C function (the owner of a shared policy leaves:
    the first sibling is added afresh, then the leaving CPU is removed once
    more) is bounded by [fuel]; [None] when it is used up. *)
Fixpoint __cpufreq_remove_dev (fuel : nat) (dev : nat) : M (option Z) :=
  match fuel with
  | O => ret None
  | S fuel' =>
      let c := dev in
      data <- gets (fun w => cpufreq_cpu_data w c) ;;
      match data with
      | None =>
          unlock_policy_rwsem_write c ;;;
          ret (Some (- EINVAL))
      | Some dp =>
          bind_cpu c None ;;;
          d <- deref dp ;;
          if negb (Nat.eqb c (cpu d)) then
            __cpufreq_governor dp CPUFREQ_GOV_STOP ;;;
            update dp (fun d => with_cpus d (cpumask_clear_cpu c (cpus d))) ;;;
            __cpufreq_governor dp CPUFREQ_GOV_START ;;;
            __cpufreq_governor dp CPUFREQ_GOV_LIMITS ;;;
            unlock_policy_rwsem_write c ;;;
            do_sysfs (sysfs_remove_link c) ;;;
            ret (Some 0)
          else
            save_policy c d ;;;
            let members := for_each_cpu (nr_cpu_ids P) (cpus d) in
            (if (1 <? cpumask_weight (nr_cpu_ids P) (cpus d))%nat
             then unbind_siblings c members else ret tt) ;;;
            (if (1 <? cpumask_weight (nr_cpu_ids P) (cpus d))%nat
             then unlink_siblings c dp members else ret tt) ;;;
            drv <- driver ;;
            (if target drv then __cpufreq_governor dp CPUFREQ_GOV_STOP ;;; ret tt
             else ret tt) ;;;
            unlock_policy_rwsem_write c ;;;
            do_sysfs (kobject_put c) ;;;
            lock_policy_rwsem_write c ;;;
            driver_exit dp ;;;
            unlock_policy_rwsem_write c ;;;
            d <- deref dp ;;
            r <- (if (1 <? cpumask_weight (nr_cpu_ids P) (cpus d))%nat then
                    update dp (fun d =>
                      with_cpus d (cpumask_clear_cpu c (cpus d))) ;;;
                    d <- deref dp ;;
                    cpufreq_add_dev (cpumask_first (nr_cpu_ids P) (cpus d)) ;;;
                    lock_policy_rwsem_write c ;;;
                    __cpufreq_remove_dev fuel' dev
                  else ret (Some 0)) ;;
            match r with
            | None => ret None
            | Some _ =>
                kfree dp ;;;
                ret (Some 0)
            end
      end
  end.

Definition cpufreq_remove_dev (fuel : nat) (dev : nat) : M (option Z) :=
  online <- cpu_online dev ;;
  if negb online then ret (Some 0) else
  r <- lock_policy_rwsem_write dev ;;
  if negb (r =? 0) then oops BUG else
  __cpufreq_remove_dev fuel dev.

(** NOTIFY_OK (include/linux/notifier.h). *)
Definition NOTIFY_OK : Z := 1.

(** The hotplug notifier (lines 2518-2545); a CPU below [nr_cpu_ids] has a
    device. *)
Definition cpufreq_cpu_callback (fuel : nat) (action : hotplug_action)
    (hcpu : nat) : M (option Z) :=
  if (nr_cpu_ids P <=? hcpu)%nat then ret (Some NOTIFY_OK) else
  match action with
  | CPU_ONLINE | CPU_ONLINE_FROZEN | CPU_DOWN_FAILED | CPU_DOWN_FAILED_FROZEN =>
      cpufreq_add_dev hcpu ;;;
      ret (Some NOTIFY_OK)
  | CPU_DOWN_PREPARE | CPU_DOWN_PREPARE_FROZEN =>
      r <- lock_policy_rwsem_write hcpu ;;
      if negb (r =? 0) then oops BUG else
      r <- __cpufreq_remove_dev fuel hcpu ;;
      match r with
      | None => ret None
      | Some _ => ret (Some NOTIFY_OK)
      end
  | _ => ret (Some NOTIFY_OK)
  end.

End Core.

(** ** Vocabulary of the statements *)

(** The semaphore can be taken without sleeping for ever. *)
Definition can_down (mode : lock_mode) (s : rw_semaphore) : bool :=
  match mode with
  | read => negb (writer s)
  | write => negb (writer s) && Nat.eqb (readers s) 0
  end.

(** The semaphore as [down] leaves it. *)
Definition held (mode : lock_mode) (s : rw_semaphore) : rw_semaphore :=
  match mode with
  | read => {| readers := S (readers s); writer := false |}
  | write => {| readers := 0; writer := true |}
  end.


(** The sentence "a reported old frequency that disagrees with the policy's
    current frequency is corrected before the observers hear of it", read
    at one call of cpufreq_notify_transition. *)
Definition prechange_corrects_any_disagreement (P : platform) (w : world)
    (freqs : cpufreq_freqs) : Prop :=
  forall drv pp p f' w',
    cpufreq_driver w = Some drv ->
    const_loops P drv = false ->
    cpufreq_cpu_data w (f_cpu freqs) = Some pp ->
    heap w pp = Some p ->
    cur p <> f_old freqs ->
    cpufreq_notify_transition P freqs CPUFREQ_PRECHANGE w = Ret f' w' ->
    f_old f' = cur p.

(** The sentence "a nonzero query that differs from the nonzero current
    frequency leaves the current frequency equal to the queried value",
    read at one call of __cpufreq_get. *)
Definition query_always_converges (P : platform) (w : world) (c : nat)
    : Prop :=
  forall drv get_fn pp p r w',
    cpufreq_driver w = Some drv ->
    const_loops P drv = false ->
    get drv = Some get_fn ->
    cpufreq_cpu_data w c = Some pp ->
    heap w pp = Some p ->
    get_fn c <> 0 -> cur p <> 0 -> get_fn c <> cur p ->
    __cpufreq_get P c w = Ret r w' ->
    exists p', heap w' pp = Some p' /\ cur p' = get_fn c.

(** The stages of the candidate in __cpufreq_set_policy: after the clamp to
    the PM QoS limits, after the first verify and the ADJUST and
    INCOMPATIBLE notifiers, and after the second verify and NOTIFY. *)
Definition qos_min (P : platform) (d : cpufreq_policy) : Z :=
  Z.min (to_uint (pm_qos_request P PM_QOS_CPU_FREQ_MIN)) (rp_max (user_policy d)).
Definition qos_max (P : platform) (d : cpufreq_policy) : Z :=
  Z.max (to_uint (pm_qos_request P PM_QOS_CPU_FREQ_MAX)) (rp_min (user_policy d)).
Definition clamped (P : platform) (d pol : cpufreq_policy) : cpufreq_policy :=
  with_cpuinfo
    (with_max (with_min pol (Z.max (min pol) (qos_min P d)))
              (Z.min (max pol) (qos_max P d)))
    (cpuinfo d).
Definition bounds_conflict (d c : cpufreq_policy) : bool :=
  (min c >? rp_max (user_policy d)) || (max c <? rp_min (user_policy d)).
Definition adjusted (P : platform) (drv : cpufreq_driver_t)
    (c : cpufreq_policy) : cpufreq_policy :=
  policy_notifier P CPUFREQ_INCOMPATIBLE
    (policy_notifier P CPUFREQ_ADJUST (snd (verify drv c))).
Definition notified (P : platform) (drv : cpufreq_driver_t)
    (c : cpufreq_policy) : cpufreq_policy :=
  policy_notifier P CPUFREQ_NOTIFY (snd (verify drv (adjusted P drv c))).

(** The call gets past the bounds check and both verify steps. *)
Definition accepted (P : platform) (drv : cpufreq_driver_t)
    (d pol : cpufreq_policy) : Prop :=
  bounds_conflict d (clamped P d pol) = false
  /\ fst (verify drv (clamped P d pol)) = 0
  /\ fst (verify drv (adjusted P drv (clamped P d pol))) = 0.

(** What the caller's struct holds on return: the candidate [c] with the
    limits the caller came with. *)
Definition restored (pol c : cpufreq_policy) : cpufreq_policy :=
  with_max (with_min c (min pol)) (max pol).

(** Log entries that change what is enforced: governor callbacks and
    setpolicy. *)
Definition enforces (e : event) : bool :=
  match e with
  | EvGovernor _ _ _ _ | EvSetpolicy _ => true
  | _ => false
  end.

Definition enforcing (t : list event) : list event := filter enforces t.

(** The latency test at the head of __cpufreq_governor. *)
Definition too_slow (g : cpufreq_governor) (p : cpufreq_policy) : bool :=
  negb (max_transition_latency g =? 0)
  && (transition_latency (cpuinfo p) >? max_transition_latency g).

(** __cpufreq_governor on the policy [p] alone: the return value, the policy
    it leaves, and the governor whose callback ran, if one did.  [None]
    when [p] has no governor (a NULL dereference). *)
Definition governor_call (P : platform) (ev : gov_event) (p : cpufreq_policy)
    : option (Z * cpufreq_policy * option cpufreq_governor) :=
  match governor p with
  | None => None
  | Some g =>
      match (if too_slow g p then cpufreq_gov_performance P else Some g) with
      | None => Some (- EINVAL, p, None)
      | Some g' =>
          let p1 := if too_slow g p then with_governor p (Some g') else p in
          if negb (try_module_get P (owner g')) then Some (- EINVAL, p1, None)
          else Some (fst (governor_fn P g' ev p1),
                     snd (governor_fn P g' ev p1), Some g')
      end
  end.

Definition called_event (pol : ptr) (ev : gov_event) (r : Z)
    (called : option cpufreq_governor) : list event :=
  match called with
  | Some g => [EvGovernor pol g ev r]
  | None => []
  end.


(** The governors' callbacks write [cur] and [util] only. *)
Definition governors_keep_policy (P : platform) : Prop :=
  forall g e p, exists c u,
    snd (governor_fn P g e p) = with_util (with_cur p c) u.

(** [p'] is [p] up to governor, cur and util. *)
Definition same_limits (p p' : cpufreq_policy) : Prop :=
  cpus p' = cpus p /\ related_cpus p' = related_cpus p /\ cpu p' = cpu p
  /\ cpuinfo p' = cpuinfo p /\ min p' = min p /\ max p' = max p
  /\ policy p' = policy p /\ user_policy p' = user_policy p.

(** Everything of the world but the heap and the log is the same. *)
Definition frame (w w' : world) : Prop :=
  cpufreq_driver w' = cpufreq_driver w
  /\ cpufreq_cpu_data w' = cpufreq_cpu_data w
  /\ cpufreq_policy_save w' = cpufreq_policy_save w
  /\ cpufreq_policy_cpu w' = cpufreq_policy_cpu w
  /\ cpu_policy_rwsem w' = cpu_policy_rwsem w
  /\ cpufreq_governor_list w' = cpufreq_governor_list w
  /\ cpu_online_mask w' = cpu_online_mask w
  /\ next_ptr w' = next_ptr w.

(** The governor that the log says is running on the policy at [pol]: the
    one of the last successful START that no successful STOP followed. *)
Definition running_step (pol : ptr) (st : option cpufreq_governor)
    (e : event) : option cpufreq_governor :=
  match e with
  | EvGovernor q g CPUFREQ_GOV_START r =>
      if Nat.eqb q pol && (r =? 0) then Some g else st
  | EvGovernor q g CPUFREQ_GOV_STOP r =>
      if Nat.eqb q pol && (r =? 0) then None else st
  | _ => st
  end.
Definition running_governor (t : list event) (pol : ptr)
    : option cpufreq_governor :=
  fold_left (running_step pol) t None.

(** The live policy with the candidate's limits committed. *)
Definition committed (d c : cpufreq_policy) : cpufreq_policy :=
  with_max (with_min d (min c)) (max c).



(** The policy at [data] is allocated and satisfies [R]. *)
Definition holds (data : ptr) (R : cpufreq_policy -> Prop) (w : world) : Prop :=
  exists p, heap w data = Some p /\ R p.

(** Every value the call can return satisfies [Q]. *)
Definition returns {A : Type} (m : M A) (Q : A -> Prop) : Prop :=
  forall w a w', m w = Ret a w' -> Q a.

(** [I] survives the call. *)
Definition stable {A : Type} (I : world -> Prop) (m : M A) : Prop :=
  forall w a w', I w -> m w = Ret a w' -> I w'.

(** [R] survives whatever __cpufreq_governor does to a policy. *)
Definition governor_closed (P : platform) (R : cpufreq_policy -> Prop) : Prop :=
  forall ev p r p' called,
    governor_call P ev p = Some (r, p', called) -> R p -> R p'.


(** The sentence "after every invocation of store_scaling_governor the
    live policy's max is at most 2803200", read at one invocation. *)
Definition max_capped_after_store (P : platform) (w : world) (pol : ptr)
    (buf : string) (count : Z) : Prop :=
  forall r w' p',
    store_scaling_governor P pol buf count w = Ret r w' ->
    heap w' pol = Some p' ->
    max p' <= 2803200.

(** Every CPU that is bound to a policy is bound to an allocated one. *)
Definition mapped_alive (w : world) : Prop :=
  forall j q, cpufreq_cpu_data w j = Some q -> heap w q <> None.

(** verify and the policy notifiers adjust min and max, nothing else, and
    verify accepts. *)
Definition verify_adjusts (drv : cpufreq_driver_t) : Prop :=
  forall x, fst (verify drv x) = 0
            /\ exists a b, snd (verify drv x) = with_max (with_min x a) b.
Definition notifiers_adjust (P : platform) : Prop :=
  forall e x, exists a b, policy_notifier P e x = with_max (with_min x a) b.

(** The driver's init succeeds for CPU [c], leaves it the owner, and reports
    no other online CPU in its domain. *)
Definition init_alone (P : platform) (drv : cpufreq_driver_t) (c : nat)
    (online : cpumask) : Prop :=
  forall pin,
    cpu pin = c ->
    cpus pin = cpumask_of c ->
    fst (init drv pin) = 0
    /\ cpu (snd (init drv pin)) = c
    /\ for_each_cpu (nr_cpu_ids P)
         (cpumask_and (cpus (snd (init drv pin))) online) = [c].


(** What cpufreq_add_dev_policy makes of the provisional policy [q] when
    the saved governor [g] is found and the saved limits are nonzero. *)
Definition restore_saved (q : cpufreq_policy) (g : cpufreq_governor)
    (umin umax : Z) : cpufreq_policy :=
  let q := with_governor q (Some g) in
  let q := with_min q umin in
  let q := with_user_policy q (with_rp_min (user_policy q) (min q)) in
  let q := with_max q umax in
  with_user_policy q (with_rp_max (user_policy q) (max q)).

(** Only the heap differs. *)
Definition heap_only (w w' : world) : Prop :=
  frame w w' /\ trace w' = trace w.



(** The world a call leaves behind (the world it started in, had it
    crashed). *)
Definition world_after {A} (m : M A) (w : world) : world :=
  match m w with
  | Ret _ w' => w'
  | Oops _ => w
  end.

(** ** A board to run the model on *)

Module Board.

Definition ondemand : cpufreq_governor :=
  {| name := "ondemand"; max_transition_latency := 10000000;
     owner := "cpufreq_ondemand" |}.
Definition powersave : cpufreq_governor :=
  {| name := "powersave"; max_transition_latency := 0;
     owner := "cpufreq_powersave" |}.
Definition performance : cpufreq_governor :=
  {| name := "performance"; max_transition_latency := 0;
     owner := "cpufreq_performance" |}.
(** A governor whose START always fails. *)
Definition broken : cpufreq_governor :=
  {| name := "broken"; max_transition_latency := 0%Z;
     owner := "cpufreq_broken" |}.

Definition hw : cpufreq_cpuinfo :=
  {| max_freq := 2457600; min_freq := 300000; transition_latency := 1000 |}.

Definition clamp (lo hi v : Z) : Z := Z.max lo (Z.min hi v).

(** verify in the style of cpufreq_verify_within_limits. *)
Definition within_limits (p : cpufreq_policy) : Z * cpufreq_policy :=
  let i := cpuinfo p in
  (0, with_max (with_min p (clamp (min_freq i) (max_freq i) (min p)))
               (clamp (min_freq i) (max_freq i) (max p))).

Definition board_init (p : cpufreq_policy) : Z * cpufreq_policy :=
  (0, with_cur (with_max (with_min (with_cpuinfo p hw) 300000) 2457600) 300000).

Definition msm : cpufreq_driver_t :=
  {| drv_name := "msm"; drv_owner := "msm"; flags := 0;
     init := board_init; verify := within_limits; setpolicy := None;
     target := true; get := Some (fun _ => 1200000); exit := true;
     bios_limit := false; attr := [] |}.

Definition governor_cb (g : cpufreq_governor) (e : gov_event)
    (p : cpufreq_policy) : Z * cpufreq_policy :=
  match e with
  | CPUFREQ_GOV_START =>
      if String.eqb (name g) "broken" then (- EINVAL, p) else (0, p)
  | _ => (0, p)
  end.

(** [qos_min], [qos_max]: the PM QoS floor and ceiling; [sysfs_fn]: what
    sysfs answers; [race]: hotplug during a sleep. *)
Definition board (qos_min qos_max : Z) (sysfs_fn : sysfs_op -> Z)
    (race : cpumask -> cpumask) : platform :=
  {| nr_cpu_ids := 4%nat;
     CPUFREQ_CONST_LOOPS := 2;
     CPUFREQ_NAME_LEN := 16%nat;
     CPUFREQ_POLICY_POWERSAVE := 1;
     CPUFREQ_POLICY_PERFORMANCE := 2;
     CPUFREQ_DEFAULT_GOVERNOR := ondemand;
     CONFIG_UNI_CPU_POLICY_LIMIT := false;
     cpufreq_gov_performance := Some performance;
     governor_fn := governor_cb;
     policy_notifier := fun _ p => p;
     pm_qos_request := fun c => match c with
                                | PM_QOS_CPU_FREQ_MIN => qos_min
                                | PM_QOS_CPU_FREQ_MAX => qos_max
                                end;
     try_module_get := fun _ => true;
     request_module := fun _ l => (-2, l);
     sysfs := sysfs_fn;
     kzalloc_policy := true;
     alloc_cpumask_var := true;
     zalloc_cpumask_var := true;
     get_max_lock := fun _ => 0;
     sscanf_u := fun s => if String.eqb s "800000" then Some 800000 else None;
     hotplug_while_asleep := race |}.

(** No QoS request pending, sysfs never fails, no concurrent hotplug. *)
Definition quiet : platform := board 0 2147483647 (fun _ => 0) (fun m => m).

(** CPUs 0 and 1 share the policy at address 0, owned by CPU 0 and governed
    by ondemand; CPU 2 has the policy at address 1 to itself, governed by
    powersave within 900000..1400000; CPU 3 is online but not yet added. *)
Definition shared : cpufreq_policy :=
  {| cpus := 3%N; related_cpus := 3%N; cpu := 0%nat; cpuinfo := hw;
     min := 300000; max := 2457600; cur := 1000000; util := 0; policy := 0;
     governor := Some ondemand;
     user_policy := {| rp_min := 300000; rp_max := 2457600; rp_policy := 0;
                       rp_governor := Some ondemand |} |}.

Definition solo : cpufreq_policy :=
  {| cpus := 4%N; related_cpus := 4%N; cpu := 2%nat; cpuinfo := hw;
     min := 900000; max := 1400000; cur := 1000000; util := 0; policy := 0;
     governor := Some powersave;
     user_policy := {| rp_min := 900000; rp_max := 1400000; rp_policy := 0;
                       rp_governor := Some powersave |} |}.

Definition empty_save : cpufreq_cpu_save_data :=
  {| gov := EmptyString; save_max := 0; save_min := 0 |}.

Definition w0 : world :=
  {| cpufreq_driver := Some msm;
     cpufreq_cpu_data := fun c => match c with
                                  | 0%nat | 1%nat => Some 0%nat
                                  | 2%nat => Some 1%nat
                                  | _ => None
                                  end;
     cpufreq_policy_save := fun _ => empty_save;
     cpufreq_policy_cpu := fun c => match c with
                                    | 0%nat | 1%nat => 0
                                    | 2%nat => 2
                                    | _ => -1
                                    end;
     cpu_policy_rwsem := fun _ => {| readers := 0; writer := false |};
     cpufreq_governor_list := [ondemand; powersave; performance; broken];
     cpu_online_mask := 15%N;
     heap := fun a => match a with
                      | 0%nat => Some shared
                      | 1%nat => Some solo
                      | _ => None
                      end;
     next_ptr := 2%nat;
     trace := [] |}.

(** The policy of CPU 2 on hardware that goes up to 3000000. *)
Definition fast : cpufreq_policy :=
  {| cpus := 4%N; related_cpus := 4%N; cpu := 2%nat;
     cpuinfo := {| max_freq := 3000000; min_freq := 300000;
                   transition_latency := 1000 |};
     min := 900000; max := 3000000; cur := 1000000; util := 0; policy := 0;
     governor := Some powersave;
     user_policy := {| rp_min := 900000; rp_max := 3000000; rp_policy := 0;
                       rp_governor := Some powersave |} |}.

Definition w_fast : world := set_heap w0 (upd (heap w0) 1%nat (Some fast)).

(** sysfs that cannot create the kobject of CPU 3's policy. *)
Definition no_memory_for_cpu3 (o : sysfs_op) : Z :=
  match o with
  | kobject_init_and_add 3 => - ENOMEM
  | _ => 0
  end.

(** [w0] after CPU 3 was removed while governed by the governor whose START
    fails. *)
Definition w_broken : world :=
  set_policy_save w0
    (upd (cpufreq_policy_save w0) 3%nat
       {| gov := "broken"; save_max := 1400000; save_min := 900000 |}).

(** A driver whose CPUs 0 and 1 form one scaling domain: init reports both
    for either of them. *)
Definition paired_init (p : cpufreq_policy) : Z * cpufreq_policy :=
  let p' := snd (board_init p) in
  (0, if (cpu p <? 2)%nat
      then {| cpus := 3%N; related_cpus := 3%N; cpu := cpu p';
              cpuinfo := cpuinfo p'; min := min p'; max := max p';
              cur := cur p'; util := util p'; policy := policy p';
              governor := governor p'; user_policy := user_policy p' |}
      else p').

Definition msm_pair : cpufreq_driver_t :=
  {| drv_name := "msm"; drv_owner := "msm"; flags := 0;
     init := paired_init; verify := within_limits; setpolicy := None;
     target := true; get := Some (fun _ => 1200000); exit := true;
     bios_limit := false; attr := [] |}.

(** CPUs 0 and 1 share a policy governed by powersave within
    900000..1400000. *)
Definition pair : cpufreq_policy :=
  {| cpus := 3%N; related_cpus := 3%N; cpu := 0%nat; cpuinfo := hw;
     min := 900000; max := 1400000; cur := 1000000; util := 0; policy := 0;
     governor := Some powersave;
     user_policy := {| rp_min := 900000; rp_max := 1400000; rp_policy := 0;
                       rp_governor := Some powersave |} |}.

Definition w_pair : world :=
  {| cpufreq_driver := Some msm_pair;
     cpufreq_cpu_data := cpufreq_cpu_data w0;
     cpufreq_policy_save := cpufreq_policy_save w0;
     cpufreq_policy_cpu := cpufreq_policy_cpu w0;
     cpu_policy_rwsem := cpu_policy_rwsem w0;
     cpufreq_governor_list := cpufreq_governor_list w0;
     cpu_online_mask := cpu_online_mask w0;
     heap := upd (heap w0) 0%nat (Some pair);
     next_ptr := next_ptr w0;
     trace := [] |}.






End Board.

(** ** The rest of the file's interface *)

(** [strncmp s1 s2 n] is [true] when the C function returns 0. *)
Fixpoint strncmp (s1 s2 : string) (n : nat) : bool :=
  match n with
  | O => true
  | S n' =>
      match s1, s2 with
      | EmptyString, EmptyString => true
      | String c1 r1, String c2 r2 =>
          if Ascii.eqb c1 c2 then strncmp r1 r2 n' else false
      | _, _ => false
      end
  end.

(** The field of a policy, and of a saved snapshot, that the macro argument
    [object] names. *)
Definition policy_limit (object : limit_field) (p : cpufreq_policy) : Z :=
  match object with
  | scaling_min_freq => min p
  | scaling_max_freq => max p
  end.

Definition saved_limit (object : limit_field) (s : cpufreq_cpu_save_data)
    : Z :=
  match object with
  | scaling_min_freq => save_min s
  | scaling_max_freq => save_max s
  end.

Definition with_saved_limit (object : limit_field)
    (s : cpufreq_cpu_save_data) (v : Z) : cpufreq_cpu_save_data :=
  match object with
  | scaling_min_freq =>
      {| gov := gov s; save_max := save_max s; save_min := v |}
  | scaling_max_freq =>
      {| gov := gov s; save_max := v; save_min := save_min s |}
  end.

Definition with_saved_gov (s : cpufreq_cpu_save_data) (v : string)
    : cpufreq_cpu_save_data :=
  {| gov := v; save_max := save_max s; save_min := save_min s |}.

(** [list_del] of the governor's node: the list without it. *)
Fixpoint list_del (g : cpufreq_governor) (l : list cpufreq_governor)
    : list cpufreq_governor :=
  match l with
  | [] => []
  | t :: r => if governor_eqb g t then r else t :: list_del g r
  end.

Section Rest.

Variable P : platform.

(** [off]: set by disable_cpufreq() during boot, never cleared. *)
Variable off : bool.

(** cpu_present_mask and cpu_possible_mask (kernel/cpu.c). *)
Variable cpu_present_mask : cpumask.
Variable cpu_possible_mask : cpumask.

(** The [target] callback of the registered driver, where it has one; it
    returns its result and the policy it leaves behind.  The build is
    without CONFIG_LGE_LOW_BATT_LIMIT. *)
Variable target_fn : cpufreq_policy -> Z -> Z -> Z * cpufreq_policy.

(** What kobject_create_and_add and pm_qos_add_notifier answer at boot. *)
Variable kobject_create_and_add : bool.
Variable pm_qos_add_notifier : pm_qos_class -> Z.

Definition cpufreq_disabled : bool := off.

(** ** Last known values (lines 1648-1701) *)

Definition cpufreq_quick_get_util (c : nat) : M Z :=
  pol <- __cpufreq_cpu_get P c false ;;
  match pol with
  | Some pp => p <- deref pp ;; ret (util p)
  | None => ret 0
  end.

Definition cpufreq_quick_get (c : nat) : M Z :=
  pol <- cpufreq_cpu_get P c ;;
  match pol with
  | Some pp => p <- deref pp ;; ret (cur p)
  | None => ret 0
  end.

Definition cpufreq_quick_get_max (c : nat) : M Z :=
  pol <- cpufreq_cpu_get P c ;;
  match pol with
  | Some pp => p <- deref pp ;; ret (max p)
  | None => ret 0
  end.

(** ** Governor registration (lines 2182-2235) *)

Definition cpufreq_register_governor (governor : option cpufreq_governor)
    : M Z :=
  match governor with
  | None => ret (- EINVAL)
  | Some g =>
      if cpufreq_disabled then ret (- ENODEV) else
      t <- __find_governor P (name g) ;;
      match t with
      | None =>
          modify (fun w =>
            set_governor_list w (g :: cpufreq_governor_list w)) ;;;
          ret 0
      | Some _ => ret (- EBUSY)
      end
  end.

(** The loop of cpufreq_unregister_governor over the present CPUs.  The
    [if] on the saved name has no braces: the two assignments of zero
    follow it for every offline CPU. *)
Fixpoint forget_saved (g : cpufreq_governor) (cpus : list nat) : M unit :=
  match cpus with
  | [] => ret tt
  | c :: rest =>
      online <- cpu_online c ;;
      (if online then ret tt
       else
         modify (fun w =>
           let s := cpufreq_policy_save w c in
           set_policy_save w
             (upd (cpufreq_policy_save w) c
                {| gov := if String.eqb (gov s) (name g) then EmptyString
                          else gov s;
                   save_max := 0;
                   save_min := 0 |}))) ;;;
      forget_saved g rest
  end.

(** list_del of a node that is on no list follows its NULL (or poisoned)
    links. *)
Definition cpufreq_unregister_governor (governor : option cpufreq_governor)
    : M unit :=
  match governor with
  | None => ret tt
  | Some g =>
      if cpufreq_disabled then ret tt else
      forget_saved g (for_each_cpu (nr_cpu_ids P) cpu_present_mask) ;;;
      l <- gets cpufreq_governor_list ;;
      if existsb (governor_eqb g) l
      then modify (fun w => set_governor_list w (list_del g l))
      else oops NULL_DEREF
  end.

(** ** Asking the driver for a frequency (lines 2026-2110) *)

Definition __cpufreq_driver_target (pol : ptr) (target_freq relation : Z)
    : M Z :=
  if cpufreq_disabled then ret (- ENODEV) else
  p <- deref pol ;;
  if target_freq =? cur p then ret 0 else
  online <- cpu_online (cpu p) ;;
  if negb online then ret (- EINVAL) else
  drv <- driver ;;
  if negb (target drv) then ret (- EINVAL) else
  p <- deref pol ;;
  let r := target_fn p target_freq relation in
  assign pol (snd r) ;;;
  ret (fst r).

Definition cpufreq_driver_target (pol : ptr) (target_freq relation : Z)
    : M Z :=
  p <- deref pol ;;
  q <- cpufreq_cpu_get P (cpu p) ;;
  match q with
  | None => ret (- EINVAL)
  | Some q =>
      p <- deref q ;;
      r <- lock_policy_rwsem_write P (cpu p) ;;
      if negb (r =? 0) then ret (- EINVAL) else
      r <- __cpufreq_driver_target q target_freq relation ;;
      p <- deref q ;;
      unlock_policy_rwsem_write (cpu p) ;;;
      ret r
  end.

(** ** cpufreq_set_gov (lines 2459-2516) *)

Definition cpufreq_set_gov (target_gov : option string) (c : nat) : M Z :=
  match target_gov with
  | None => ret (- EINVAL)
  | Some target =>
      cur_policy <- cpufreq_cpu_get P c ;;
      match cur_policy with
      | None => ret (- EINVAL)
      | Some cp =>
          p <- deref cp ;;
          r <- lock_policy_rwsem_read P (cpu p) ;;
          if r <? 0 then ret (- EINVAL) else
          p <- deref cp ;;
          match governor p with
          | None =>
              unlock_policy_rwsem_read (cpu p) ;;;
              ret (- EINVAL)
          | Some g =>
              let same := strncmp (name g) target (String.length target) in
              unlock_policy_rwsem_read (cpu p) ;;;
              if same then ret (- EINVAL) else
              new_policy <- deref cp ;;
              parsed <- cpufreq_parse_governor P target (policy new_policy)
                                               (governor new_policy) ;;
              if negb (fst (fst parsed) =? 0) then ret (- EINVAL) else
              let new_policy :=
                with_governor (with_policy new_policy (snd (fst parsed)))
                              (snd parsed) in
              p <- deref cp ;;
              r <- lock_policy_rwsem_write P (cpu p) ;;
              if r <? 0 then ret (- EINVAL) else
              r <- __cpufreq_set_policy P cp new_policy ;;
              update cp (fun p =>
                with_user_policy p
                  (with_rp_kind (user_policy p) (policy p) (governor p))) ;;;
              p <- deref cp ;;
              unlock_policy_rwsem_write (cpu p) ;;;
              ret (fst r)
          end
      end
  end.

(** ** The attributes of all_cpus (CONFIG_MULTI_CPU_POLICY_LIMIT; lines
    514-632 and 767-837) *)

(** The function [show_scaling_freq(file_name, object)] expands to. *)
Definition show_scaling_freq (object : limit_field) : M (Z + string) :=
  cpu_policy <- __cpufreq_cpu_get P 0 true ;;
  match cpu_policy with
  | None => ret (inl (- EINVAL))
  | Some q => p <- deref q ;; ret (inr (sprintf_u (policy_limit object p)))
  end.

(** [show_pcpu_scaling_freq(file_name, object, num_core)]. *)
Definition show_pcpu_scaling_freq (object : limit_field) (num_core : nat)
    : M (Z + string) :=
  online <- cpu_online num_core ;;
  if negb online then
    s <- gets (fun w => cpufreq_policy_save w num_core) ;;
    ret (inr (sprintf_u (saved_limit object s)))
  else
    cpu_policy <- __cpufreq_cpu_get P num_core true ;;
    match cpu_policy with
    | None => ret (inl (- EINVAL))
    | Some q => p <- deref q ;; ret (inr (sprintf_u (policy_limit object p)))
    end.

Definition save_limit (object : limit_field) (c : nat) (freq : Z) : M unit :=
  modify (fun w =>
    set_policy_save w
      (upd (cpufreq_policy_save w) c
         (with_saved_limit object (cpufreq_policy_save w c) freq))).

Definition save_gov (c : nat) (str_governor : string) : M unit :=
  modify (fun w =>
    set_policy_save w
      (upd (cpufreq_policy_save w) c
         (with_saved_gov (cpufreq_policy_save w c)
            (strncpy str_governor (CPUFREQ_NAME_LEN P))))).

(** The loop of [store_scaling_freq] over the possible CPUs. *)
Fixpoint store_scaling_freq_loop (object : limit_field) (freq : Z)
    (buf : string) (count : Z) (cpus : list nat) : M unit :=
  match cpus with
  | [] => ret tt
  | c :: rest =>
      online <- cpu_online c ;;
      (if negb online then save_limit object c freq
       else
         cpu_policy <- __cpufreq_cpu_get P c true ;;
         match cpu_policy with
         | None => ret tt
         | Some q => store_one P object q buf count ;;; ret tt
         end) ;;;
      store_scaling_freq_loop object freq buf count rest
  end.

(** [store_scaling_freq(file_name, ref_store_name, object)]. *)
Definition store_scaling_freq (object : limit_field) (buf : string)
    (count : Z) : M Z :=
  match sscanf_u P buf with
  | None => ret (- EINVAL)
  | Some freq =>
      store_scaling_freq_loop object freq buf count
        (for_each_cpu (nr_cpu_ids P) cpu_possible_mask) ;;;
      ret count
  end.

(** [store_pcpu_scaling_freq(file_name, ref_store_name, object, num_core)]. *)
Definition store_pcpu_scaling_freq (object : limit_field) (num_core : nat)
    (buf : string) (count : Z) : M Z :=
  match sscanf_u P buf with
  | None => ret (- EINVAL)
  | Some freq =>
      online <- cpu_online num_core ;;
      if negb online then
        save_limit object num_core freq ;;;
        ret count
      else
        cpu_policy <- __cpufreq_cpu_get P num_core true ;;
        match cpu_policy with
        | None => ret (- EINVAL)
        | Some q => store_one P object q buf count ;;; ret count
        end
  end.

Fixpoint store_scaling_governor_loop (str_governor buf : string) (count : Z)
    (cpus : list nat) : M unit :=
  match cpus with
  | [] => ret tt
  | c :: rest =>
      online <- cpu_online c ;;
      (if negb online then save_gov c str_governor
       else
         cpu_policy <- __cpufreq_cpu_get P c true ;;
         match cpu_policy with
         | None => ret tt
         | Some q => store_scaling_governor P q buf count ;;; ret tt
         end) ;;;
      store_scaling_governor_loop str_governor buf count rest
  end.

Definition store_scaling_governor_all_cpus (buf : string) (count : Z)
    : M Z :=
  match sscanf_15s buf with
  | None => ret (- EINVAL)
  | Some str_governor =>
      store_scaling_governor_loop str_governor buf count
        (for_each_cpu (nr_cpu_ids P) cpu_possible_mask) ;;;
      ret count
  end.

(** [store_pcpu_scaling_governor(num_core)]. *)
Definition store_pcpu_scaling_governor (num_core : nat) (buf : string)
    (count : Z) : M Z :=
  match sscanf_15s buf with
  | None => ret (- EINVAL)
  | Some str_governor =>
      online <- cpu_online num_core ;;
      if negb online then
        save_gov num_core str_governor ;;;
        ret count
      else
        cpu_policy <- __cpufreq_cpu_get P num_core true ;;
        match cpu_policy with
        | None => ret (- EINVAL)
        | Some q => store_scaling_governor P q buf count ;;; ret count
        end
  end.

(** ** The PM QoS notifier and boot (lines 2666-2713) *)

(** for_each_online_cpu reads the online mask as it is at each step. *)
Fixpoint cpu_freq_notify_loop (cpus : list nat) : M unit :=
  match cpus with
  | [] => ret tt
  | c :: rest =>
      online <- cpu_online c ;;
      (if negb online then ret tt
       else
         pol <- cpufreq_cpu_get P c ;;
         match pol with
         | Some pp =>
             p <- deref pp ;; cpufreq_update_policy P (cpu p) ;;; ret tt
         | None => ret tt
         end) ;;;
      cpu_freq_notify_loop rest
  end.

Definition cpu_freq_notify : M Z :=
  cpu_freq_notify_loop (seq 0 (nr_cpu_ids P)) ;;;
  ret NOTIFY_OK.

Fixpoint init_policy_locks (cpus : list nat) : M unit :=
  match cpus with
  | [] => ret tt
  | c :: rest =>
      modify (fun w =>
        set_rwsem
          (set_policy_cpu w (upd (cpufreq_policy_cpu w) c (-1)))
          (upd (cpu_policy_rwsem w) c {| readers := 0; writer := false |})) ;;;
      init_policy_locks rest
  end.

(** register_syscore_ops has no result and touches none of the variables
    of this file; the result of sysfs_create_group for all_cpus is dropped
    by the code. *)
Definition cpufreq_core_init : M Z :=
  if cpufreq_disabled then ret (- ENODEV) else
  init_policy_locks (for_each_cpu (nr_cpu_ids P) cpu_possible_mask) ;;;
  if negb kobject_create_and_add then oops BUG else
  if negb (pm_qos_add_notifier PM_QOS_CPU_FREQ_MIN =? 0) then oops BUG else
  if negb (pm_qos_add_notifier PM_QOS_CPU_FREQ_MAX =? 0) then oops BUG else
  ret 0.

End Rest.

(** ** Vocabulary of the further statements *)

(** [I] does not look at the policy objects or at the log. *)
Definition blind (I : world -> Prop) : Prop :=
  (forall w h, I w -> I (set_heap w h))
  /\ (forall w t, I w -> I (set_trace w t)).

(** What a call returns ([d], had it crashed). *)
Definition value_after {A : Type} (d : A) (m : M A) (w : world) : A :=
  match m w with
  | Ret a _ => a
  | Oops _ => d
  end.

(** The string in lower case. *)
Fixpoint lower (s : string) : string :=
  match s with
  | EmptyString => EmptyString
  | String c r => String (tolower c) (lower r)
  end.

(** What cpufreq_unregister_governor of [g] makes of the snapshot of an
    offline CPU. *)
Definition forgotten (g : cpufreq_governor) (s : cpufreq_cpu_save_data)
    : cpufreq_cpu_save_data :=
  {| gov := if String.eqb (gov s) (name g) then EmptyString else gov s;
     save_max := 0;
     save_min := 0 |}.

(** No two governors of the list answer to one name. *)
Fixpoint unique_names (n : nat) (l : list cpufreq_governor) : Prop :=
  match l with
  | [] => True
  | g :: r =>
      (forall t, In t r -> strnicmp (name g) (name t) n = false)
      /\ unique_names n r
  end.

(** The candidate store_one hands to __cpufreq_set_policy: the CPU's policy
    with the user's limits, the written value in [object], after the
    driver's verify and the cap of get_max_lock. *)
Definition store_one_request (P : platform) (drv : cpufreq_driver_t)
    (object : limit_field) (p : cpufreq_policy) (v : Z) : cpufreq_policy :=
  let n := with_max (with_min p (rp_min (user_policy p)))
                    (rp_max (user_policy p)) in
  let n := match object with
           | scaling_min_freq => with_min n v
           | scaling_max_freq => with_max n v
           end in
  let n := snd (verify drv n) in
  if (get_max_lock P (cpu p) >? 0) && (max n >? get_max_lock P (cpu p))
  then with_max n (get_max_lock P (cpu p)) else n.

(** Nothing but the online mask, the heap and the log differs, and every
    semaphore is in the same state. *)
Definition quiescent (w w' : world) : Prop :=
  cpufreq_driver w' = cpufreq_driver w
  /\ cpufreq_cpu_data w' = cpufreq_cpu_data w
  /\ cpufreq_policy_save w' = cpufreq_policy_save w
  /\ cpufreq_policy_cpu w' = cpufreq_policy_cpu w
  /\ (forall j, cpu_policy_rwsem w' j = cpu_policy_rwsem w j)
  /\ cpufreq_governor_list w' = cpufreq_governor_list w
  /\ next_ptr w' = next_ptr w.

(** [p'] is [p] up to the fields that say what is enforced: the user's
    policy, the owning CPU, the CPU masks and the cpuinfo are the same. *)
Definition same_identity (p p' : cpufreq_policy) : Prop :=
  user_policy p' = user_policy p /\ cpu p' = cpu p /\ cpus p' = cpus p
  /\ related_cpus p' = related_cpus p /\ cpuinfo p' = cpuinfo p.

(** Every policy object of [w] is still there in [w'], with its identity. *)
Definition policies_kept (w w' : world) : Prop :=
  forall q p, heap w q = Some p ->
              exists p', heap w' q = Some p' /\ same_identity p p'.

Module Lab.

(** The board with CPU 3 switched off. *)
Definition w_off : world := set_online_mask Board.w0 7%N.

(** CPU 3 went offline governed by powersave within 900000..1400000. *)
Definition w_off_saved : world :=
  set_policy_save w_off
    (upd (cpufreq_policy_save w_off) 3%nat
       {| gov := "powersave"; save_max := 1400000; save_min := 900000 |}).

(** A target callback that sets the frequency it is asked for. *)
Definition set_speed (p : cpufreq_policy) (target_freq relation : Z)
    : Z * cpufreq_policy :=
  (0, with_cur p target_freq).

(** A governor that is not registered on the board. *)
Definition interactive : cpufreq_governor :=
  {| name := "interactive"; max_transition_latency := 0;
     owner := "cpufreq_interactive" |}.

(** A driver whose init fails. *)
Definition dead_init (p : cpufreq_policy) : Z * cpufreq_policy :=
  (- ENODEV, p).

Definition msm_dead : cpufreq_driver_t :=
  {| drv_name := "msm"; drv_owner := "msm"; flags := 0;
     init := dead_init; verify := Board.within_limits; setpolicy := None;
     target := true; get := Some (fun _ => 1200000); exit := true;
     bios_limit := false; attr := [] |}.

Definition w_dead : world :=
  {| cpufreq_driver := Some msm_dead;
     cpufreq_cpu_data := cpufreq_cpu_data Board.w0;
     cpufreq_policy_save := cpufreq_policy_save Board.w0;
     cpufreq_policy_cpu := cpufreq_policy_cpu Board.w0;
     cpu_policy_rwsem := cpu_policy_rwsem Board.w0;
     cpufreq_governor_list := cpufreq_governor_list Board.w0;
     cpu_online_mask := cpu_online_mask Board.w0;
     heap := heap Board.w0;
     next_ptr := next_ptr Board.w0;
     trace := [] |}.

End Lab.

(** ** Proof tools *)

Ltac unfold_monad :=
  unfold bind, ret, gets, modify, log, oops, deref, assign, update, driver,
    cpu_online, schedule_work in *.

Lemma upd_eq {A} (f : nat -> A) (k : nat) (v : A) : upd f k v k = v.
Proof. unfold upd. now rewrite Nat.eqb_refl. Qed.

Lemma upd_neq {A} (f : nat -> A) (k j : nat) (v : A) :
  j <> k -> upd f k v j = f j.
Proof. unfold upd. intros H. apply Nat.eqb_neq in H. now rewrite H. Qed.

(** ** The per-CPU policy semaphore *)

Lemma up_after_down (mode : lock_mode) (s : rw_semaphore) :
  can_down mode s = true ->
  match mode with
  | read => {| readers := pred (readers (held mode s));
               writer := writer (held mode s) |}
  | write => {| readers := readers (held mode s); writer := false |}
  end = s.
Proof.
  destruct s as [r wr], mode; cbn; intros H.
  - apply negb_true_iff in H. now subst.
  - apply andb_true_iff in H. destruct H as [H1 H2].
    apply negb_true_iff in H1. apply Nat.eqb_eq in H2. now subst.
Qed.

(** C8. lock_policy_rwsem_read / lock_policy_rwsem_write look at the online
    mask after the semaphore is taken: if the CPU is offline by then, the
    semaphore is given back (every semaphore is as before the call) and the
    call returns -1; otherwise the call returns 0 with the semaphore of the
    owning CPU held, and the CPU is online in the world it returns. *)
Theorem lock_policy_rwsem_revalidates (P : platform) (mode : lock_mode)
    (c : nat) (w : world) :
  cpufreq_policy_cpu w c <> -1 ->
  can_down mode (cpu_policy_rwsem w (Z.to_nat (cpufreq_policy_cpu w c))) = true ->
  let i := Z.to_nat (cpufreq_policy_cpu w c) in
  let mask := hotplug_while_asleep P (cpu_online_mask w) in
  exists w',
    lock_policy_rwsem P mode c w
      = Ret (if cpumask_test_cpu c mask then 0 else -1) w'
    /\ cpu_online_mask w' = mask
    /\ (cpumask_test_cpu c mask = false ->
        forall j, cpu_policy_rwsem w' j = cpu_policy_rwsem w j)
    /\ (cpumask_test_cpu c mask = true ->
        cpu_policy_rwsem w' i = held mode (cpu_policy_rwsem w i)
        /\ forall j, j <> i -> cpu_policy_rwsem w' j = cpu_policy_rwsem w j).
Proof.
  intros Hcpu Hfree i mask.
  unfold lock_policy_rwsem. unfold_monad.
  apply Z.eqb_neq in Hcpu. rewrite Hcpu.
  fold i in Hfree |- *.
  pose proof (up_after_down mode _ Hfree) as Hup.
  assert (Hdown : down P mode i w
                  = Ret tt (set_rwsem (set_online_mask w mask)
                              (upd (cpu_policy_rwsem w) i
                                 (held mode (cpu_policy_rwsem w i))))).
  { unfold down. destruct mode; cbn in Hfree |- *.
    - apply negb_true_iff in Hfree. now rewrite Hfree.
    - apply andb_true_iff in Hfree. destruct Hfree as [Hw Hr].
      apply negb_true_iff in Hw. now rewrite Hw, Hr. }
  rewrite Hdown. cbn. fold mask.
  destruct (cpumask_test_cpu c mask) eqn:Hon; cbn.
  - eexists. split; [reflexivity|]. cbn. repeat split; try discriminate.
    + apply upd_eq.
    + intros j Hj. now apply upd_neq.
  - eexists. split; [reflexivity|]. cbn. repeat split; try discriminate.
    intros _ j. unfold up. cbn. rewrite upd_eq.
    unfold upd at 1. destruct (Nat.eqb j i) eqn:Hj.
    + apply Nat.eqb_eq in Hj. subst j. destruct mode; exact Hup.
    + apply Nat.eqb_neq in Hj. now apply upd_neq.
Qed.

Lemma lock_policy_rwsem_revalidates_witness :
  exists w',
    lock_policy_rwsem
      (Board.board 0 2147483647 (fun _ => 0) (fun m => N.clearbit m 1))
      write 1 Board.w0 = Ret (-1) w'
    /\ cpu_online_mask w' = 13%N.
Proof.
  destruct (lock_policy_rwsem_revalidates
              (Board.board 0 2147483647 (fun _ => 0) (fun m => N.clearbit m 1))
              write 1 Board.w0)
    as (w' & Hret & Hmask & _).
  - discriminate.
  - reflexivity.
  - exists w'. split; [exact Hret | exact Hmask].
Defined.

(** ** Transition notification *)

(** C7 (as amended). On PRECHANGE, with a driver that does not claim
    constant loop timing and a policy bound to freqs.cpu, the observers are
    handed freqs with old replaced by the policy's current frequency exactly
    when freqs.cpu is the policy's owning CPU and that frequency is nonzero;
    otherwise old goes through as the driver reported it.  Nothing but the
    log changes. *)
Theorem notify_prechange_corrects_old (P : platform) (w : world)
    (freqs : cpufreq_freqs) (drv : cpufreq_driver_t) (pp : ptr)
    (p : cpufreq_policy) :
  cpufreq_driver w = Some drv ->
  const_loops P drv = false ->
  cpufreq_cpu_data w (f_cpu freqs) = Some pp ->
  heap w pp = Some p ->
  let f' := {| f_cpu := f_cpu freqs;
               f_old := if Nat.eqb (cpu p) (f_cpu freqs) && negb (cur p =? 0)
                        then cur p else f_old freqs;
               f_new := f_new freqs;
               f_flags := flags drv |} in
  cpufreq_notify_transition P freqs CPUFREQ_PRECHANGE w
    = Ret f' (set_trace w (trace w ++ [EvTransition CPUFREQ_PRECHANGE f'])).
Proof.
  intros Hdrv Hcl Hpp Hp f'.
  unfold cpufreq_notify_transition. unfold_monad.
  rewrite Hdrv. cbn. rewrite Hcl, Hpp. cbn. rewrite Hp.
  subst f'.
  destruct (Nat.eqb (cpu p) (f_cpu freqs)); cbn; [|reflexivity].
  destruct (cur p =? 0) eqn:Hz; cbn; [reflexivity|].
  destruct (cur p =? f_old freqs) eqn:Ho; cbn; [|reflexivity].
  apply Z.eqb_eq in Ho. unfold with_flags. cbn. now rewrite <- Ho.
Qed.

Lemma notify_prechange_corrects_old_witness :
  cpufreq_notify_transition Board.quiet
    {| f_cpu := 0; f_old := 800000; f_new := 1200000; f_flags := 0 |}
    CPUFREQ_PRECHANGE Board.w0
  = Ret {| f_cpu := 0; f_old := 1000000; f_new := 1200000; f_flags := 0 |}
        (set_trace Board.w0
           [EvTransition CPUFREQ_PRECHANGE
              {| f_cpu := 0; f_old := 1000000; f_new := 1200000;
                 f_flags := 0 |}]).
Proof.
  apply (notify_prechange_corrects_old Board.quiet Board.w0
           {| f_cpu := 0; f_old := 800000; f_new := 1200000; f_flags := 0 |}
           Board.msm 0%nat Board.shared); reflexivity.
Defined.

(** C7 as stated fails: CPU 1 shares the policy owned by CPU 0, whose
    current frequency is 1000000; a PRECHANGE for CPU 1 reporting old =
    800000 reaches the observers with old = 800000. *)
Lemma prechange_sibling_not_corrected :
  ~ prechange_corrects_any_disagreement Board.quiet Board.w0
      {| f_cpu := 1; f_old := 800000; f_new := 1200000; f_flags := 0 |}.
Proof.
  intros H.
  pose proof (fun f' w' =>
                H Board.msm 0%nat Board.shared f' w'
                  eq_refl eq_refl eq_refl eq_refl) as H'.
  cbn in H'.
  specialize (H' _ _ ltac:(discriminate) eq_refl).
  discriminate H'.
Qed.

(** C4 (as amended). When the driver's get returns a nonzero frequency that
    differs from the policy's nonzero current frequency, and the driver
    does not claim constant loop timing, __cpufreq_get returns the queried
    value after logging exactly one PRECHANGE and one POSTCHANGE with old =
    the previous current frequency and new = the queried value, and then
    scheduling the policy's update work.  The policy's current frequency
    becomes the queried value when the queried CPU is the policy's owning
    CPU; for another CPU of the policy it stays as it was. *)
Theorem cpufreq_get_resyncs (P : platform) (w : world) (c : nat)
    (drv : cpufreq_driver_t) (get_fn : nat -> Z) (pp : ptr)
    (p : cpufreq_policy) :
  cpufreq_driver w = Some drv ->
  const_loops P drv = false ->
  get drv = Some get_fn ->
  cpufreq_cpu_data w c = Some pp ->
  heap w pp = Some p ->
  get_fn c <> 0 -> cur p <> 0 -> get_fn c <> cur p ->
  let f := {| f_cpu := c; f_old := cur p; f_new := get_fn c;
              f_flags := flags drv |} in
  exists w',
    __cpufreq_get P c w = Ret (get_fn c) w'
    /\ trace w' = trace w
                  ++ [EvGet c; EvTransition CPUFREQ_PRECHANGE f;
                      EvTransition CPUFREQ_POSTCHANGE f]
                  ++ (if Nat.eqb (cpu p) c
                      then [EvSysfs (sysfs_notify (cpu p) "scaling_cur_freq") 0]
                      else [])
                  ++ [EvScheduleWork pp]
    /\ heap w' pp
       = Some (if Nat.eqb (cpu p) c then with_cur p (get_fn c) else p).
Proof.
  intros Hdrv Hcl Hget Hpp Hp Hq Hcur Hne f.
  unfold __cpufreq_get, cpufreq_out_of_sync, cpufreq_notify_transition.
  unfold_monad.
  rewrite Hpp, Hdrv, Hget. cbn.
  apply Z.eqb_neq in Hq, Hcur, Hne.
  rewrite Hq. cbn. rewrite Hp, Hcur, Hcl. cbn. rewrite Hne. cbn.
  rewrite Hdrv. cbn. rewrite Hcl, Hpp. cbn. rewrite Hp.
  rewrite Hcur, Z.eqb_refl, andb_false_r. cbn.
  rewrite Hdrv. cbn. rewrite Hpp. cbn. rewrite Hp.
  destruct (Nat.eqb (cpu p) c) eqn:Hown; cbn.
  - eexists. split; [reflexivity|]. cbn. split.
    + rewrite <- !app_assoc. reflexivity.
    + now rewrite upd_eq.
  - eexists. split; [reflexivity|]. cbn. split.
    + rewrite <- !app_assoc. reflexivity.
    + exact Hp.
Qed.

Lemma cpufreq_get_resyncs_witness :
  exists w',
    __cpufreq_get Board.quiet 0 Board.w0 = Ret 1200000 w'
    /\ heap w' 0%nat = Some (with_cur Board.shared 1200000).
Proof.
  destruct (cpufreq_get_resyncs Board.quiet Board.w0 0 Board.msm
              (fun _ => 1200000) 0%nat Board.shared)
    as (w' & Hret & _ & Hheap);
    try reflexivity; try discriminate.
  exists w'. split; [exact Hret | exact Hheap].
Defined.

(** C4 as stated fails: a query for CPU 1, which shares the policy owned by
    CPU 0, returns 1200000 while the policy believes 1000000; afterwards
    the policy still believes 1000000. *)
Lemma query_of_sibling_does_not_converge :
  ~ query_always_converges Board.quiet Board.w0 1.
Proof.
  intros H.
  pose proof (fun r w' =>
                H Board.msm (fun _ => 1200000) 0%nat Board.shared r w'
                  eq_refl eq_refl eq_refl eq_refl eq_refl) as H'.
  cbn in H'.
  specialize (H' _ _ ltac:(discriminate) ltac:(discriminate)
                 ltac:(discriminate) eq_refl).
  destruct H' as (p' & Hp' & Hcur).
  cbn in Hp'. inversion Hp'. subst p'. discriminate Hcur.
Qed.

(** ** The policy-set protocol: rejection before commit *)

Lemma enforcing_app (a b : list event) :
  enforcing (a ++ b) = enforcing a ++ enforcing b.
Proof. apply filter_app. Qed.

(** What __cpufreq_set_policy does up to the commit, as one equation. *)
Lemma set_policy_prefix (P : platform) (w : world) (data : ptr)
    (d pol : cpufreq_policy) (drv : cpufreq_driver_t) :
  heap w data = Some d ->
  cpufreq_driver w = Some drv ->
  let c := clamped P d pol in
  bounds_conflict d c = false ->
  fst (verify drv c) <> 0 \/ fst (verify drv (adjusted P drv c)) <> 0 ->
  exists r c' t,
    __cpufreq_set_policy P data pol w = Ret (r, restored pol c') (set_trace w t)
    /\ r <> 0 /\ enforcing t = enforcing (trace w).
Proof.
  intros Hd Hdrv c Hconf Hver.
  unfold __cpufreq_set_policy. unfold_monad. rewrite Hd.
  fold (qos_min P d) (qos_max P d). fold (clamped P d pol). fold c.
  unfold bounds_conflict in Hconf. rewrite Hconf. rewrite Hdrv. cbn.
  destruct (fst (verify drv c) =? 0) eqn:H1; cbn.
  - destruct Hver as [Hver|Hver]; [apply Z.eqb_eq in H1; contradiction|].
    fold (adjusted P drv c).
    apply Z.eqb_neq in Hver. rewrite Hver. cbn.
    apply Z.eqb_neq in Hver.
    eexists _, _, _. split; [reflexivity|]. split; [exact Hver|].
    rewrite !enforcing_app. cbn. now rewrite !app_nil_r.
  - apply Z.eqb_neq in H1.
    eexists _, _, _. split; [reflexivity|]. split; [exact H1|].
    rewrite !enforcing_app. cbn. now rewrite !app_nil_r.
Qed.

(** C10. When __cpufreq_set_policy fails at the bounds check or at either
    verify, it returns a nonzero code and the world differs from the one
    before the call in its log only, where no governor callback and no
    setpolicy call was added: the live policy (min, max, policy kind,
    governor and all) is untouched. *)
Theorem set_policy_early_error_leaves_policy (P : platform) (w : world)
    (data : ptr) (d pol : cpufreq_policy) (drv : cpufreq_driver_t) :
  heap w data = Some d ->
  cpufreq_driver w = Some drv ->
  ~ accepted P drv d pol ->
  exists r pol' t,
    __cpufreq_set_policy P data pol w = Ret (r, pol') (set_trace w t)
    /\ r <> 0
    /\ heap (set_trace w t) data = Some d
    /\ enforcing t = enforcing (trace w).
Proof.
  intros Hd Hdrv Hrej.
  destruct (bounds_conflict d (clamped P d pol)) eqn:Hconf.
  - exists (- EINVAL), (restored pol (clamped P d pol)), (trace w).
    assert (Hw : set_trace w (trace w) = w) by now destruct w.
    rewrite Hw. repeat split; try assumption; try discriminate.
    unfold __cpufreq_set_policy. unfold_monad. rewrite Hd.
    fold (qos_min P d) (qos_max P d). fold (clamped P d pol).
    unfold bounds_conflict in Hconf. now rewrite Hconf.
  - destruct (set_policy_prefix P w data d pol drv Hd Hdrv Hconf)
      as (r & c' & t & Hret & Hr & Ht).
    + destruct (Z.eq_dec (fst (verify drv (clamped P d pol))) 0) as [E1|N1];
        [|now left].
      destruct (Z.eq_dec
                  (fst (verify drv (adjusted P drv (clamped P d pol)))) 0)
        as [E2|N2]; [|now right].
      exfalso. apply Hrej. now repeat split.
    + exists r, (restored pol c'), t. repeat split; assumption.
Qed.

Lemma set_policy_early_error_leaves_policy_witness :
  exists r pol' t,
    __cpufreq_set_policy Board.quiet 1%nat
      (with_max (with_min Board.solo 1500000) 1600000) Board.w0
    = Ret (r, pol') (set_trace Board.w0 t)
    /\ heap (set_trace Board.w0 t) 1%nat = Some Board.solo.
Proof.
  destruct (set_policy_early_error_leaves_policy Board.quiet Board.w0 1%nat
              Board.solo (with_max (with_min Board.solo 1500000) 1600000)
              Board.msm eq_refl eq_refl)
    as (r & pol' & t & Hret & _ & Hheap & _).
  - intros (Hconf & _). discriminate Hconf.
  - exists r, pol', t. split; [exact Hret | exact Hheap].
Defined.

(** ** The governor state machine *)

Lemma frame_refl (w : world) : frame w w.
Proof. repeat split. Qed.

Lemma frame_trans (a b c : world) : frame a b -> frame b c -> frame a c.
Proof.
  unfold frame. intros (A1&A2&A3&A4&A5&A6&A7&A8) (B1&B2&B3&B4&B5&B6&B7&B8).
  repeat split; congruence.
Qed.

(** __cpufreq_governor against its reading on the policy alone. *)
Lemma governor_call_spec (P : platform) (pol : ptr) (ev : gov_event)
    (w : world) (p : cpufreq_policy) :
  heap w pol = Some p ->
  match governor_call P ev p with
  | None => __cpufreq_governor P pol ev w = Oops NULL_DEREF
  | Some (r, p', called) =>
      exists w',
        __cpufreq_governor P pol ev w = Ret r w'
        /\ heap w' pol = Some p'
        /\ (forall q, q <> pol -> heap w' q = heap w q)
        /\ trace w' = trace w ++ called_event pol ev r called
        /\ frame w w'
  end.
Proof.
  intros Hp. unfold governor_call, __cpufreq_governor. unfold_monad.
  rewrite Hp. destruct (governor p) as [g|]; [|reflexivity].
  fold (too_slow g p).
  destruct (too_slow g p) eqn:Hslow.
  - destruct (cpufreq_gov_performance P) as [g'|].
    + cbn. destruct (try_module_get P (owner g')); cbn.
      * rewrite upd_eq. eexists. split; [reflexivity|]. cbn.
        rewrite upd_eq. repeat split.
        intros q Hq. now rewrite !upd_neq.
      * eexists. split; [reflexivity|]. cbn.
        rewrite upd_eq, app_nil_r. repeat split.
        intros q Hq. now rewrite upd_neq.
    + eexists. split; [reflexivity|]. rewrite app_nil_r.
      repeat split; auto.
  - cbn. destruct (try_module_get P (owner g)); cbn.
    + rewrite Hp. eexists. split; [reflexivity|]. cbn.
      rewrite upd_eq. repeat split.
      intros q Hq. now rewrite upd_neq.
    + eexists. split; [reflexivity|]. rewrite app_nil_r.
      repeat split; auto.
Qed.

Lemma with_governor_same_limits (p : cpufreq_policy)
    (g : option cpufreq_governor) : same_limits p (with_governor p g).
Proof. repeat split. Qed.

Lemma same_limits_refl (p : cpufreq_policy) : same_limits p p.
Proof. repeat split. Qed.

Lemma same_limits_trans (a b c : cpufreq_policy) :
  same_limits a b -> same_limits b c -> same_limits a c.
Proof.
  unfold same_limits.
  intros (A1&A2&A3&A4&A5&A6&A7&A8) (B1&B2&B3&B4&B5&B6&B7&B8).
  repeat split; congruence.
Qed.

Lemma callback_same_limits (P : platform) (g : cpufreq_governor)
    (e : gov_event) (p : cpufreq_policy) :
  governors_keep_policy P ->
  same_limits p (snd (governor_fn P g e p))
  /\ governor (snd (governor_fn P g e p)) = governor p.
Proof.
  intros H. destruct (H g e p) as (c & u & E). rewrite E.
  split; [repeat split | reflexivity].
Qed.

(** Whatever __cpufreq_governor does, the policy keeps its limits. *)
Lemma governor_call_same_limits (P : platform) (ev : gov_event)
    (p p' : cpufreq_policy) (r : Z) (called : option cpufreq_governor) :
  governors_keep_policy P ->
  governor_call P ev p = Some (r, p', called) ->
  same_limits p p'.
Proof.
  intros Hk. unfold governor_call.
  destruct (governor p) as [g|]; [|discriminate].
  destruct (too_slow g p).
  - destruct (cpufreq_gov_performance P) as [g'|].
    + destruct (try_module_get P (owner g')); cbn; intros E; inversion E.
      * eapply same_limits_trans; [apply with_governor_same_limits|].
        apply callback_same_limits, Hk.
      * apply with_governor_same_limits.
    + intros E; inversion E. apply same_limits_refl.
  - destruct (try_module_get P (owner g)); cbn; intros E; inversion E.
    + apply callback_same_limits, Hk.
    + apply same_limits_refl.
Qed.



(** ** The policy-set protocol: after acceptance *)

Lemma update_spec (pol : ptr) (f : cpufreq_policy -> cpufreq_policy)
    (w : world) (p : cpufreq_policy) :
  heap w pol = Some p ->
  update pol f w = Ret tt (set_heap w (upd (heap w) pol (Some (f p)))).
Proof. intros H. unfold update. unfold_monad. now rewrite H. Qed.

(** An accepted call reaches the hand-over to the driver or governor with
    the candidate's limits committed and nothing else changed but the log,
    where no callback of a governor and no setpolicy was added. *)
Lemma set_policy_accepted (P : platform) (w : world) (data : ptr)
    (d pol : cpufreq_policy) (drv : cpufreq_driver_t) :
  heap w data = Some d ->
  cpufreq_driver w = Some drv ->
  accepted P drv d pol ->
  CONFIG_UNI_CPU_POLICY_LIMIT P = false ->
  let fin := notified P drv (clamped P d pol) in
  exists w1,
    heap w1 data = Some (committed d fin)
    /\ (forall q, q <> data -> heap w1 q = heap w q)
    /\ frame w w1
    /\ (exists t1, trace w1 = trace w ++ t1 /\ enforcing t1 = [])
    /\ __cpufreq_set_policy P data pol w
       = bind (set_policy_enforce P drv data fin None)
              (fun x => ret (fst x, restored pol (snd x))) w1.
Proof.
  intros Hd Hdrv (Hconf & Hv1 & Hv2) Huni fin.
  unfold __cpufreq_set_policy, set_policy_commit.
  unfold bind at 1. unfold deref at 1. rewrite Hd.
  fold (qos_min P d) (qos_max P d). fold (clamped P d pol).
  unfold bounds_conflict in Hconf. rewrite Hconf.
  unfold bind at 1. unfold driver at 1. rewrite Hdrv.
  unfold bind at 1. unfold log at 1, modify at 1.
  rewrite Hv1. cbn [negb Z.eqb].
  unfold bind at 1. unfold log at 1, modify at 1.
  unfold bind at 1. unfold log at 1, modify at 1.
  fold (adjusted P drv (clamped P d pol)).
  unfold bind at 1. unfold log at 1, modify at 1.
  rewrite Hv2. cbn [negb Z.eqb].
  unfold bind at 1. unfold log at 1, modify at 1.
  fold (notified P drv (clamped P d pol)). fold fin.
  rewrite Huni. cbn [andb].
  unfold bind at 1. unfold bind at 1.
  erewrite update_spec by (cbn; exact Hd).
  unfold ret at 1.
  eexists. split; [|split; [|split; [|split; [|reflexivity]]]].
  - cbn. now rewrite upd_eq.
  - intros q Hq. cbn. now rewrite upd_neq.
  - repeat split.
  - cbn. eexists. split.
    + rewrite <- !app_assoc. reflexivity.
    + reflexivity.
Qed.

Lemma running_after_start (t : list event) (pol : ptr)
    (g : cpufreq_governor) :
  running_governor (t ++ [EvGovernor pol g CPUFREQ_GOV_START 0]) pol = Some g.
Proof.
  unfold running_governor. rewrite fold_left_app. cbn.
  now rewrite Nat.eqb_refl.
Qed.




Lemma board_callbacks_keep_policy (qmin qmax : Z) (sf : sysfs_op -> Z)
    (race : cpumask -> cpumask) :
  governors_keep_policy (Board.board qmin qmax sf race).
Proof.
  intros g e p. exists (cur p), (util p). cbn. unfold Board.governor_cb.
  destruct p. destruct e; try reflexivity.
  destruct (String.eqb (name g) "broken"); reflexivity.
Qed.




(** ** What a call returns, what it preserves *)

Lemma returns_ret {A} (a : A) (Q : A -> Prop) : Q a -> returns (ret a) Q.
Proof. intros H w b w' E. inversion E. now subst. Qed.

Lemma returns_bind {A B} (m : M A) (k : A -> M B) (Q : B -> Prop) :
  (forall a, returns (k a) Q) -> returns (bind m k) Q.
Proof.
  intros H w b w' E. unfold bind in E.
  destruct (m w) as [a w1|]; [|discriminate]. exact (H a w1 b w' E).
Qed.

Lemma stable_ret {A} (I : world -> Prop) (a : A) : stable I (ret a).
Proof. intros w b w' HI E. inversion E. now subst. Qed.

Lemma stable_oops {A} (I : world -> Prop) (f : fault) : stable I (@oops A f).
Proof. intros w b w' HI E. discriminate. Qed.

Lemma stable_gets {A} (I : world -> Prop) (f : world -> A) : stable I (gets f).
Proof. intros w b w' HI E. inversion E. now subst. Qed.

Lemma stable_bind {A B} (I : world -> Prop) (m : M A) (k : A -> M B) :
  stable I m -> (forall a, stable I (k a)) -> stable I (bind m k).
Proof.
  intros Hm Hk w b w' HI E. unfold bind in E.
  destruct (m w) as [a w1|] eqn:Em; [|discriminate].
  exact (Hk a w1 b w' (Hm w a w1 HI Em) E).
Qed.

Lemma stable_deref (I : world -> Prop) (q : ptr) : stable I (deref q).
Proof.
  intros w b w' HI E. unfold deref in E.
  destruct (heap w q); inversion E. now subst.
Qed.

Lemma stable_driver (I : world -> Prop) : stable I driver.
Proof.
  intros w b w' HI E. unfold driver in E.
  destruct (cpufreq_driver w); inversion E. now subst.
Qed.

Lemma stable_log (data : ptr) (R : cpufreq_policy -> Prop) (e : event) :
  stable (holds data R) (log e).
Proof. intros w b w' HI E. inversion E. exact HI. Qed.

Lemma stable_assign (data : ptr) (R : cpufreq_policy -> Prop) (q : ptr)
    (v : cpufreq_policy) :
  R v -> stable (holds data R) (assign q v).
Proof.
  intros Hv w b w' (p & Hp & HR) E. inversion E. subst. unfold holds. cbn.
  unfold upd. destruct (Nat.eqb data q); eauto.
Qed.

Lemma stable_update (data : ptr) (R : cpufreq_policy -> Prop) (q : ptr)
    (f : cpufreq_policy -> cpufreq_policy) :
  (forall p, R p -> R (f p)) -> stable (holds data R) (update q f).
Proof.
  intros Hf w b w' (p & Hp & HR) E. unfold update in E. unfold_monad.
  destruct (heap w q) as [v|] eqn:Hq; inversion E. subst. unfold holds. cbn.
  unfold upd. destruct (Nat.eqb data q) eqn:Heq; [|eauto].
  apply Nat.eqb_eq in Heq. subst q. rewrite Hp in Hq. inversion Hq. subst v.
  eauto.
Qed.

Lemma stable_cpu_get (P : platform) (I : world -> Prop) (c : nat)
    (sysfs_ref : bool) : stable I (__cpufreq_cpu_get P c sysfs_ref).
Proof.
  intros w b w' HI E. unfold __cpufreq_cpu_get in E. unfold_monad.
  destruct (nr_cpu_ids P <=? c)%nat; [inversion E; now subst|].
  destruct (cpufreq_driver w) as [drv|]; [|inversion E; now subst].
  destruct (negb (try_module_get P (drv_owner drv))); inversion E; now subst.
Qed.

Lemma stable_governor (P : platform) (data : ptr)
    (R : cpufreq_policy -> Prop) (q : ptr) (ev : gov_event) :
  governor_closed P R -> stable (holds data R) (__cpufreq_governor P q ev).
Proof.
  intros Hc w b w' (p & Hp & HR) E.
  destruct (heap w q) as [v|] eqn:Hq.
  - pose proof (governor_call_spec P q ev w v Hq) as S.
    destruct (governor_call P ev v) as [[[r v'] called]|] eqn:Hcall.
    + destruct S as (w1 & E1 & Hh & Hother & _).
      rewrite E1 in E. inversion E. subst. unfold holds.
      destruct (Nat.eq_dec data q) as [->|Hne].
      * rewrite Hp in Hq. inversion Hq. subst v. eauto.
      * rewrite (Hother data Hne). eauto.
    + rewrite S in E. discriminate.
  - unfold __cpufreq_governor in E. unfold_monad. rewrite Hq in E.
    discriminate.
Qed.

Ltac stable_step :=
  match goal with
  | |- stable _ (bind _ _) => apply stable_bind; [|intros]
  | |- stable _ (ret _) => apply stable_ret
  | |- stable _ (oops _) => apply stable_oops
  | |- stable _ (gets _) => apply stable_gets
  | |- stable _ (log _) => apply stable_log
  | |- stable _ (deref _) => apply stable_deref
  | |- stable _ driver => apply stable_driver
  | |- stable _ (__cpufreq_cpu_get _ _ _) => apply stable_cpu_get
  | |- stable _ (if ?b then _ else _) => destruct b
  | |- stable _ (match ?x with _ => _ end) => destruct x
  end.

Lemma set_policy_enforce_stable (P : platform) (drv : cpufreq_driver_t)
    (data dp : ptr) (pol : cpufreq_policy) (cpu0_policy : option ptr)
    (R : cpufreq_policy -> Prop) :
  governor_closed P R ->
  (forall p k, R p -> R (with_policy p k)) ->
  (forall p g, R p -> R (with_governor p g)) ->
  stable (holds data R) (set_policy_enforce P drv dp pol cpu0_policy).
Proof.
  intros Hc Hpol Hgov. unfold set_policy_enforce.
  repeat first
    [ stable_step
    | apply stable_governor; exact Hc
    | apply stable_update; intros; auto ].
Qed.

Lemma set_policy_commit_stable (P : platform) (data dp : ptr)
    (pol : cpufreq_policy) (R : cpufreq_policy -> Prop) :
  (forall p v, R p -> R (with_min p v)) ->
  (forall p v, R p -> R (with_max p v)) ->
  stable (holds data R) (set_policy_commit P dp pol).
Proof.
  intros Hmin Hmax. unfold set_policy_commit.
  repeat first
    [ stable_step
    | apply stable_update; intros; auto ].
Qed.

(** The policy [data] points to stays allocated across a call of
    __cpufreq_set_policy, whatever the call does. *)
Lemma set_policy_keeps_allocated (P : platform) (data dp : ptr)
    (pol : cpufreq_policy) :
  stable (holds data (fun _ => True)) (__cpufreq_set_policy P dp pol).
Proof.
  unfold __cpufreq_set_policy. cbv zeta.
  repeat first
    [ stable_step
    | apply set_policy_commit_stable; auto
    | apply set_policy_enforce_stable; auto; intros ? ? ? ? ? ? ?; exact I ].
Qed.

(** ** The policy-set protocol: what is restored and what is read back *)

Lemma set_policy_returns_restored (P : platform) (data : ptr)
    (pol : cpufreq_policy) :
  returns (__cpufreq_set_policy P data pol)
          (fun x => min (snd x) = min pol /\ max (snd x) = max pol).
Proof.
  unfold __cpufreq_set_policy. cbv zeta.
  repeat first
    [ apply returns_ret; cbn; split; reflexivity
    | apply returns_bind; intros
    | match goal with
      | |- returns (if ?b then _ else _) _ => destruct b
      end ].
Qed.

Lemma limits_governor_closed (P : platform) (m M : Z) :
  governors_keep_policy P ->
  governor_closed P (fun p => min p = m /\ max p = M).
Proof.
  intros Hk ev p r p' called Hcall [Hm HM].
  destruct (governor_call_same_limits P ev p p' r called Hk Hcall)
    as (_&_&_&_&E1&E2&_).
  split; congruence.
Qed.




(** ** The policy-set protocol: the clamp *)

(** C5. The first thing __cpufreq_set_policy does to the candidate is the
    clamp to the PM QoS floor and ceiling (each kept within the user's
    bounds): min becomes max(min, qos_min), max becomes min(max, qos_max).
    When the clamped min exceeds the user's max, or the clamped max is
    below the user's min, the call returns -EINVAL and the world is exactly
    as before: nothing was verified, committed or logged.  Otherwise it is
    the clamped candidate that the driver's verify is given: when verify
    rejects it, the call returns verify's error and the log gained that one
    verify call; and in an accepted call (without
    CONFIG_UNI_CPU_POLICY_LIMIT, governors writing cur and util only) the
    limits committed to the live policy are those of the clamped candidate
    after verify and the notifiers. *)
Theorem set_policy_rejects_bounds_conflict (P : platform) (w : world)
    (data : ptr) (d pol : cpufreq_policy) (drv : cpufreq_driver_t) :
  heap w data = Some d ->
  cpufreq_driver w = Some drv ->
  let c := clamped P d pol in
  (min c > rp_max (user_policy d) \/ max c < rp_min (user_policy d) ->
   __cpufreq_set_policy P data pol w = Ret (- EINVAL, restored pol c) w)
  /\ (min c <= rp_max (user_policy d) ->
      rp_min (user_policy d) <= max c ->
      fst (verify drv c) <> 0 ->
      __cpufreq_set_policy P data pol w
      = Ret (fst (verify drv c), restored pol (snd (verify drv c)))
            (set_trace w (trace w ++ [EvVerify (cpu pol)])))
  /\ (accepted P drv d pol ->
      CONFIG_UNI_CPU_POLICY_LIMIT P = false ->
      governors_keep_policy P ->
      forall r pol' w',
        __cpufreq_set_policy P data pol w = Ret (r, pol') w' ->
        exists p',
          heap w' data = Some p'
          /\ min p' = min (notified P drv c)
          /\ max p' = max (notified P drv c)).
Proof.
  intros Hd Hdrv c. split; [|split].
  - intros Hconf.
    unfold __cpufreq_set_policy. unfold_monad. rewrite Hd.
    fold (qos_min P d) (qos_max P d). fold (clamped P d pol). fold c.
    assert (Hb : (min c >? rp_max (user_policy d))
                 || (max c <? rp_min (user_policy d)) = true).
    { apply orb_true_iff. destruct Hconf as [H|H]; [left|right].
      - now apply Z.gtb_gt.
      - now apply Z.ltb_lt. }
    now rewrite Hb.
  - intros Hmin Hmax Hver.
    unfold __cpufreq_set_policy. unfold_monad. rewrite Hd.
    fold (qos_min P d) (qos_max P d). fold (clamped P d pol). fold c.
    assert (Hb : (min c >? rp_max (user_policy d))
                 || (max c <? rp_min (user_policy d)) = false).
    { apply orb_false_iff. split.
      - rewrite Z.gtb_ltb. apply Z.ltb_ge. exact Hmin.
      - apply Z.ltb_ge. exact Hmax. }
    rewrite Hb, Hdrv. cbn.
    apply Z.eqb_neq in Hver. rewrite Hver. reflexivity.
  - intros Hacc Huni Hk r pol' w' Hret.
    destruct (set_policy_accepted P w data d pol drv Hd Hdrv Hacc Huni)
      as (w1 & Hh1 & _ & _ & _ & Hrun).
    fold c in Hh1, Hrun. rewrite Hrun in Hret. unfold bind in Hret.
    destruct (set_policy_enforce P drv data (notified P drv c) None w1)
      as [x w2|] eqn:He; [|discriminate].
    unfold ret in Hret. inversion Hret. subst w2.
    assert (Hinv : holds data
                     (fun p => min p = min (notified P drv c)
                               /\ max p = max (notified P drv c)) w').
    { eapply (set_policy_enforce_stable P drv data data (notified P drv c)
                None _ (limits_governor_closed P _ _ Hk)); [| |..|exact He].
      - intros p k [A B]. now split.
      - intros p g [A B]. now split.
      - exists (committed d (notified P drv c)). split; [exact Hh1|].
        now split. }
    destruct Hinv as (p' & Hp' & E1 & E2). now exists p'.
Qed.

Lemma set_policy_rejects_bounds_conflict_witness :
  __cpufreq_set_policy Board.quiet 1%nat
    (with_max (with_min Board.solo 1500000) 1600000) Board.w0
  = Ret (- EINVAL,
         restored (with_max (with_min Board.solo 1500000) 1600000)
           (clamped Board.quiet Board.solo
              (with_max (with_min Board.solo 1500000) 1600000)))
        Board.w0
  /\ exists p',
       heap (world_after
               (__cpufreq_set_policy
                  (Board.board 1000000 2147483647 (fun _ => 0) (fun m => m))
                  0%nat (with_max (with_min Board.shared 800000) 1600000))
               Board.w0) 0%nat = Some p'
       /\ min p' = 1000000 /\ max p' = 1600000.
Proof.
  split.
  - apply (set_policy_rejects_bounds_conflict Board.quiet Board.w0 1%nat
             Board.solo (with_max (with_min Board.solo 1500000) 1600000)
             Board.msm eq_refl eq_refl).
    left. reflexivity.
  - destruct (set_policy_rejects_bounds_conflict
                (Board.board 1000000 2147483647 (fun _ => 0) (fun m => m))
                Board.w0 0%nat Board.shared
                (with_max (with_min Board.shared 800000) 1600000) Board.msm
                eq_refl eq_refl) as (_ & _ & Hacc).
    destruct (Hacc ltac:(repeat split) eq_refl
                (board_callbacks_keep_policy _ _ _ _)
                (fst (value_after (0, Board.shared)
                        (__cpufreq_set_policy
                           (Board.board 1000000 2147483647 (fun _ => 0)
                              (fun m => m))
                           0%nat
                           (with_max (with_min Board.shared 800000) 1600000))
                        Board.w0))
                (snd (value_after (0, Board.shared)
                        (__cpufreq_set_policy
                           (Board.board 1000000 2147483647 (fun _ => 0)
                              (fun m => m))
                           0%nat
                           (with_max (with_min Board.shared 800000) 1600000))
                        Board.w0))
                (world_after
                   (__cpufreq_set_policy
                      (Board.board 1000000 2147483647 (fun _ => 0)
                         (fun m => m))
                      0%nat
                      (with_max (with_min Board.shared 800000) 1600000))
                   Board.w0))
      as (p' & Hp' & Hmin & Hmax).
    + vm_compute. reflexivity.
    + exists p'. split; [exact Hp'|]. split; [exact Hmin | exact Hmax].
Defined.

(** ** The scaling_governor attribute *)

Lemma stable_modify (data : ptr) (R : cpufreq_policy -> Prop)
    (f : world -> world) :
  (forall w, heap (f w) = heap w) -> stable (holds data R) (modify f).
Proof.
  intros Hf w a w' (p & Hp & HR) E. inversion E. subst.
  exists p. now rewrite Hf.
Qed.

Lemma parse_governor_keeps_heap (P : platform) (str : string) (k : Z)
    (g : option cpufreq_governor) (data : ptr) (R : cpufreq_policy -> Prop) :
  stable (holds data R) (cpufreq_parse_governor P str k g).
Proof.
  unfold cpufreq_parse_governor, __find_governor.
  repeat first
    [ stable_step
    | apply stable_modify; intros; reflexivity ].
Qed.

(** C9 (as amended). An invocation of store_scaling_governor that gets as
    far as the inner __cpufreq_set_policy (the policy was looked up, a name
    was scanned, the name was parsed) and whose inner call returns, returns
    too, whether the inner call succeeded or not.  The live policy is then
    the one the inner call left, with its max replaced by 2803200 if it was
    larger and kept if it was not, and with the policy kind and governor
    copied to user_policy: max is the smaller of 2803200 and what the inner
    call left.  No other policy changes and the log gains the sysfs
    notification.  An invocation that stops at the scan or at the parse
    returns -EINVAL and leaves the policy as it was. *)
Theorem store_scaling_governor_caps_max (P : platform) (w : world)
    (pol : ptr) (buf : string) (count : Z) (p new_policy : cpufreq_policy) :
  heap w pol = Some p ->
  cpufreq_get_policy P (cpu p) w = Ret (0, Some new_policy) w ->
  (forall str k g w1 x w2,
      sscanf_15s buf = Some str ->
      cpufreq_parse_governor P str (policy new_policy) (governor new_policy) w
        = Ret (0, k, g) w1 ->
      __cpufreq_set_policy P pol (with_governor (with_policy new_policy k) g) w1
        = Ret x w2 ->
      exists w' p2,
        store_scaling_governor P pol buf count w
          = Ret (if negb (fst x =? 0) then fst x else count) w'
        /\ heap w2 pol = Some p2
        /\ (let capped :=
              if max p2 >? 2803200 then with_max p2 2803200 else p2 in
            heap w' pol
            = Some (with_user_policy capped
                      (with_rp_kind (user_policy capped) (policy capped)
                                    (governor capped))))
        /\ (exists p', heap w' pol = Some p'
                       /\ max p' = Z.min (max p2) 2803200
                       /\ min p' = min p2
                       /\ governor p' = governor p2)
        /\ (forall q, q <> pol -> heap w' q = heap w2 q)
        /\ frame w2 w'
        /\ trace w'
           = trace w2 ++ [EvSysfs (sysfs_notify (cpu p2) "scaling_governor") 0])
  /\ (sscanf_15s buf = None
      \/ (exists str e k g w1,
             sscanf_15s buf = Some str
             /\ cpufreq_parse_governor P str (policy new_policy)
                  (governor new_policy) w = Ret (e, k, g) w1
             /\ e <> 0) ->
      exists w',
        store_scaling_governor P pol buf count w = Ret (- EINVAL) w'
        /\ heap w' pol = Some p).
Proof.
  intros Hp Hget. split.
  - intros str k g w1 x w2 Hscan Hparse Hset.
    assert (H1 : holds pol (fun _ => True) w1).
    { eapply (parse_governor_keeps_heap P str _ _ pol (fun _ => True));
        [|exact Hparse]. exists p. now split. }
    destruct (set_policy_keeps_allocated P pol pol _ w1 x w2 H1 Hset)
      as (p2 & Hp2 & _).
    unfold store_scaling_governor.
    unfold bind at 1. unfold deref at 1. rewrite Hp.
    unfold bind at 1. rewrite Hget. cbn [snd fst].
    rewrite Hscan.
    unfold bind at 1. rewrite Hparse. cbn [snd fst negb Z.eqb].
    unfold bind at 1. rewrite Hset.
    unfold bind at 1. unfold deref at 1. rewrite Hp2.
    destruct (max p2 >? 2803200) eqn:Hcap.
    + unfold bind at 1. unfold assign at 1, modify at 1.
      unfold bind at 1.
      rewrite (update_spec _ _ _ (with_max p2 2803200))
        by (cbn; apply upd_eq).
      unfold bind at 1. unfold deref at 1. cbn [heap set_heap].
      rewrite upd_eq.
      unfold bind at 1. unfold log, modify, ret.
      eexists _, p2. split; [reflexivity|].
      cbn [heap set_heap set_trace trace]. rewrite upd_eq.
      split; [reflexivity|]. cbv zeta. rewrite Hcap.
      split; [reflexivity|].
      split; [|split; [|split]].
      * eexists. split; [reflexivity|]. cbn.
        apply Z.gtb_gt in Hcap. repeat split. lia.
      * intros q Hq. now rewrite !upd_neq.
      * repeat split.
      * reflexivity.
    + unfold bind at 1. unfold ret at 1.
      unfold bind at 1. rewrite (update_spec _ _ _ p2 Hp2).
      unfold bind at 1. unfold deref at 1. cbn [heap set_heap].
      rewrite upd_eq.
      unfold bind at 1. unfold log, modify, ret.
      eexists _, p2. split; [reflexivity|].
      cbn [heap set_heap set_trace trace]. rewrite upd_eq.
      split; [reflexivity|]. cbv zeta. rewrite Hcap.
      split; [reflexivity|].
      split; [|split; [|split]].
      * eexists. split; [reflexivity|]. cbn.
        rewrite Z.gtb_ltb in Hcap. apply Z.ltb_ge in Hcap.
        repeat split. lia.
      * intros q Hq. now rewrite upd_neq.
      * repeat split.
      * reflexivity.
  - intros Hearly. unfold store_scaling_governor.
    unfold bind at 1. unfold deref at 1. rewrite Hp.
    unfold bind at 1. rewrite Hget. cbn [snd fst].
    destruct Hearly as [Hscan | (str & e & k & g & w1 & Hscan & Hparse & He)].
    + rewrite Hscan. eexists. split; [reflexivity|exact Hp].
    + rewrite Hscan. unfold bind at 1. rewrite Hparse. cbn [snd fst].
      apply Z.eqb_neq in He. rewrite He. cbn [negb].
      eexists. split; [reflexivity|].
      assert (H1 : holds pol (fun q => q = p) w1).
      { eapply (parse_governor_keeps_heap P str _ _ pol (fun q => q = p));
          [|exact Hparse]. exists p. now split. }
      destruct H1 as (q & Hq & ->). exact Hq.
Qed.

Lemma store_scaling_governor_caps_max_witness :
  exists x w2 p2 w' p',
    __cpufreq_set_policy Board.quiet 1%nat
      (with_governor (with_policy Board.fast 0) (Some Board.performance))
      Board.w_fast = Ret x w2
    /\ heap w2 1%nat = Some p2
    /\ max p2 = 3000000
    /\ store_scaling_governor Board.quiet 1%nat "performance" 12 Board.w_fast
       = Ret 12 w'
    /\ heap w' 1%nat = Some p'
    /\ max p' = 2803200.
Proof.
  destruct (store_scaling_governor_caps_max Board.quiet Board.w_fast 1%nat
              "performance" 12 Board.fast Board.fast eq_refl eq_refl)
    as [Hcap _].
  assert (E : exists x w2 p2,
             __cpufreq_set_policy Board.quiet 1%nat
               (with_governor (with_policy Board.fast 0)
                  (Some Board.performance)) Board.w_fast = Ret x w2
             /\ fst x = 0 /\ heap w2 1%nat = Some p2 /\ max p2 = 3000000).
  { vm_compute. eexists _, _, _. repeat split; reflexivity. }
  destruct E as (x & w2 & p2 & Hset & Hx & Hp2 & Hmax2).
  destruct (Hcap "performance" 0 (Some Board.performance) Board.w_fast x w2
              eq_refl eq_refl Hset)
    as (w' & q2 & Hret & Hq2 & _ & (p' & Hp' & Hmax & _) & _).
  rewrite Hx in Hret. rewrite Hp2 in Hq2. injection Hq2 as <-.
  rewrite Hmax2 in Hmax.
  exists x, w2, p2, w', p'. repeat split; assumption.
Defined.

(** C9 as stated fails: on hardware that goes up to 3000000, writing the
    name of a governor that does not exist returns -EINVAL before the cap
    is applied, and the live policy's max is still 3000000. *)
Lemma store_unknown_governor_skips_cap :
  ~ max_capped_after_store Board.quiet Board.w_fast 1%nat "turbo" 5.
Proof.
  intros H.
  assert (E : exists r w' p',
             store_scaling_governor Board.quiet 1%nat "turbo" 5 Board.w_fast
             = Ret r w'
             /\ heap w' 1%nat = Some p' /\ max p' = 3000000).
  { vm_compute. eexists _, _, _. split; [reflexivity|]. split; reflexivity. }
  destruct E as (r & w' & p' & Hret & Hp' & Hmax).
  specialize (H r w' p' Hret Hp'). rewrite Hmax in H. lia.
Qed.

(** ** Adding a CPU: the error paths after init *)

(** C2, at the failing input.  CPU 3 is online and has no policy; the
    driver has an exit callback and its init succeeds; sysfs fails to
    create the policy's kobject.  cpufreq_add_dev returns -ENOMEM, CPU 3 is
    left without a policy and the provisional policy is freed, but the log
    holds init and no exit.  For contrast, when instead the first policy-set
    fails (the saved governor's START fails), the same function does call
    exit before it returns the error. *)
Theorem add_dev_sysfs_failure_skips_exit :
  exit Board.msm = true
  /\ (exists w',
        cpufreq_add_dev
          (Board.board 0 2147483647 Board.no_memory_for_cpu3 (fun m => m))
          3 Board.w0 = Ret (- ENOMEM) w'
        /\ trace w'
           = [EvInit 3; EvPolicyNotifier CPUFREQ_START 3;
              EvSysfs (kobject_init_and_add 3) (- ENOMEM);
              EvSysfs (kobject_put 3) 0]
        /\ cpufreq_cpu_data w' 3%nat = None
        /\ heap w' 2%nat = None)
  /\ (exists w',
        cpufreq_add_dev Board.quiet 3 Board.w_broken = Ret (- EINVAL) w'
        /\ In (EvExit 2%nat) (trace w')
        /\ cpufreq_cpu_data w' 3%nat = None).
Proof.
  split; [reflexivity|]. split.
  - vm_compute. eexists. split; [reflexivity|].
    repeat split; reflexivity.
  - vm_compute. eexists. split; [reflexivity|]. split; [|reflexivity].
    cbn. tauto.
Qed.

(** ** Hotplug: removal and re-addition of a CPU that has its policy to itself *)

(** A governor that suits the hardware and whose module is there: the call
    of __cpufreq_governor as one equation. *)
Lemma governor_runs (P : platform) (pol : ptr) (ev : gov_event) (w : world)
    (p : cpufreq_policy) (g : cpufreq_governor) :
  heap w pol = Some p ->
  governor p = Some g ->
  too_slow g p = false ->
  try_module_get P (owner g) = true ->
  __cpufreq_governor P pol ev w
  = Ret (fst (governor_fn P g ev p))
        (set_trace
           (set_heap w (upd (heap w) pol (Some (snd (governor_fn P g ev p)))))
           (trace w ++ [EvGovernor pol g ev (fst (governor_fn P g ev p))])).
Proof.
  intros Hp Hg Hslow Hmod. unfold __cpufreq_governor. unfold_monad.
  rewrite Hp, Hg. fold (too_slow g p). rewrite Hslow, Hmod. cbn.
  now rewrite Hp.
Qed.

Lemma lock_write_free (P : platform) (c : nat) (w : world) :
  (forall m, hotplug_while_asleep P m = m) ->
  cpufreq_policy_cpu w c = Z.of_nat c ->
  can_down write (cpu_policy_rwsem w c) = true ->
  cpumask_test_cpu c (cpu_online_mask w) = true ->
  lock_policy_rwsem_write P c w
  = Ret 0 (set_rwsem (set_online_mask w (cpu_online_mask w))
             (upd (cpu_policy_rwsem w) c {| readers := 0; writer := true |})).
Proof.
  intros Hrace Hpc Hfree Hon.
  unfold lock_policy_rwsem_write, lock_policy_rwsem, down. unfold_monad.
  rewrite Hpc.
  assert (Hne : (Z.of_nat c =? -1) = false) by (apply Z.eqb_neq; lia).
  rewrite Hne, Nat2Z.id.
  cbn in Hfree. apply andb_true_iff in Hfree. destruct Hfree as [Hw Hr].
  apply negb_true_iff in Hw. rewrite Hw, Hr, Hrace. cbn. now rewrite Hon.
Qed.

Lemma unlock_write (c : nat) (w : world) :
  cpufreq_policy_cpu w c = Z.of_nat c ->
  unlock_policy_rwsem_write c w
  = Ret tt (set_rwsem w
              (upd (cpu_policy_rwsem w) c
                 {| readers := readers (cpu_policy_rwsem w c);
                    writer := false |})).
Proof.
  intros Hpc. unfold unlock_policy_rwsem_write, unlock_policy_rwsem, up.
  unfold_monad. rewrite Hpc.
  assert (Hne : (Z.of_nat c =? -1) = false) by (apply Z.eqb_neq; lia).
  now rewrite Hne, Nat2Z.id.
Qed.

Lemma bind_eq {A B} (m : M A) (k : A -> M B) (w : world) (a : A)
    (w' : world) :
  m w = Ret a w' -> bind m k w = k a w'.
Proof. intros H. unfold bind. now rewrite H. Qed.

Lemma bind_assoc {A B C} (m : M A) (k : A -> M B) (h : B -> M C)
    (w : world) :
  bind (bind m k) h w = bind m (fun a => bind (k a) h) w.
Proof. unfold bind. now destruct (m w). Qed.

Lemma deref_eq (q : ptr) (w : world) (v : cpufreq_policy) :
  heap w q = Some v -> deref q w = Ret v w.
Proof. intros H. unfold deref. now rewrite H. Qed.

Lemma driver_eq (w : world) (drv : cpufreq_driver_t) :
  cpufreq_driver w = Some drv -> driver w = Ret drv w.
Proof. intros H. unfold driver. now rewrite H. Qed.

(** Projections of an updated world. *)
Ltac wsimpl :=
  cbn [cpufreq_driver cpufreq_cpu_data cpufreq_policy_save cpufreq_policy_cpu
       cpu_policy_rwsem cpufreq_governor_list cpu_online_mask heap next_ptr
       trace set_cpu_data set_policy_save set_policy_cpu set_rwsem
       set_governor_list set_online_mask set_heap set_next_ptr set_trace] in *.

(** One step of a run whose first action computes. *)
Ltac mrun := erewrite bind_eq by (cbn; reflexivity); cbv beta iota; wsimpl.
Ltac mderef H :=
  erewrite bind_eq by (apply deref_eq; wsimpl; exact H); cbv beta iota; wsimpl.
Ltac mdriver H :=
  erewrite bind_eq by (apply driver_eq; wsimpl; exact H); cbv beta iota; wsimpl.



Lemma cpu_get_eq (P : platform) (c : nat) (b : bool) (w : world)
    (drv : cpufreq_driver_t) :
  (c < nr_cpu_ids P)%nat ->
  cpufreq_driver w = Some drv ->
  try_module_get P (drv_owner drv) = true ->
  __cpufreq_cpu_get P c b w = Ret (cpufreq_cpu_data w c) w.
Proof.
  intros Hc Hdrv Hmod. unfold __cpufreq_cpu_get. unfold_monad.
  assert (Hnr : (nr_cpu_ids P <=? c)%nat = false) by (apply Nat.leb_gt; lia).
  now rewrite Hnr, Hdrv, Hmod.
Qed.

Lemma sibling_governor_returns (c : nat) (l : list nat) (w : world) :
  mapped_alive w -> exists r, sibling_governor c l w = Ret r w.
Proof.
  intros Halive. induction l as [|j l IH]; cbn [sibling_governor].
  - eexists. reflexivity.
  - mrun. destruct (cpufreq_cpu_data w j) as [q|] eqn:Hq; [|exact IH].
    destruct (heap w q) as [v|] eqn:Hv; [|now apply Halive in Hq].
    mderef Hv.
    destruct (governor v); [|exact IH].
    destruct (cpumask_test_cpu c (related_cpus v)); [|exact IH].
    eexists. reflexivity.
Qed.

Lemma create_files_ok (P : platform) (c : nat) (l : list string) (w : world) :
  (forall o, sysfs P o = 0) ->
  exists t, create_files P c l w = Ret 0 (set_trace w t).
Proof.
  intros Hs. revert w. induction l as [|a l IH]; intros w; cbn [create_files].
  - exists (trace w). now destruct w.
  - unfold do_sysfs. rewrite bind_assoc. mrun. mrun.
    rewrite Hs. cbn [negb Z.eqb].
    destruct (IH (set_trace w (trace w ++ [EvSysfs (sysfs_create_file c a) 0])))
      as (t & Ht).
    exists t. exact Ht.
Qed.

Ltac mupdate :=
  erewrite bind_eq by (apply update_spec; wsimpl; rewrite ?upd_eq; reflexivity);
  cbv beta iota; wsimpl.

Lemma add_dev_policy_restores (P : platform) (w : world) (c dev : nat)
    (pol : ptr) (q : cpufreq_policy) (g : cpufreq_governor) (nm : string)
    (umin umax : Z) :
  heap w pol = Some q ->
  cpufreq_policy_save w c
    = {| gov := nm; save_max := umax; save_min := umin |} ->
  umin <> 0 -> umax <> 0 ->
  find (fun t => strnicmp nm (name t) (CPUFREQ_NAME_LEN P))
       (cpufreq_governor_list w) = Some g ->
  for_each_cpu (nr_cpu_ids P) (cpus q) = [c] ->
  exists w',
    cpufreq_add_dev_policy P c pol dev w = Ret 0 w'
    /\ heap w' pol = Some (restore_saved q g umin umax)
    /\ (forall x, x <> pol -> heap w' x = heap w x)
    /\ heap_only w w'.
Proof.
  intros Hq Hsave Humin Humax Hfind Hcpus.
  unfold cpufreq_add_dev_policy, __find_governor.
  mrun. rewrite Hsave. cbn [gov save_min save_max].
  mrun. rewrite Hfind.
  erewrite bind_eq by (apply update_spec; exact Hq). cbv beta iota.
  apply Z.eqb_neq in Humin, Humax. rewrite Humin, Humax. cbn [negb].
  rewrite bind_assoc. mupdate. mupdate.
  rewrite bind_assoc. mupdate. mupdate.
  erewrite bind_eq by (apply deref_eq; wsimpl; apply upd_eq).
  cbv beta iota. cbn [cpus with_user_policy with_max with_min with_governor].
  rewrite Hcpus. cbn [add_dev_policy_loop]. rewrite Nat.eqb_refl.
  eexists. split; [reflexivity|]. wsimpl. rewrite upd_eq.
  split; [reflexivity|]. split.
  - intros x Hx. now rewrite !upd_neq.
  - repeat split.
Qed.

Lemma adjust_twice (x : cpufreq_policy) (a b a' b' : Z) :
  with_max (with_min (with_max (with_min x a) b) a') b'
  = with_max (with_min x a') b'.
Proof. reflexivity. Qed.

Lemma notified_adjusts (P : platform) (drv : cpufreq_driver_t)
    (x : cpufreq_policy) :
  verify_adjusts drv -> notifiers_adjust P ->
  fst (verify drv x) = 0
  /\ fst (verify drv (adjusted P drv x)) = 0
  /\ exists a b, notified P drv x = with_max (with_min x a) b.
Proof.
  intros Hv Hn. unfold notified, adjusted.
  destruct (Hv x) as (E1 & a1 & b1 & V1). rewrite V1.
  destruct (Hn CPUFREQ_ADJUST (with_max (with_min x a1) b1)) as (a2 & b2 & N2).
  rewrite N2, adjust_twice.
  destruct (Hn CPUFREQ_INCOMPATIBLE (with_max (with_min x a2) b2))
    as (a3 & b3 & N3).
  rewrite N3, adjust_twice.
  destruct (Hv (with_max (with_min x a3) b3)) as (E4 & a4 & b4 & V4).
  rewrite V4, adjust_twice.
  destruct (Hn CPUFREQ_NOTIFY (with_max (with_min x a4) b4)) as (a5 & b5 & N5).
  rewrite N5, adjust_twice.
  split; [exact E1|]. split; [exact E4|]. now exists a5, b5.
Qed.

(** The first policy-set of a fresh policy: no governor yet, an accepted
    request for [g], whose START succeeds. *)
Lemma set_policy_starts_governor (P : platform) (w : world) (data : ptr)
    (d pol : cpufreq_policy) (drv : cpufreq_driver_t) (g : cpufreq_governor) :
  heap w data = Some d ->
  cpufreq_driver w = Some drv ->
  setpolicy drv = None ->
  CONFIG_UNI_CPU_POLICY_LIMIT P = false ->
  accepted P drv d pol ->
  governors_keep_policy P ->
  governor d = None ->
  governor (notified P drv (clamped P d pol)) = Some g ->
  (forall x, too_slow g x = false) ->
  try_module_get P (owner g) = true ->
  (forall x, fst (governor_fn P g CPUFREQ_GOV_START x) = 0) ->
  exists w' p',
    __cpufreq_set_policy P data pol w
      = Ret (0, restored pol (notified P drv (clamped P d pol))) w'
    /\ heap w' data = Some p'
    /\ governor p' = Some g
    /\ same_limits (committed d (notified P drv (clamped P d pol))) p'
    /\ frame w w'
    /\ In (EvGovernor data g CPUFREQ_GOV_START 0) (trace w').
Proof.
  intros Hd Hdrv Hsp Huni Hacc Hkeep Hnone Hfin Hslow Hgmod Hstart.
  destruct (set_policy_accepted P w data d pol drv Hd Hdrv Hacc Huni)
    as (w1 & Hh1 & _ & Hfr1 & _ & Hrun).
  rewrite Hrun. clear Hrun.
  set (fin := notified P drv (clamped P d pol)) in *.
  set (d1 := committed d fin) in *.
  unfold set_policy_enforce. rewrite Hsp.
  rewrite bind_assoc. mderef Hh1.
  change (governor d1) with (governor d). rewrite Hnone, Hfin.
  cbn [governor_ptr_eqb negb]. rewrite Huni.
  rewrite !bind_assoc. mrun. rewrite !bind_assoc. mrun.
  rewrite !bind_assoc.
  erewrite bind_eq by (apply update_spec; exact Hh1). cbv beta iota.
  set (p3 := with_governor d1 (Some g)).
  rewrite !bind_assoc.
  erewrite bind_eq.
  2:{ apply (governor_runs P data CPUFREQ_GOV_START _ p3 g).
      - wsimpl. apply upd_eq.
      - reflexivity.
      - apply Hslow.
      - exact Hgmod. }
  rewrite Hstart. cbn [negb Z.eqb].
  set (p4 := snd (governor_fn P g CPUFREQ_GOV_START p3)).
  destruct (callback_same_limits P g CPUFREQ_GOV_START p3 Hkeep) as [L4 G4].
  fold p4 in L4, G4.
  rewrite !bind_assoc.
  erewrite bind_eq.
  2:{ apply (governor_runs P data CPUFREQ_GOV_LIMITS _ p4 g).
      - wsimpl. apply upd_eq.
      - exact G4.
      - apply Hslow.
      - exact Hgmod. }
  mrun.
  destruct (callback_same_limits P g CPUFREQ_GOV_LIMITS p4 Hkeep) as [L5 G5].
  eexists _, _. split; [reflexivity|]. wsimpl. rewrite upd_eq.
  split; [reflexivity|]. split; [now rewrite G5|]. split.
  - eapply same_limits_trans; [|exact L5].
    eapply same_limits_trans; [|exact L4].
    apply with_governor_same_limits.
  - split; [exact Hfr1|].
    apply in_or_app. left. apply in_or_app. right. now left.
Qed.

Lemma add_dev_interface_fresh (P : platform) (w : world) (c : nat) (pol : ptr)
    (q : cpufreq_policy) (drv : cpufreq_driver_t) (g : cpufreq_governor)
    (umin umax : Z) :
  (forall o, sysfs P o = 0) ->
  CONFIG_UNI_CPU_POLICY_LIMIT P = false ->
  notifiers_adjust P ->
  governors_keep_policy P ->
  cpumask_test_cpu c (cpu_online_mask w) = true ->
  cpufreq_driver w = Some drv ->
  setpolicy drv = None ->
  verify_adjusts drv ->
  heap w pol = Some q ->
  cpu q = c ->
  for_each_cpu (nr_cpu_ids P) (cpus q) = [c] ->
  governor q = Some g ->
  rp_min (user_policy q) = umin -> rp_max (user_policy q) = umax ->
  min q = umin -> max q = umax -> umin <= umax ->
  (forall x, too_slow g x = false) ->
  try_module_get P (owner g) = true ->
  (forall x, fst (governor_fn P g CPUFREQ_GOV_START x) = 0) ->
  exists w' p2,
    cpufreq_add_dev_interface P c pol c w = Ret (0, true) w'
    /\ cpufreq_cpu_data w' c = Some pol
    /\ heap w' pol = Some p2
    /\ governor p2 = Some g
    /\ rp_min (user_policy p2) = umin
    /\ rp_max (user_policy p2) = umax
    /\ rp_governor (user_policy p2) = Some g
    /\ cpufreq_policy_cpu w' c = Z.of_nat c
    /\ cpu_policy_rwsem w' = cpu_policy_rwsem w
    /\ In (EvGovernor pol g CPUFREQ_GOV_START 0) (trace w').
Proof.
  intros Hsys Huni Hnot Hkeep Hon Hdrv Hsp Hver Hq Hcpu Hcpus Hg Hrmin Hrmax
         Hmin Hmax Hle Hslow Hgmod Hstart.
  unfold cpufreq_add_dev_interface, do_sysfs.
  rewrite bind_assoc. mrun. mrun. rewrite Hsys. cbn [negb Z.eqb].
  mdriver Hdrv.
  match goal with
  | |- context [bind (create_files P c ?l) ?k ?w0] =>
      destruct (create_files_ok P c l w0 Hsys) as (t & Ht)
  end.
  erewrite bind_eq by exact Ht. cbn [negb Z.eqb].
  mderef Hq. rewrite Hcpus. cbn [bind_online_cpus].
  rewrite !bind_assoc. mrun. rewrite Hon. cbn [negb].
  rewrite !bind_assoc. mrun. rewrite !bind_assoc. mderef Hq. mrun. mrun.
  unfold cpufreq_add_dev_symlink. rewrite bind_assoc.
  mderef Hq. rewrite Hcpus. cbn [add_dev_symlink_loop]. rewrite Nat.eqb_refl.
  mrun. cbn [negb Z.eqb].
  mderef Hq.
  erewrite bind_eq by (apply update_spec; wsimpl; exact Hq).
  cbv beta iota.
  set (q0 := with_governor q None).
  set (W := set_heap _ _).
  destruct (notified_adjusts P drv (clamped P q0 q) Hver Hnot)
    as (Hv1 & Hv2 & a & b & Hfin).
  assert (Hacc : accepted P drv q0 q).
  { split; [|split; assumption].
    unfold bounds_conflict, clamped, qos_min, qos_max. cbn.
    rewrite Hrmin, Hrmax, Hmin, Hmax.
    apply orb_false_iff. split.
    - rewrite Z.gtb_ltb. apply Z.ltb_ge. lia.
    - apply Z.ltb_ge. lia. }
  destruct (set_policy_starts_governor P W pol q0 q drv g)
    as (w' & p' & Hset & Hh' & Hg' & L' & Hfr' & Hin');
    try assumption; try reflexivity.
  { subst W. wsimpl. apply upd_eq. }
  { rewrite Hfin. exact Hg. }
  erewrite bind_eq by exact Hset. cbn [fst snd negb Z.eqb].
  erewrite bind_eq by (apply update_spec; exact Hh'). cbv beta iota.
  mrun. unfold ret at 1.
  destruct Hfr' as (F1 & F2 & F3 & F4 & F5 & F6 & F7 & F8).
  subst W. wsimpl.
  destruct L' as (_ & _ & _ & _ & _ & _ & _ & LU).
  eexists _, _. split; [reflexivity|]. wsimpl.
  rewrite F2, F4, F5, !upd_eq, Hcpu.
  repeat split; try reflexivity; try assumption.
  - cbn. rewrite LU. exact Hrmin.
  - cbn. rewrite LU. exact Hrmax.
Qed.

Lemma add_restores_snapshot (P : platform) (w : world) (c : nat)
    (drv : cpufreq_driver_t) (g : cpufreq_governor) (nm : string)
    (umin umax : Z) :
  (c < nr_cpu_ids P)%nat ->
  (forall m, hotplug_while_asleep P m = m) ->
  CONFIG_UNI_CPU_POLICY_LIMIT P = false ->
  kzalloc_policy P = true ->
  alloc_cpumask_var P = true ->
  zalloc_cpumask_var P = true ->
  (forall o, sysfs P o = 0) ->
  notifiers_adjust P ->
  governors_keep_policy P ->
  cpumask_test_cpu c (cpu_online_mask w) = true ->
  can_down write (cpu_policy_rwsem w c) = true ->
  cpufreq_driver w = Some drv ->
  setpolicy drv = None ->
  try_module_get P (drv_owner drv) = true ->
  verify_adjusts drv ->
  init_alone P drv c (cpu_online_mask w) ->
  cpufreq_cpu_data w c = None ->
  mapped_alive w ->
  cpufreq_policy_save w c = {| gov := nm; save_max := umax; save_min := umin |} ->
  umin <> 0 -> umax <> 0 -> umin <= umax ->
  find (fun t => strnicmp nm (name t) (CPUFREQ_NAME_LEN P))
       (cpufreq_governor_list w) = Some g ->
  (forall x, too_slow g x = false) ->
  try_module_get P (owner g) = true ->
  (forall x, fst (governor_fn P g CPUFREQ_GOV_START x) = 0) ->
  exists w2 p2,
    cpufreq_add_dev P c w = Ret 0 w2
    /\ cpufreq_cpu_data w2 c = Some (next_ptr w)
    /\ heap w2 (next_ptr w) = Some p2
    /\ governor p2 = Some g
    /\ rp_min (user_policy p2) = umin
    /\ rp_max (user_policy p2) = umax
    /\ rp_governor (user_policy p2) = Some g
    /\ In (EvGovernor (next_ptr w) g CPUFREQ_GOV_START 0) (trace w2).
Proof.
  intros Hc Hrace Huni Hk1 Hk2 Hk3 Hsys Hnot Hkeep Hon Hfree Hdrv Hsp Hmod
         Hver Hinit Hdata Halive Hsave Humin Humax Hle Hfind Hslow Hgmod Hstart.
  unfold cpufreq_add_dev.
  mrun. rewrite Hon. cbn [negb].
  erewrite bind_eq by (eapply cpu_get_eq; eassumption).
  rewrite Hdata. mdriver Hdrv.
  rewrite Hmod, Hk1, Hk2, Hk3. cbn [negb].
  mrun. set (pol := next_ptr w).
  mupdate. mupdate. mrun.
  erewrite bind_eq.
  2:{ apply lock_write_free; wsimpl.
      - exact Hrace.
      - apply upd_eq.
      - exact Hfree.
      - exact Hon. }
  wsimpl. mrun.
  match goal with
  | |- context [bind (sibling_governor c ?l) ?k ?w0] =>
      destruct (sibling_governor_returns c l w0) as (sg & Hsg)
  end.
  { intros j x Hx. wsimpl. unfold upd.
    destruct (Nat.eqb x pol); [discriminate|]. exact (Halive j x Hx). }
  erewrite bind_eq by exact Hsg.
  mupdate.
  erewrite bind_eq by (apply deref_eq; wsimpl; apply upd_eq).
  cbv beta iota.
  match goal with
  | |- context [init drv ?x] => set (pin := x)
  end.
  destruct (Hinit pin eq_refl eq_refl) as (Hi0 & Hicpu & Hicpus).
  mrun. mrun. rewrite Hi0. cbn [negb Z.eqb].
  mrun. mupdate. mupdate. mupdate. mupdate. mupdate. mrun.
  match goal with
  | |- context [upd _ pol (Some (policy_notifier P CPUFREQ_START ?x))] =>
      destruct (Hnot CPUFREQ_START x) as (a & b & Hn); rewrite Hn
  end.
  match goal with
  | |- context [bind (cpufreq_add_dev_policy P c pol c) ?k ?w0] =>
      destruct (add_dev_policy_restores P w0 c c pol _ g nm umin umax
                  ltac:(wsimpl; apply upd_eq) Hsave Humin Humax Hfind)
        as (W1 & Hadp & Hh1 & _ & (F & _))
  end.
  { cbn. exact Hicpus. }
  erewrite bind_eq by exact Hadp. cbn [negb Z.eqb].
  destruct F as (F1 & F2 & F3 & F4 & F5 & F6 & F7 & F8). wsimpl.
  assert (Hon1 : cpumask_test_cpu c (cpu_online_mask W1) = true)
    by (rewrite F7; exact Hon).
  assert (Hdrv1 : cpufreq_driver W1 = Some drv) by (rewrite F1; exact Hdrv).
  destruct (add_dev_interface_fresh P W1 c pol _ drv g umin umax
              Hsys Huni Hnot Hkeep Hon1 Hdrv1 Hsp Hver Hh1 Hicpu Hicpus
              eq_refl eq_refl eq_refl eq_refl eq_refl Hle Hslow Hgmod Hstart)
    as (W2 & p2 & Hadi & Hd2 & Hh2 & Hg2 & Hm2 & HM2 & Hu2 & Hpc2 & _ & Hin2).
  erewrite bind_eq by exact Hadi. cbv zeta. cbn [fst snd negb Z.eqb].
  erewrite bind_eq by (apply unlock_write; exact Hpc2).
  unfold do_sysfs. rewrite bind_assoc. mrun. mrun. unfold ret at 1.
  eexists _, p2. split; [reflexivity|]. wsimpl.
  repeat split; try assumption.
  apply in_or_app. now left.
Qed.

Lemma board_notifiers_adjust (qmin qmax : Z) (sf : sysfs_op -> Z)
    (race : cpumask -> cpumask) :
  notifiers_adjust (Board.board qmin qmax sf race).
Proof. intros e x. exists (min x), (max x). now destruct x. Qed.

Lemma board_verify_adjusts : verify_adjusts Board.msm.
Proof.
  intros x. split; [reflexivity|]. cbn. unfold Board.within_limits. cbn.
  eexists _, _. reflexivity.
Qed.

Lemma board_mapped_alive : mapped_alive Board.w0.
Proof.
  intros j q Hj. cbn in Hj.
  destruct j as [|[|[|j]]]; inversion Hj; subst; discriminate.
Qed.

(** * Further properties of the file *)

(** ** The policy semaphore: what a lock call does *)

Lemma bind_inv {A B} (m : M A) (k : A -> M B) (w : world) (b : B)
    (w' : world) :
  bind m k w = Ret b w' ->
  exists a w1, m w = Ret a w1 /\ k a w1 = Ret b w'.
Proof.
  unfold bind. destruct (m w) as [a w1|]; [|discriminate].
  intros H. now exists a, w1.
Qed.

Lemma down_spec (P : platform) (mode : lock_mode) (i : nat) (w w' : world) :
  down P mode i w = Ret tt w' ->
  can_down mode (cpu_policy_rwsem w i) = true
  /\ w' = set_rwsem
            (set_online_mask w (hotplug_while_asleep P (cpu_online_mask w)))
            (upd (cpu_policy_rwsem w) i (held mode (cpu_policy_rwsem w i))).
Proof.
  unfold down. destruct mode; cbn.
  - destruct (writer (cpu_policy_rwsem w i)); [discriminate|].
    intros H. inversion H. now split.
  - destruct (writer (cpu_policy_rwsem w i)); [discriminate|].
    destruct (Nat.eqb (readers (cpu_policy_rwsem w i)) 0); [|discriminate].
    intros H. inversion H. now split.
Qed.

Lemma down_blocked (P : platform) (mode : lock_mode) (i : nat) (w : world) :
  can_down mode (cpu_policy_rwsem w i) = false ->
  down P mode i w = Oops BLOCKED.
Proof.
  unfold down. destruct mode; cbn.
  - intros H. apply negb_false_iff in H. now rewrite H.
  - intros H. destruct (writer (cpu_policy_rwsem w i)); [reflexivity|].
    cbn in H. now rewrite H.
Qed.

(** A lock call that returns, as one fact. *)
Lemma lock_spec (P : platform) (mode : lock_mode) (c : nat) (w : world)
    (r : Z) (w' : world) :
  lock_policy_rwsem P mode c w = Ret r w' ->
  let i := Z.to_nat (cpufreq_policy_cpu w c) in
  let mask := hotplug_while_asleep P (cpu_online_mask w) in
  cpufreq_policy_cpu w c <> -1
  /\ can_down mode (cpu_policy_rwsem w i) = true
  /\ cpufreq_driver w' = cpufreq_driver w
  /\ cpufreq_cpu_data w' = cpufreq_cpu_data w
  /\ cpufreq_policy_save w' = cpufreq_policy_save w
  /\ cpufreq_policy_cpu w' = cpufreq_policy_cpu w
  /\ cpufreq_governor_list w' = cpufreq_governor_list w
  /\ cpu_online_mask w' = mask
  /\ heap w' = heap w
  /\ next_ptr w' = next_ptr w
  /\ trace w' = trace w
  /\ ((r = -1 /\ cpumask_test_cpu c mask = false
       /\ forall j, cpu_policy_rwsem w' j = cpu_policy_rwsem w j)
      \/ (r = 0 /\ cpumask_test_cpu c mask = true
          /\ cpu_policy_rwsem w'
             = upd (cpu_policy_rwsem w) i (held mode (cpu_policy_rwsem w i)))).
Proof.
  intros H i mask. unfold lock_policy_rwsem in H.
  apply bind_inv in H. destruct H as (pc & w0 & Hpc & H).
  unfold gets in Hpc. inversion Hpc. subst pc w0. clear Hpc.
  destruct (cpufreq_policy_cpu w c =? -1) eqn:Hm; [discriminate|].
  apply Z.eqb_neq in Hm.
  apply bind_inv in H. destruct H as ([] & w1 & Hdown & H).
  apply down_spec in Hdown. fold i mask in Hdown. destruct Hdown as [Hfree ->].
  apply bind_inv in H. destruct H as (on & w2 & Hon & H).
  unfold cpu_online, gets in Hon. inversion Hon. subst on w2. clear Hon.
  cbn in H. fold mask in H.
  split; [exact Hm|]. split; [exact Hfree|].
  destruct (cpumask_test_cpu c mask) eqn:Hbit; cbn in H.
  - unfold ret in H. inversion H. subst r w'. cbn.
    repeat (split; [reflexivity|]). right. repeat split.
  - unfold bind, up, modify, ret in H. inversion H. subst r w'. cbn.
    repeat (split; [reflexivity|]). left. split; [reflexivity|].
    split; [reflexivity|].
    intros j. fold i. rewrite upd_eq. unfold upd at 1.
    destruct (Nat.eqb j i) eqn:Hj.
    + apply Nat.eqb_eq in Hj. subst j.
      pose proof (up_after_down mode _ Hfree) as Hup.
      destruct mode; exact Hup.
    + unfold upd. now rewrite Hj.
Qed.

Lemma lock_total (P : platform) (mode : lock_mode) (c : nat) (w : world) :
  cpufreq_policy_cpu w c <> -1 ->
  can_down mode
    (cpu_policy_rwsem w (Z.to_nat (cpufreq_policy_cpu w c))) = true ->
  exists w',
    lock_policy_rwsem P mode c w
    = Ret (if cpumask_test_cpu c (hotplug_while_asleep P (cpu_online_mask w))
           then 0 else -1) w'.
Proof.
  intros Hm Hfree. unfold lock_policy_rwsem. unfold_monad.
  apply Z.eqb_neq in Hm. rewrite Hm.
  set (i := Z.to_nat (cpufreq_policy_cpu w c)) in *.
  set (mask := hotplug_while_asleep P (cpu_online_mask w)).
  assert (Hdown : down P mode i w
                  = Ret tt (set_rwsem (set_online_mask w mask)
                              (upd (cpu_policy_rwsem w) i
                                 (held mode (cpu_policy_rwsem w i))))).
  { unfold down. destruct mode; cbn in Hfree |- *.
    - apply negb_true_iff in Hfree. now rewrite Hfree.
    - apply andb_true_iff in Hfree. destruct Hfree as [Hw Hr].
      apply negb_true_iff in Hw. now rewrite Hw, Hr. }
  rewrite Hdown. cbn. fold mask.
  destruct (cpumask_test_cpu c mask); cbn; eexists; reflexivity.
Qed.

(** Giving back a semaphore that a lock call took, after a body that
    left the semaphores and the owner map alone. *)
Lemma unlock_after_any (P : platform) (mode : lock_mode) (c : nat)
    (w w1 wc : world) :
  lock_policy_rwsem P mode c w = Ret 0 w1 ->
  cpufreq_policy_cpu wc = cpufreq_policy_cpu w1 ->
  cpu_policy_rwsem wc = cpu_policy_rwsem w1 ->
  exists f,
    unlock_policy_rwsem mode c wc = Ret tt (set_rwsem wc f)
    /\ forall j, f j = cpu_policy_rwsem w j.
Proof.
  intros H F4 F5. apply lock_spec in H.
  destruct H as (Hm & Hfree & Hdr & Hd & Hs & Hpc & Hgl & _ & Hh & Hn & Ht
                 & Hr).
  destruct Hr as [(Hr & _) | (_ & _ & Hsem)]; [discriminate|].
  unfold unlock_policy_rwsem, bind, gets. rewrite F4, Hpc.
  apply Z.eqb_neq in Hm. rewrite Hm.
  unfold up, modify. eexists. split; [reflexivity|].
  intros j. rewrite F5, Hsem, upd_eq. unfold upd at 1.
  destruct (Nat.eqb j (Z.to_nat (cpufreq_policy_cpu w c))) eqn:Hj.
  - apply Nat.eqb_eq in Hj. subst j.
    pose proof (up_after_down mode _ Hfree) as Hup.
    destruct mode; exact Hup.
  - unfold upd. now rewrite Hj.
Qed.

Lemma unlock_after_body (P : platform) (mode : lock_mode) (c : nat)
    (w w1 wc : world) :
  lock_policy_rwsem P mode c w = Ret 0 w1 ->
  frame w1 wc ->
  exists w2,
    unlock_policy_rwsem mode c wc = Ret tt w2
    /\ quiescent w w2
    /\ heap w2 = heap wc
    /\ trace w2 = trace wc
    /\ cpu_online_mask w2 = cpu_online_mask w1.
Proof.
  intros H (F1 & F2 & F3 & F4 & F5 & F6 & F7 & F8).
  destruct (unlock_after_any P mode c w w1 wc H F4 F5) as (f & Hun & Hf).
  apply lock_spec in H.
  destruct H as (_ & _ & Hdr & Hd & Hs & Hpc & Hgl & _ & Hh & Hn & Ht & _).
  exists (set_rwsem wc f). split; [exact Hun|].
  unfold quiescent. wsimpl.
  split; [|now repeat split].
  split; [congruence|]. split; [congruence|]. split; [congruence|].
  split; [congruence|]. split; [exact Hf|]. split; congruence.
Qed.

Lemma unlock_after_lock (P : platform) (mode : lock_mode) (c : nat)
    (w w1 : world) :
  lock_policy_rwsem P mode c w = Ret 0 w1 ->
  exists w2,
    unlock_policy_rwsem mode c w1 = Ret tt w2
    /\ quiescent w w2
    /\ heap w2 = heap w
    /\ trace w2 = trace w
    /\ cpu_online_mask w2 = cpu_online_mask w1.
Proof.
  intros H.
  destruct (unlock_after_body P mode c w w1 w1 H (frame_refl w1))
    as (w2 & Hun & Hq & Hh & Ht & Hmask).
  apply lock_spec in H.
  destruct H as (_ & _ & _ & _ & _ & _ & _ & _ & Hh1 & _ & Ht1 & _).
  exists w2. split; [exact Hun|]. split; [exact Hq|].
  split; [congruence|]. split; [congruence | exact Hmask].
Qed.

(** X1. Taking the policy semaphore and giving it back is a round trip:
    after a lock call that returned 0, the matching unlock call returns and
    every semaphore is in the state it had before the lock; nothing else
    changes in the unlock. *)
Theorem lock_unlock_round_trip (P : platform) (mode : lock_mode) (c : nat)
    (w w1 : world) :
  lock_policy_rwsem P mode c w = Ret 0 w1 ->
  exists w2,
    unlock_policy_rwsem mode c w1 = Ret tt w2
    /\ (forall j, cpu_policy_rwsem w2 j = cpu_policy_rwsem w j)
    /\ cpufreq_cpu_data w2 = cpufreq_cpu_data w
    /\ cpufreq_policy_cpu w2 = cpufreq_policy_cpu w
    /\ cpufreq_policy_save w2 = cpufreq_policy_save w
    /\ heap w2 = heap w
    /\ trace w2 = trace w.
Proof.
  intros H.
  destruct (unlock_after_lock P mode c w w1 H)
    as (w2 & Hun & (_ & Hd & Hs & Hpc & Hsem & _) & Hh & Ht & _).
  exists w2. repeat split; assumption.
Qed.

Lemma lock_unlock_round_trip_witness :
  exists w2,
    unlock_policy_rwsem read 1
      (world_after (lock_policy_rwsem Board.quiet read 1) Board.w0)
    = Ret tt w2
    /\ forall j, cpu_policy_rwsem w2 j = cpu_policy_rwsem Board.w0 j.
Proof.
  destruct (lock_unlock_round_trip Board.quiet read 1 Board.w0
              (world_after (lock_policy_rwsem Board.quiet read 1) Board.w0))
    as (w2 & Hun & Hsem & _).
  - reflexivity.
  - exists w2. split; [exact Hun | exact Hsem].
Defined.

(** X2. The policy semaphore excludes.  While it is held for writing (a
    write lock returned 0), a further lock call, read or write, for any CPU
    with the same owning CPU does not get it: the caller sleeps.  While it
    is held for reading, a write lock sleeps as well, and a read lock for a
    CPU that is online gets it and returns 0. *)
Theorem held_semaphore_excludes (P : platform) (mode : lock_mode)
    (c c2 : nat) (w w1 : world) :
  lock_policy_rwsem P mode c w = Ret 0 w1 ->
  cpufreq_policy_cpu w c2 = cpufreq_policy_cpu w c ->
  lock_policy_rwsem P write c2 w1 = Oops BLOCKED
  /\ match mode with
     | write => lock_policy_rwsem P read c2 w1 = Oops BLOCKED
     | read =>
         cpumask_test_cpu c2
           (hotplug_while_asleep P (cpu_online_mask w1)) = true ->
         exists w2, lock_policy_rwsem P read c2 w1 = Ret 0 w2
     end.
Proof.
  intros H Hsame. apply lock_spec in H.
  destruct H as (Hm & Hfree & _ & _ & _ & Hpc & _ & _ & _ & _ & _ & Hr).
  destruct Hr as [(Hr & _) | (_ & _ & Hsem)]; [discriminate|].
  assert (Hpc2 : cpufreq_policy_cpu w1 c2 = cpufreq_policy_cpu w c)
    by (rewrite Hpc; exact Hsame).
  assert (Hne : (cpufreq_policy_cpu w c =? -1) = false)
    by now apply Z.eqb_neq.
  assert (Hheld : cpu_policy_rwsem w1 (Z.to_nat (cpufreq_policy_cpu w c))
                  = held mode
                      (cpu_policy_rwsem w (Z.to_nat (cpufreq_policy_cpu w c))))
    by (rewrite Hsem; apply upd_eq).
  split.
  - unfold lock_policy_rwsem, bind, gets. rewrite Hpc2, Hne.
    rewrite down_blocked; [reflexivity|].
    rewrite Hheld. destruct mode; reflexivity.
  - destruct mode.
    + intros Hon. unfold lock_policy_rwsem, bind, gets. rewrite Hpc2, Hne.
      unfold down. rewrite Hheld. cbn. unfold cpu_online, gets. cbn.
      rewrite Hon. cbn. eexists. reflexivity.
    + unfold lock_policy_rwsem, bind, gets. rewrite Hpc2, Hne.
      rewrite down_blocked; [reflexivity|].
      rewrite Hheld. reflexivity.
Qed.

Lemma held_semaphore_excludes_witness :
  lock_policy_rwsem Board.quiet write 1
    (world_after (lock_policy_rwsem Board.quiet write 0) Board.w0)
  = Oops BLOCKED.
Proof.
  apply (held_semaphore_excludes Board.quiet write 0 1 Board.w0
           (world_after (lock_policy_rwsem Board.quiet write 0) Board.w0));
    reflexivity.
Defined.

(** ** What the policy-set protocol leaves alone *)

Lemma stable_log_blind (I : world -> Prop) (e : event) :
  blind I -> stable I (log e).
Proof. intros [_ Ht] w a w' HI E. inversion E. now apply Ht. Qed.

Lemma stable_assign_blind (I : world -> Prop) (q : ptr)
    (v : cpufreq_policy) :
  blind I -> stable I (assign q v).
Proof. intros [Hh _] w a w' HI E. inversion E. now apply Hh. Qed.

Lemma stable_update_blind (I : world -> Prop) (q : ptr)
    (f : cpufreq_policy -> cpufreq_policy) :
  blind I -> stable I (update q f).
Proof.
  intros HB. unfold update. apply stable_bind; [apply stable_deref|].
  intros v. now apply stable_assign_blind.
Qed.

Lemma stable_kfree_blind (I : world -> Prop) (q : ptr) :
  blind I -> stable I (kfree q).
Proof. intros [Hh _] w a w' HI E. inversion E. now apply Hh. Qed.

Lemma stable_modify_any {I : world -> Prop} (f : world -> world) :
  (forall w, I w -> I (f w)) -> stable I (modify f).
Proof. intros Hf w a w' HI E. inversion E. now apply Hf. Qed.

Ltac blind_step HB :=
  first
    [ apply stable_log_blind; exact HB
    | apply stable_assign_blind; exact HB
    | apply stable_update_blind; exact HB
    | apply stable_kfree_blind; exact HB
    | stable_step ].

Lemma stable_governor_blind (P : platform) (I : world -> Prop) (q : ptr)
    (ev : gov_event) :
  blind I -> stable I (__cpufreq_governor P q ev).
Proof.
  intros HB. unfold __cpufreq_governor. cbv zeta.
  repeat blind_step HB.
Qed.

Lemma stable_set_policy_blind (P : platform) (I : world -> Prop) (dp : ptr)
    (pol : cpufreq_policy) :
  blind I -> stable I (__cpufreq_set_policy P dp pol).
Proof.
  intros HB.
  unfold __cpufreq_set_policy, set_policy_commit, set_policy_enforce.
  cbv zeta.
  repeat first
    [ apply stable_governor_blind; exact HB
    | blind_step HB ].
Qed.

Lemma blind_frame (w : world) : blind (frame w).
Proof. split; intros x y H; exact H. Qed.

(** X3. __cpufreq_set_policy works on policy objects and on the log and on
    nothing else: whenever it returns, the registered driver, the CPU to
    policy map, the saved snapshots, the owner map, every semaphore, the
    governor list and the online mask are as they were. *)
Theorem set_policy_touches_policies_only (P : platform) (data : ptr)
    (pol : cpufreq_policy) (w : world) (r : Z * cpufreq_policy)
    (w' : world) :
  __cpufreq_set_policy P data pol w = Ret r w' ->
  frame w w'.
Proof.
  intros H.
  exact (stable_set_policy_blind P (frame w) data pol (blind_frame w)
           w r w' (frame_refl w) H).
Qed.

Lemma set_policy_touches_policies_only_witness :
  frame Board.w0
    (world_after
       (__cpufreq_set_policy Board.quiet 0%nat
          (with_governor Board.shared (Some Board.powersave)))
       Board.w0).
Proof.
  eapply (set_policy_touches_policies_only Board.quiet 0%nat
            (with_governor Board.shared (Some Board.powersave)) Board.w0).
  vm_compute. reflexivity.
Defined.

(** An invariant of one policy that the governors' way of writing keeps. *)
Lemma same_limits_closed (P : platform) (R : cpufreq_policy -> Prop) :
  governors_keep_policy P ->
  (forall a b, same_limits a b -> R a -> R b) ->
  governor_closed P R.
Proof.
  intros Hk HR ev p r p' called Hcall Hp.
  exact (HR p p' (governor_call_same_limits P ev p p' r called Hk Hcall) Hp).
Qed.

Lemma set_policy_stable (P : platform) (data dp : ptr)
    (pol : cpufreq_policy) (R : cpufreq_policy -> Prop) :
  governor_closed P R ->
  (forall p v, R p -> R (with_min p v)) ->
  (forall p v, R p -> R (with_max p v)) ->
  (forall p k, R p -> R (with_policy p k)) ->
  (forall p g, R p -> R (with_governor p g)) ->
  stable (holds data R) (__cpufreq_set_policy P dp pol).
Proof.
  intros Hc Hmin Hmax Hpol Hgov.
  unfold __cpufreq_set_policy. cbv zeta.
  repeat first
    [ stable_step
    | apply set_policy_commit_stable; assumption
    | apply set_policy_enforce_stable; assumption ].
Qed.

Lemma set_policy_keeps_fields (P : platform) (data : ptr)
    (pol : cpufreq_policy) (w : world) (r : Z * cpufreq_policy)
    (w' : world) (q : ptr) (p : cpufreq_policy) :
  governors_keep_policy P ->
  heap w q = Some p ->
  __cpufreq_set_policy P data pol w = Ret r w' ->
  exists p',
    heap w' q = Some p'
    /\ user_policy p' = user_policy p
    /\ cpu p' = cpu p
    /\ cpus p' = cpus p
    /\ related_cpus p' = related_cpus p
    /\ cpuinfo p' = cpuinfo p.
Proof.
  intros Hk Hq H.
  set (R := fun x : cpufreq_policy =>
              user_policy x = user_policy p /\ cpu x = cpu p
              /\ cpus x = cpus p /\ related_cpus x = related_cpus p
              /\ cpuinfo x = cpuinfo p).
  assert (Hinv : holds q R w').
  { eapply (set_policy_stable P q data pol R); [| | | | | |exact H].
    - apply same_limits_closed; [exact Hk|].
      intros a b (E1 & E2 & E3 & E4 & _ & _ & _ & E8) (A & B & C & D & E).
      unfold R. repeat split; congruence.
    - intros x v Hx. exact Hx.
    - intros x v Hx. exact Hx.
    - intros x v Hx. exact Hx.
    - intros x v Hx. exact Hx.
    - exists p. split; [exact Hq|]. unfold R. repeat split. }
  destruct Hinv as (p' & Hp' & A & B & C & D & E).
  exists p'. repeat split; assumption.
Qed.

(** X4. __cpufreq_set_policy never writes the user's bounds or the
    identity of a policy: with governors that write cur and util only,
    every policy object, the live one included, has after the call the
    user_policy, the owning CPU, the CPU masks and the cpuinfo it had
    before. *)
Theorem set_policy_keeps_user_policy (P : platform) (data : ptr)
    (pol : cpufreq_policy) (w : world) (r : Z * cpufreq_policy)
    (w' : world) (q : ptr) (p : cpufreq_policy) :
  governors_keep_policy P ->
  heap w q = Some p ->
  __cpufreq_set_policy P data pol w = Ret r w' ->
  exists p',
    heap w' q = Some p'
    /\ user_policy p' = user_policy p
    /\ cpu p' = cpu p
    /\ cpus p' = cpus p
    /\ related_cpus p' = related_cpus p
    /\ cpuinfo p' = cpuinfo p.
Proof. exact (set_policy_keeps_fields P data pol w r w' q p). Qed.

Lemma set_policy_keeps_user_policy_witness :
  exists p',
    heap (world_after
            (__cpufreq_set_policy
               (Board.board 1000000 2147483647 (fun _ => 0) (fun m => m))
               0%nat (with_max (with_min Board.shared 800000) 1600000))
            Board.w0) 0%nat = Some p'
    /\ user_policy p' = user_policy Board.shared.
Proof.
  destruct (set_policy_keeps_user_policy
              (Board.board 1000000 2147483647 (fun _ => 0) (fun m => m))
              0%nat (with_max (with_min Board.shared 800000) 1600000)
              Board.w0
              (value_after (0, Board.shared)
                 (__cpufreq_set_policy
                    (Board.board 1000000 2147483647 (fun _ => 0) (fun m => m))
                    0%nat (with_max (with_min Board.shared 800000) 1600000))
                 Board.w0)
              (world_after
                 (__cpufreq_set_policy
                    (Board.board 1000000 2147483647 (fun _ => 0) (fun m => m))
                    0%nat (with_max (with_min Board.shared 800000) 1600000))
                 Board.w0)
              0%nat Board.shared) as (p' & Hp' & Hu & _).
  - apply board_callbacks_keep_policy.
  - reflexivity.
  - vm_compute. reflexivity.
  - exists p'. split; [exact Hp' | exact Hu].
Defined.

(** ** Writing scaling_min_freq and scaling_max_freq *)

Lemma get_policy_eq (P : platform) (c : nat) (w : world)
    (drv : cpufreq_driver_t) (q : ptr) (p : cpufreq_policy) :
  (c < nr_cpu_ids P)%nat ->
  cpufreq_driver w = Some drv ->
  try_module_get P (drv_owner drv) = true ->
  cpufreq_cpu_data w c = Some q ->
  heap w q = Some p ->
  cpufreq_get_policy P c w = Ret (0, Some p) w.
Proof.
  intros Hc Hdrv Hmod Hq Hp. unfold cpufreq_get_policy, cpufreq_cpu_get.
  erewrite bind_eq by (eapply cpu_get_eq; eassumption).
  rewrite Hq. mderef Hp. reflexivity.
Qed.

(** store_one up to its call of __cpufreq_set_policy. *)
Lemma store_one_prefix (P : platform) (object : limit_field) (pol : ptr)
    (buf : string) (count : Z) (w : world) (p : cpufreq_policy)
    (drv : cpufreq_driver_t) (v : Z) :
  heap w pol = Some p ->
  cpufreq_driver w = Some drv ->
  (cpu p < nr_cpu_ids P)%nat ->
  try_module_get P (drv_owner drv) = true ->
  cpufreq_cpu_data w (cpu p) = Some pol ->
  sscanf_u P buf = Some v ->
  let req := store_one_request P drv object p v in
  let p_u := with_user_policy p
               (with_rp_min (with_rp_max (user_policy p) (max req))
                            (min req)) in
  store_one P object pol buf count w
  = bind (__cpufreq_set_policy P pol req)
      (fun r =>
         update pol (fun p =>
           with_user_policy p
             match object with
             | scaling_min_freq => with_rp_min (user_policy p) (min (snd r))
             | scaling_max_freq => with_rp_max (user_policy p) (max (snd r))
             end) ;;;
         ret (if negb (fst r =? 0) then fst r else count))
      (set_heap (set_trace w (trace w ++ [EvVerify (cpu req)]))
         (upd (heap w) pol (Some p_u))).
Proof.
  intros Hp Hdrv Hc Hmod Hmap Hscan req p_u.
  assert (Hcpu : cpu req
                 = cpu (snd (verify drv
                          match object with
                          | scaling_min_freq =>
                              with_min
                                (with_max (with_min p (rp_min (user_policy p)))
                                   (rp_max (user_policy p))) v
                          | scaling_max_freq =>
                              with_max
                                (with_max (with_min p (rp_min (user_policy p)))
                                   (rp_max (user_policy p))) v
                          end))).
  { unfold req, store_one_request. cbv zeta.
    match goal with
    | |- cpu (if ?b then _ else _) = _ => destruct b; reflexivity
    end. }
  rewrite Hcpu.
  unfold store_one. mderef Hp.
  erewrite bind_eq by (eapply get_policy_eq; eassumption).
  cbn [snd fst]. rewrite Hscan. mdriver Hdrv. mrun.
  erewrite bind_eq by (apply update_spec; wsimpl; exact Hp).
  cbv beta iota. wsimpl.
  reflexivity.
Qed.

Lemma set_policy_conflict (P : platform) (w : world) (data : ptr)
    (d pol : cpufreq_policy) :
  heap w data = Some d ->
  bounds_conflict d (clamped P d pol) = true ->
  __cpufreq_set_policy P data pol w
  = Ret (- EINVAL, restored pol (clamped P d pol)) w.
Proof.
  intros Hd Hconf. unfold __cpufreq_set_policy. unfold_monad. rewrite Hd.
  fold (qos_min P d) (qos_max P d). fold (clamped P d pol).
  unfold bounds_conflict in Hconf. now rewrite Hconf.
Qed.

(** X5. A write to scaling_min_freq or scaling_max_freq records the request
    in user_policy before __cpufreq_set_policy is asked, and nothing takes
    it back.  Whenever store_one returns, the policy's user_policy
    holds the bounds of the request (the user's former bounds with the
    written value, after the driver's verify and the get_max_lock cap),
    whatever the return code.  In particular a write that makes the bounds
    cross (request min above request max) returns -EINVAL and yet leaves
    the crossed bounds in user_policy; only verify was called. *)
Theorem store_one_records_request (P : platform) (object : limit_field)
    (pol : ptr) (buf : string) (count : Z) (w : world) (p : cpufreq_policy)
    (drv : cpufreq_driver_t) (v : Z) :
  heap w pol = Some p ->
  cpufreq_driver w = Some drv ->
  (cpu p < nr_cpu_ids P)%nat ->
  try_module_get P (drv_owner drv) = true ->
  cpufreq_cpu_data w (cpu p) = Some pol ->
  sscanf_u P buf = Some v ->
  let req := store_one_request P drv object p v in
  (governors_keep_policy P ->
   forall r w',
     store_one P object pol buf count w = Ret r w' ->
     exists p',
       heap w' pol = Some p'
       /\ rp_min (user_policy p') = min req
       /\ rp_max (user_policy p') = max req)
  /\ (min req > max req ->
      exists w',
        store_one P object pol buf count w = Ret (- EINVAL) w'
        /\ heap w' pol
           = Some (with_user_policy p
                     (with_rp_min (with_rp_max (user_policy p) (max req))
                                  (min req)))
        /\ trace w' = trace w ++ [EvVerify (cpu req)]).
Proof.
  intros Hp Hdrv Hc Hmod Hmap Hscan req.
  pose proof (store_one_prefix P object pol buf count w p drv v
                Hp Hdrv Hc Hmod Hmap Hscan) as Hpre.
  cbv zeta in Hpre. fold req in Hpre.
  set (p_u := with_user_policy p
                (with_rp_min (with_rp_max (user_policy p) (max req))
                             (min req))) in *.
  set (W := set_heap _ _) in Hpre.
  assert (HW : heap W pol = Some p_u) by (unfold W; cbn; apply upd_eq).
  split.
  - intros Hk r w' Hret. rewrite Hpre in Hret.
    apply bind_inv in Hret. destruct Hret as (x & w1 & Hset & Hrest).
    destruct (set_policy_keeps_fields P pol req W x w1 pol p_u Hk HW Hset)
      as (p1 & Hp1 & Hu1 & _).
    destruct (set_policy_returns_restored P pol req W x w1 Hset) as [Hm HM].
    erewrite bind_eq in Hrest by (apply update_spec; exact Hp1).
    unfold ret in Hrest. inversion Hrest. subst w'. cbn. rewrite upd_eq.
    eexists. split; [reflexivity|].
    destruct object; cbn; rewrite Hu1; cbn; auto.
  - intros Hcross. rewrite Hpre.
    assert (Hconf : bounds_conflict p_u (clamped P p_u req) = true).
    { unfold bounds_conflict, clamped. cbn.
      apply orb_true_iff. left. apply Z.gtb_gt. lia. }
    erewrite bind_eq by (apply set_policy_conflict; eassumption).
    cbn [fst snd].
    erewrite bind_eq by (apply update_spec; exact HW).
    unfold ret. eexists. split; [reflexivity|]. cbn. rewrite upd_eq.
    split; [|reflexivity].
    destruct object; reflexivity.
Qed.

Lemma store_one_records_request_witness :
  exists w',
    store_one Board.quiet scaling_max_freq 1%nat "800000" 7 Board.w0
    = Ret (- EINVAL) w'
    /\ heap w' 1%nat
       = Some (with_user_policy Board.solo
                 {| rp_min := 900000; rp_max := 800000; rp_policy := 0;
                    rp_governor := Some Board.powersave |}).
Proof.
  destruct (store_one_records_request Board.quiet scaling_max_freq 1%nat
              "800000" 7 Board.w0 Board.solo Board.msm 800000)
    as [_ Hcross]; try reflexivity.
  - repeat constructor.
  - destruct Hcross as (w' & Hret & Hheap & _); [reflexivity|].
    exists w'. split; [exact Hret | exact Hheap].
Defined.

(** ** The sysfs entry points *)

(** X6. The error paths of the sysfs store entry point are clean.  For a
    policy that its CPU maps to and whose semaphore is free, a write to an
    attribute without a store method returns -EIO, and a write of something
    that is not a number to scaling_min_freq or scaling_max_freq returns
    -EINVAL (both return -EINVAL when the CPU went offline while the caller
    waited for the semaphore).  In every case the semaphore was taken and
    given back, and neither a policy nor the log nor anything else but the
    online mask has changed. *)
Theorem sysfs_store_error_paths (P : platform) (pol : ptr)
    (fattr : option (ptr -> string -> Z -> M Z)) (buf : string) (count : Z)
    (w : world) (p : cpufreq_policy) (drv : cpufreq_driver_t) :
  heap w pol = Some p ->
  cpufreq_driver w = Some drv ->
  (cpu p < nr_cpu_ids P)%nat ->
  try_module_get P (drv_owner drv) = true ->
  cpufreq_cpu_data w (cpu p) = Some pol ->
  cpufreq_policy_cpu w (cpu p) <> -1 ->
  can_down write
    (cpu_policy_rwsem w (Z.to_nat (cpufreq_policy_cpu w (cpu p)))) = true ->
  fattr = None
  \/ (exists object,
        fattr = Some (store_one P object) /\ sscanf_u P buf = None) ->
  exists w',
    store P pol fattr buf count w
    = Ret (if cpumask_test_cpu (cpu p)
                (hotplug_while_asleep P (cpu_online_mask w))
           then match fattr with
                | None => - EIO
                | Some _ => - EINVAL
                end
           else - EINVAL) w'
    /\ quiescent w w'
    /\ heap w' = heap w
    /\ trace w' = trace w.
Proof.
  intros Hp Hdrv Hc Hmod Hmap Hpc Hfree Hattr.
  unfold store, cpufreq_cpu_get_sysfs. mderef Hp.
  erewrite bind_eq by (eapply cpu_get_eq; eassumption).
  rewrite Hmap. mderef Hp.
  destruct (lock_total P write (cpu p) w Hpc Hfree) as (w1 & Hlock).
  unfold lock_policy_rwsem_write. erewrite bind_eq by exact Hlock.
  pose proof (lock_spec P write (cpu p) w _ w1 Hlock) as Hspec.
  cbv zeta in Hspec.
  destruct Hspec as (_ & _ & Hdr & Hd & Hs & Hpc1 & Hgl & Hmask & Hh & Hn & Ht
                     & Hr).
  destruct (cpumask_test_cpu (cpu p)
              (hotplug_while_asleep P (cpu_online_mask w))) eqn:Hbit.
  - destruct Hr as [(Hr & _) | (_ & _ & Hsem)]; [discriminate|].
    cbn [Z.ltb Z.compare].
    assert (Hp1 : heap w1 pol = Some p) by (rewrite Hh; exact Hp).
    destruct (unlock_after_lock P write (cpu p) w w1 Hlock)
      as (w2 & Hun & Hq & Hh2 & Ht2 & _).
    destruct Hattr as [-> | (object & -> & Hscan)].
    + mrun. mderef Hp1.
      unfold unlock_policy_rwsem_write. erewrite bind_eq by exact Hun.
      exists w2. split; [reflexivity|].
      split; [exact Hq|]. split; assumption.
    + assert (Hone : store_one P object pol buf count w1 = Ret (- EINVAL) w1).
      { unfold store_one. mderef Hp1.
        erewrite bind_eq.
        2:{ eapply get_policy_eq; try eassumption.
            - rewrite Hdr. exact Hdrv.
            - rewrite Hd. exact Hmap. }
        cbn [snd fst]. rewrite Hscan. reflexivity. }
      erewrite bind_eq by exact Hone. mderef Hp1.
      unfold unlock_policy_rwsem_write. erewrite bind_eq by exact Hun.
      exists w2. split; [reflexivity|].
      split; [exact Hq|]. split; assumption.
  - destruct Hr as [(_ & _ & Hsem) | (Hr & _)]; [|discriminate].
    cbn [Z.ltb Z.compare]. exists w1. split; [reflexivity|].
    split; [|split; assumption].
    unfold quiescent. repeat split; assumption.
Qed.

Lemma sysfs_store_error_paths_witness :
  exists w',
    store Board.quiet 1%nat (Some (store_one Board.quiet scaling_min_freq))
      "fast" 4 Board.w0 = Ret (- EINVAL) w'
    /\ heap w' = heap Board.w0
    /\ forall j, cpu_policy_rwsem w' j = cpu_policy_rwsem Board.w0 j.
Proof.
  destruct (sysfs_store_error_paths Board.quiet 1%nat
              (Some (store_one Board.quiet scaling_min_freq)) "fast" 4
              Board.w0 Board.solo Board.msm)
    as (w' & Hret & (_ & _ & _ & _ & Hsem & _) & Hheap & _);
    try reflexivity; try discriminate.
  - repeat constructor.
  - right. exists scaling_min_freq. split; reflexivity.
  - exists w'. repeat split; assumption.
Defined.

(** ** Calls that are transparent to the user's intent *)

Lemma cpu_get_inv (P : platform) (c : nat) (b : bool) (w : world)
    (x : option ptr) (w' : world) :
  __cpufreq_cpu_get P c b w = Ret x w' ->
  w' = w /\ (x = None \/ x = cpufreq_cpu_data w c).
Proof.
  unfold __cpufreq_cpu_get. unfold_monad.
  destruct (nr_cpu_ids P <=? c)%nat; [intros E; inversion E; auto|].
  destruct (cpufreq_driver w) as [drv|]; [|intros E; inversion E; auto].
  destruct (negb (try_module_get P (drv_owner drv)));
    intros E; inversion E; auto.
Qed.

Lemma deref_inv (q : ptr) (w : world) (p : cpufreq_policy) (w' : world) :
  deref q w = Ret p w' -> heap w q = Some p /\ w' = w.
Proof.
  unfold deref. destruct (heap w q); [|discriminate].
  intros E. inversion E. now split.
Qed.

Lemma driver_inv (w : world) (drv : cpufreq_driver_t) (w' : world) :
  driver w = Ret drv w' -> cpufreq_driver w = Some drv /\ w' = w.
Proof.
  unfold driver. destruct (cpufreq_driver w); [|discriminate].
  intros E. inversion E. now split.
Qed.

Lemma same_identity_refl (p : cpufreq_policy) : same_identity p p.
Proof. repeat split. Qed.

Lemma same_identity_trans (a b c : cpufreq_policy) :
  same_identity a b -> same_identity b c -> same_identity a c.
Proof.
  unfold same_identity. intros (A1&A2&A3&A4&A5) (B1&B2&B3&B4&B5).
  repeat split; congruence.
Qed.

Lemma policies_kept_heap (w w' : world) :
  heap w' = heap w -> policies_kept w w'.
Proof.
  intros E q p Hq. exists p. rewrite E. split; [exact Hq|].
  apply same_identity_refl.
Qed.

Lemma policies_kept_trans (a b c : world) :
  policies_kept a b -> policies_kept b c -> policies_kept a c.
Proof.
  intros H1 H2 q p Hq.
  destruct (H1 q p Hq) as (p1 & Hp1 & I1).
  destruct (H2 q p1 Hp1) as (p2 & Hp2 & I2).
  exists p2. split; [exact Hp2|]. eapply same_identity_trans; eassumption.
Qed.

Lemma policies_kept_assign (w : world) (q : ptr) (p p' : cpufreq_policy)
    (t : list event) :
  heap w q = Some p ->
  same_identity p p' ->
  policies_kept w (set_trace (set_heap w (upd (heap w) q (Some p'))) t).
Proof.
  intros Hq HI x y Hx. cbn. unfold upd.
  destruct (Nat.eqb x q) eqn:E.
  - apply Nat.eqb_eq in E. subst x. rewrite Hq in Hx. inversion Hx. subst y.
    exists p'. now split.
  - exists y. split; [exact Hx|]. apply same_identity_refl.
Qed.

Lemma set_policy_policies_kept (P : platform) (data : ptr)
    (pol : cpufreq_policy) (w : world) (r : Z * cpufreq_policy)
    (w' : world) :
  governors_keep_policy P ->
  __cpufreq_set_policy P data pol w = Ret r w' ->
  policies_kept w w'.
Proof.
  intros Hk H q p Hq.
  destruct (set_policy_keeps_fields P data pol w r w' q p Hk Hq H)
    as (p' & Hp' & I).
  exists p'. split; [exact Hp' | exact I].
Qed.

Lemma stable_notify_transition_blind (P : platform) (I : world -> Prop)
    (freqs : cpufreq_freqs) (state : transition_state) :
  blind I -> stable I (cpufreq_notify_transition P freqs state).
Proof.
  intros HB. unfold cpufreq_notify_transition. cbv zeta.
  repeat blind_step HB.
Qed.

Lemma notify_transition_kept (P : platform) (freqs : cpufreq_freqs)
    (state : transition_state) (w : world) (f' : cpufreq_freqs)
    (w' : world) :
  cpufreq_notify_transition P freqs state w = Ret f' w' ->
  frame w w' /\ policies_kept w w'.
Proof.
  intros H. split.
  - exact (stable_notify_transition_blind P (frame w) freqs state
             (blind_frame w) w f' w' (frame_refl w) H).
  - unfold cpufreq_notify_transition in H.
    apply bind_inv in H. destruct H as (drv & w0 & Hdrv & H).
    apply driver_inv in Hdrv. destruct Hdrv as [_ ->].
    apply bind_inv in H. destruct H as (pol & w0 & Hpol & H).
    unfold gets in Hpol. inversion Hpol. subst pol w0. clear Hpol.
    destruct state.
    + apply bind_inv in H. destruct H as (f1 & w1 & Hf & H).
      assert (E1 : w1 = w).
      { destruct (negb (const_loops P drv));
          [|unfold ret in Hf; inversion Hf; reflexivity].
        match type of Hf with
        | match ?x with Some _ => _ | None => _ end _ = _ =>
            destruct x as [pp|]
        end; [|unfold ret in Hf; inversion Hf; reflexivity].
        apply bind_inv in Hf. destruct Hf as (p & w2 & Hp & Hf).
        apply deref_inv in Hp. destruct Hp as [_ ->].
        match type of Hf with
        | (if ?b then _ else _) _ = _ =>
            destruct b; unfold ret in Hf; inversion Hf; reflexivity
        end. }
      subst w1. unfold bind, log, modify, ret in H. inversion H.
      apply policies_kept_heap. reflexivity.
    + apply bind_inv in H. destruct H as ([] & w1 & Hlog & H).
      unfold log, modify in Hlog. inversion Hlog. subst w1. clear Hlog.
      apply bind_inv in H. destruct H as ([] & w2 & Hpost & H).
      unfold ret in H. inversion H. subst w2.
      match type of Hpost with
      | match ?x with Some _ => _ | None => _ end _ = _ =>
          destruct x as [pp|]
      end.
      * apply bind_inv in Hpost. destruct Hpost as (p & w3 & Hp & Hpost).
        apply deref_inv in Hp. destruct Hp as [Hp ->].
        match type of Hpost with
        | (if ?b then _ else _) _ = _ => destruct b
        end.
        -- unfold bind, assign, log, modify in Hpost. inversion Hpost.
           cbn in Hp.
           apply (policies_kept_assign w pp p); [exact Hp|].
           repeat split.
        -- unfold ret in Hpost. inversion Hpost.
           apply policies_kept_heap. reflexivity.
      * unfold ret in Hpost. inversion Hpost.
        apply policies_kept_heap. reflexivity.
    + unfold ret in H. inversion H. apply policies_kept_heap. reflexivity.
    + unfold ret in H. inversion H. apply policies_kept_heap. reflexivity.
Qed.

Lemma out_of_sync_kept (P : platform) (c : nat) (old_freq new_freq : Z)
    (w w' : world) :
  cpufreq_out_of_sync P c old_freq new_freq w = Ret tt w' ->
  frame w w' /\ policies_kept w w'.
Proof.
  intros H. unfold cpufreq_out_of_sync in H.
  apply bind_inv in H. destruct H as (f1 & w1 & H1 & H).
  apply bind_inv in H. destruct H as (f2 & w2 & H2 & H).
  unfold ret in H. inversion H. subst w2.
  apply notify_transition_kept in H1, H2.
  destruct H1 as [F1 K1], H2 as [F2 K2]. split.
  - eapply frame_trans; eassumption.
  - eapply policies_kept_trans; eassumption.
Qed.

Lemma quiescent_refl (w : world) : quiescent w w.
Proof. repeat split. Qed.

(** cpufreq_update_policy, whenever it returns. *)
Lemma update_policy_kept (P : platform) (c : nat) (w : world) (r : Z)
    (w' : world) :
  governors_keep_policy P ->
  cpufreq_update_policy P c w = Ret r w' ->
  quiescent w w' /\ policies_kept w w'.
Proof.
  intros Hk H. unfold cpufreq_update_policy, cpufreq_cpu_get in H.
  apply bind_inv in H. destruct H as (data & w0 & Hget & H).
  apply cpu_get_inv in Hget. destruct Hget as [-> _].
  destruct data as [dp|].
  2:{ unfold ret in H. inversion H. subst.
      split; [apply quiescent_refl | now apply policies_kept_heap]. }
  apply bind_inv in H. destruct H as (r0 & w1 & Hlock & H).
  pose proof (lock_spec P write c w r0 w1 Hlock) as S. cbv zeta in S.
  destruct S as (_ & _ & Hdr & Hd & Hs & Hpc & Hgl & _ & Hh & Hn & Ht & Hr).
  destruct Hr as [(-> & _ & Hsem) | (-> & _ & Hsem)].
  - unfold ret in H. cbn in H. inversion H. subst.
    split; [|now apply policies_kept_heap].
    unfold quiescent. repeat split; assumption.
  - cbn [negb Z.eqb] in H.
    apply bind_inv in H. destruct H as (d & wa & Hderef & H).
    apply deref_inv in Hderef. destruct Hderef as [Hdp ->].
    apply bind_inv in H. destruct H as (drv & wa & Hdrv & H).
    apply driver_inv in Hdrv. destruct Hdrv as [Hdrv ->].
    apply bind_inv in H. destruct H as (pol' & wb & Hcand & H).
    assert (Kb : frame w1 wb /\ policies_kept w1 wb).
    { destruct (get drv) as [get_fn|].
      - apply bind_inv in Hcand. destruct Hcand as ([] & wl & Hlog & Hcand).
        unfold log, modify in Hlog. inversion Hlog. subst wl. clear Hlog.
        apply bind_inv in Hcand. destruct Hcand as ([] & wm & Hfix & Hcand).
        unfold ret in Hcand. inversion Hcand. subst wm.
        destruct (cur d =? 0).
        + unfold assign, modify in Hfix. inversion Hfix. cbn.
          split; [repeat split|].
          apply (policies_kept_assign w1 dp d); [exact Hdp|]. repeat split.
        + match type of Hfix with
          | (if ?b then _ else _) _ = _ => destruct b
          end.
          * apply out_of_sync_kept in Hfix. destruct Hfix as [F K].
            split.
            -- eapply frame_trans; [|exact F]. repeat split.
            -- eapply policies_kept_trans; [|exact K].
               apply policies_kept_heap. reflexivity.
          * unfold ret in Hfix. inversion Hfix.
            split; [repeat split | now apply policies_kept_heap].
      - unfold ret in Hcand. inversion Hcand.
        split; [apply frame_refl | now apply policies_kept_heap]. }
    destruct Kb as [Fb Kb].
    apply bind_inv in H. destruct H as (x & wc & Hset & H).
    pose proof (stable_set_policy_blind P (frame wb) dp pol' (blind_frame wb)
                  wb x wc (frame_refl wb) Hset) as Fc.
    pose proof (set_policy_policies_kept P dp pol' wb x wc Hk Hset) as Kc.
    apply bind_inv in H. destruct H as ([] & wd & Hun & H).
    unfold ret in H. inversion H. subst wd r.
    destruct (unlock_after_body P write c w w1 wc Hlock
                (frame_trans _ _ _ Fb Fc))
      as (w2 & Hun' & Hq & Hh2 & _).
    unfold unlock_policy_rwsem_write in Hun. rewrite Hun' in Hun.
    inversion Hun. subst w2.
    split; [exact Hq|].
    eapply policies_kept_trans; [apply policies_kept_heap; exact Hh|].
    eapply policies_kept_trans; [exact Kb|].
    eapply policies_kept_trans; [exact Kc|].
    apply policies_kept_heap. exact Hh2.
Qed.

(** X7. cpufreq_update_policy re-evaluates what is enforced and nothing
    else.  Whenever it returns (with governors that write cur and util
    only), every semaphore is in the state it was found in, the CPU to
    policy map, the owner map, the saved snapshots, the governor list and
    the driver are unchanged, and every policy object is still allocated
    with the user_policy, owning CPU, CPU masks and cpuinfo it had. *)
Theorem update_policy_keeps_user_intent (P : platform) (c : nat) (w : world)
    (r : Z) (w' : world) :
  governors_keep_policy P ->
  cpufreq_update_policy P c w = Ret r w' ->
  quiescent w w' /\ policies_kept w w'.
Proof. exact (update_policy_kept P c w r w'). Qed.

Lemma update_policy_keeps_user_intent_witness :
  quiescent Board.w0
    (world_after
       (cpufreq_update_policy
          (Board.board 1000000 2147483647 (fun _ => 0) (fun m => m)) 2)
       Board.w0)
  /\ policies_kept Board.w0
       (world_after
          (cpufreq_update_policy
             (Board.board 1000000 2147483647 (fun _ => 0) (fun m => m)) 2)
          Board.w0).
Proof.
  apply (update_policy_keeps_user_intent
           (Board.board 1000000 2147483647 (fun _ => 0) (fun m => m)) 2
           Board.w0
           (value_after 0
              (cpufreq_update_policy
                 (Board.board 1000000 2147483647 (fun _ => 0) (fun m => m)) 2)
              Board.w0)).
  - apply board_callbacks_keep_policy.
  - vm_compute. reflexivity.
Defined.

(** ** Asking for the frequency *)

Lemma __cpufreq_get_in_sync (P : platform) (c : nat) (w : world)
    (drv : cpufreq_driver_t) (get_fn : nat -> Z) (pp : ptr)
    (p : cpufreq_policy) :
  cpufreq_driver w = Some drv ->
  get drv = Some get_fn ->
  cpufreq_cpu_data w c = Some pp ->
  heap w pp = Some p ->
  get_fn c = 0 \/ cur p = 0 \/ const_loops P drv = true
  \/ get_fn c = cur p ->
  __cpufreq_get P c w
  = Ret (get_fn c) (set_trace w (trace w ++ [EvGet c])).
Proof.
  intros Hdrv Hget Hpp Hp Hsync.
  unfold __cpufreq_get. unfold_monad. rewrite Hpp, Hdrv, Hget. cbn.
  destruct (get_fn c =? 0) eqn:H0; cbn; [reflexivity|].
  rewrite Hp.
  destruct (cur p =? 0) eqn:H1; cbn; [reflexivity|].
  destruct (const_loops P drv) eqn:H2; cbn; [reflexivity|].
  destruct (get_fn c =? cur p) eqn:H3; cbn; [reflexivity|].
  exfalso. apply Z.eqb_neq in H0, H1, H3.
  destruct Hsync as [E|[E|[E|E]]]; congruence.
Qed.

(** X8. A frequency query that agrees with the policy is a read.  For a
    managed CPU whose semaphore can be read-locked, cpufreq_get returns
    what the driver's get reports whenever that is 0, or equals the
    policy's current frequency, or that one is 0, or the driver claims
    constant loops; the semaphore is given back, no policy changes, and the
    log gains the get call and no transition.  When the CPU turns out to
    be offline once the semaphore is held, the call returns 0 and the
    driver is not asked. *)
Theorem cpufreq_get_in_sync (P : platform) (c : nat) (w : world)
    (drv : cpufreq_driver_t) (get_fn : nat -> Z) (pp : ptr)
    (p : cpufreq_policy) :
  (c < nr_cpu_ids P)%nat ->
  cpufreq_driver w = Some drv ->
  try_module_get P (drv_owner drv) = true ->
  get drv = Some get_fn ->
  cpufreq_cpu_data w c = Some pp ->
  heap w pp = Some p ->
  cpufreq_policy_cpu w c <> -1 ->
  can_down read
    (cpu_policy_rwsem w (Z.to_nat (cpufreq_policy_cpu w c))) = true ->
  get_fn c = 0 \/ cur p = 0 \/ const_loops P drv = true
  \/ get_fn c = cur p ->
  let online :=
    cpumask_test_cpu c (hotplug_while_asleep P (cpu_online_mask w)) in
  exists w',
    cpufreq_get P c w = Ret (if online then get_fn c else 0) w'
    /\ quiescent w w'
    /\ heap w' = heap w
    /\ trace w' = trace w ++ (if online then [EvGet c] else []).
Proof.
  intros Hc Hdrv Hmod Hget Hpp Hp Hpc Hfree Hsync online.
  unfold cpufreq_get, cpufreq_cpu_get.
  erewrite bind_eq by (eapply cpu_get_eq; eassumption).
  rewrite Hpp.
  destruct (lock_total P read c w Hpc Hfree) as (w1 & Hlock).
  fold online in Hlock.
  unfold lock_policy_rwsem_read. erewrite bind_eq by exact Hlock.
  pose proof (lock_spec P read c w _ w1 Hlock) as S. cbv zeta in S.
  fold online in S.
  destruct S as (_ & _ & Hdr & Hd & Hs & Hpc1 & Hgl & _ & Hh & Hn & Ht & Hr).
  destruct online eqn:Hon.
  - destruct Hr as [(Hr & _) | (_ & _ & Hsem)]; [discriminate|].
    cbn [negb Z.eqb].
    erewrite bind_eq.
    2:{ eapply (__cpufreq_get_in_sync P c w1 drv get_fn pp p); try assumption.
        - rewrite Hdr. exact Hdrv.
        - rewrite Hd. exact Hpp.
        - rewrite Hh. exact Hp. }
    destruct (unlock_after_body P read c w w1
                (set_trace w1 (trace w1 ++ [EvGet c])) Hlock)
      as (w2 & Hun & Hq & Hh2 & Ht2 & _); [repeat split|].
    unfold unlock_policy_rwsem_read. erewrite bind_eq by exact Hun.
    exists w2. split; [reflexivity|]. split; [exact Hq|].
    split; [rewrite Hh2; cbn; exact Hh|]. rewrite Ht2. cbn. now rewrite Ht.
  - destruct Hr as [(_ & _ & Hsem) | (Hr & _)]; [|discriminate].
    cbn [negb Z.eqb]. exists w1. split; [reflexivity|].
    split; [unfold quiescent; repeat split; assumption|].
    split; [exact Hh|]. rewrite app_nil_r. exact Ht.
Qed.

Lemma cpufreq_get_in_sync_witness :
  exists w',
    cpufreq_get Board.quiet 2
      (set_heap Board.w0
         (upd (heap Board.w0) 1%nat (Some (with_cur Board.solo 1200000))))
    = Ret 1200000 w'
    /\ heap w' 1%nat = Some (with_cur Board.solo 1200000).
Proof.
  destruct (cpufreq_get_in_sync Board.quiet 2
              (set_heap Board.w0
                 (upd (heap Board.w0) 1%nat
                    (Some (with_cur Board.solo 1200000))))
              Board.msm (fun _ => 1200000) 1%nat
              (with_cur Board.solo 1200000))
    as (w' & Hret & _ & Hheap & _);
    try reflexivity; try discriminate.
  - repeat constructor.
  - right. right. right. reflexivity.
  - exists w'. split; [exact Hret|]. now rewrite Hheap.
Defined.

(** ** Governor names *)

Lemma tolower_idem (c : ascii) : tolower (tolower c) = tolower c.
Proof. destruct c as [[] [] [] [] [] [] [] []]; reflexivity. Qed.

Lemma strnicmp_refl (s : string) (n : nat) : strnicmp s s n = true.
Proof.
  revert s. induction n as [|n IH]; intros s; destruct s as [|c r]; cbn;
    try reflexivity.
  now rewrite Ascii.eqb_refl.
Qed.

Lemma strnicmp_sym (a b : string) (n : nat) :
  strnicmp a b n = strnicmp b a n.
Proof.
  revert a b. induction n as [|n IH]; intros a b;
    destruct a as [|c r], b as [|d t]; cbn; try reflexivity.
  rewrite (Ascii.eqb_sym (tolower c) (tolower d)).
  now rewrite IH.
Qed.

Lemma strnicmp_trans (a b c : string) (n : nat) :
  strnicmp a b n = true -> strnicmp b c n = true -> strnicmp a c n = true.
Proof.
  revert a b c. induction n as [|n IH]; intros a b c;
    destruct a as [|x r], b as [|y s], c as [|z t]; cbn;
    try discriminate; try reflexivity.
  destruct (Ascii.eqb (tolower x) (tolower y)) eqn:E1; [|discriminate].
  destruct (Ascii.eqb (tolower y) (tolower z)) eqn:E2; [|discriminate].
  apply Ascii.eqb_eq in E1, E2. rewrite E1, E2, Ascii.eqb_refl.
  apply IH.
Qed.

Lemma strnicmp_lower (s t : string) (n : nat) :
  strnicmp (lower s) t n = strnicmp s t n.
Proof.
  revert s t. induction n as [|n IH]; intros s t;
    destruct s as [|c r], t as [|d u]; cbn; try reflexivity.
  now rewrite tolower_idem, IH.
Qed.

Lemma strnicmp_strncpy (s t : string) (n : nat) :
  strnicmp (strncpy s n) t n = strnicmp s t n.
Proof.
  unfold strncpy. revert s t. induction n as [|n IH]; intros s t;
    destruct s as [|c r], t as [|d u]; cbn; try reflexivity.
  now rewrite IH.
Qed.

Lemma find_ext {A} (f g : A -> bool) (l : list A) :
  (forall x, f x = g x) -> find f l = find g l.
Proof.
  intros H. induction l as [|x l IH]; cbn; [reflexivity|].
  now rewrite H, IH.
Qed.

(** X9. Governor names are looked up without regard to case and by their
    first CPUFREQ_NAME_LEN characters only: two strings whose first
    CPUFREQ_NAME_LEN characters agree in lower case find the same
    governor, in any list of governors. *)
Theorem find_governor_ignores_case (P : platform) (s s' : string)
    (w : world) :
  lower (strncpy s (CPUFREQ_NAME_LEN P))
  = lower (strncpy s' (CPUFREQ_NAME_LEN P)) ->
  __find_governor P s w = __find_governor P s' w.
Proof.
  intros H. unfold __find_governor, gets. f_equal.
  apply find_ext. intros t.
  rewrite <- (strnicmp_strncpy s), <- (strnicmp_strncpy s').
  rewrite <- (strnicmp_lower (strncpy s _)).
  rewrite <- (strnicmp_lower (strncpy s' _)).
  now rewrite H.
Qed.

Lemma find_governor_ignores_case_witness :
  __find_governor Board.quiet "PowerSave" Board.w0
  = Ret (Some Board.powersave) Board.w0.
Proof.
  rewrite (find_governor_ignores_case Board.quiet "PowerSave" "powersave"
             Board.w0); reflexivity.
Defined.

Lemma governor_eqb_refl (g : cpufreq_governor) : governor_eqb g g = true.
Proof.
  unfold governor_eqb. now rewrite !String.eqb_refl, Z.eqb_refl.
Qed.

Lemma governor_eqb_eq (a b : cpufreq_governor) :
  governor_eqb a b = true -> a = b.
Proof.
  unfold governor_eqb. intros H.
  apply andb_true_iff in H. destruct H as [H H3].
  apply andb_true_iff in H. destruct H as [H1 H2].
  apply String.eqb_eq in H1, H3. apply Z.eqb_eq in H2.
  destruct a, b. cbn in *. congruence.
Qed.

(** X10. Registering a governor.  When the list already holds a governor
    that answers to the new one's name, cpufreq_register_governor returns
    -EBUSY and changes nothing.  Otherwise it returns 0 with the governor
    at the head of the list; from then on every string that names it finds
    it, and every string that found a governor before still finds that
    same governor: a registration never shadows. *)
Theorem register_governor_spec (P : platform) (g : cpufreq_governor)
    (w : world) :
  let n := CPUFREQ_NAME_LEN P in
  let l := cpufreq_governor_list w in
  match find (fun t => strnicmp (name g) (name t) n) l with
  | Some _ =>
      cpufreq_register_governor P false (Some g) w = Ret (- EBUSY) w
  | None =>
      cpufreq_register_governor P false (Some g) w
      = Ret 0 (set_governor_list w (g :: l))
      /\ (forall s, strnicmp s (name g) n = true ->
                    __find_governor P s (set_governor_list w (g :: l))
                    = Ret (Some g) (set_governor_list w (g :: l)))
      /\ (forall s t, __find_governor P s w = Ret (Some t) w ->
                      __find_governor P s (set_governor_list w (g :: l))
                      = Ret (Some t) (set_governor_list w (g :: l)))
  end.
Proof.
  intros n l.
  destruct (find (fun t => strnicmp (name g) (name t) n) l) as [t0|] eqn:Hf.
  - unfold cpufreq_register_governor, cpufreq_disabled, __find_governor.
    unfold_monad. fold n l. now rewrite Hf.
  - split; [|split].
    + unfold cpufreq_register_governor, cpufreq_disabled, __find_governor.
      unfold_monad. fold n l. now rewrite Hf.
    + intros s Hs. unfold __find_governor, gets. cbn. fold n.
      now rewrite Hs.
    + intros s t Hst. unfold __find_governor, gets in Hst |- *.
      inversion Hst as [Hfind]. cbn. fold n l in Hfind |- *.
      destruct (strnicmp s (name g) n) eqn:Hsg; [|now rewrite Hfind].
      exfalso.
      destruct (find_some _ _ Hfind) as [Hin Hmatch].
      pose proof (find_none _ _ Hf t Hin) as Hno. cbn in Hno.
      rewrite strnicmp_sym in Hsg.
      rewrite (strnicmp_trans _ _ _ n Hsg Hmatch) in Hno. discriminate.
Qed.

Lemma list_del_subset (g t : cpufreq_governor) (l : list cpufreq_governor) :
  In t (list_del g l) -> In t l.
Proof.
  induction l as [|x l IH]; cbn; [auto|].
  destruct (governor_eqb g x); [now right|].
  intros [H|H]; [now left | right; now apply IH].
Qed.

Lemma list_del_unique (n : nat) (g : cpufreq_governor)
    (l : list cpufreq_governor) :
  unique_names n l -> unique_names n (list_del g l).
Proof.
  induction l as [|x l IH]; cbn; [auto|].
  intros [Hx Hl]. destruct (governor_eqb g x); [exact Hl|].
  cbn. split; [|now apply IH].
  intros t Ht. apply Hx. eapply list_del_subset. exact Ht.
Qed.

Lemma forget_saved_stable (I : world -> Prop) (g : cpufreq_governor)
    (cpus : list nat) :
  (forall w s, I w -> I (set_policy_save w s)) ->
  stable I (forget_saved g cpus).
Proof.
  intros HI. induction cpus as [|c rest IH]; cbn [forget_saved].
  - apply stable_ret.
  - apply stable_bind; [apply stable_gets|]. intros online.
    apply stable_bind; [|intros; exact IH].
    destruct online; [apply stable_ret|].
    apply stable_modify_any. intros w Hw. now apply HI.
Qed.

(** X11. The list of governors never holds two governors that answer to
    one name: if that is so before cpufreq_register_governor or
    cpufreq_unregister_governor, it is so when the call returns, whatever
    the argument and the return code. *)
Theorem governor_names_stay_unique (P : platform) (off : bool)
    (present : cpumask) (g : option cpufreq_governor) (w : world) :
  unique_names (CPUFREQ_NAME_LEN P) (cpufreq_governor_list w) ->
  (forall r w',
      cpufreq_register_governor P off g w = Ret r w' ->
      unique_names (CPUFREQ_NAME_LEN P) (cpufreq_governor_list w'))
  /\ (forall w',
         cpufreq_unregister_governor P off present g w = Ret tt w' ->
         unique_names (CPUFREQ_NAME_LEN P) (cpufreq_governor_list w')).
Proof.
  intros Hu. split.
  - intros r w' H. unfold cpufreq_register_governor, cpufreq_disabled in H.
    destruct g as [g|]; [|unfold ret in H; inversion H; subst; exact Hu].
    destruct off; [unfold ret in H; inversion H; subst; exact Hu|].
    unfold __find_governor in H. unfold_monad.
    destruct (find _ _) as [t|] eqn:Hf in H; inversion H; subst;
      [exact Hu|].
    cbn. split; [|exact Hu].
    intros t Ht. exact (find_none _ _ Hf t Ht).
  - intros w' H.
    unfold cpufreq_unregister_governor, cpufreq_disabled in H.
    destruct g as [g|]; [|unfold ret in H; inversion H; subst; exact Hu].
    destruct off; [unfold ret in H; inversion H; subst; exact Hu|].
    apply bind_inv in H. destruct H as ([] & w1 & Hloop & H).
    assert (Hl : cpufreq_governor_list w1 = cpufreq_governor_list w).
    { apply (forget_saved_stable
               (fun x => cpufreq_governor_list x = cpufreq_governor_list w)
               g _ (fun x s Hx => Hx) w tt w1 eq_refl Hloop). }
    unfold bind, gets in H. rewrite Hl in H.
    destruct (existsb (governor_eqb g) (cpufreq_governor_list w));
      [|discriminate].
    unfold modify in H. inversion H. cbn.
    now apply list_del_unique.
Qed.

Lemma board_names_unique :
  unique_names 16 (cpufreq_governor_list Board.w0).
Proof.
  cbn. repeat split; intros t Ht; cbn in Ht;
    repeat (destruct Ht as [<-|Ht]; [reflexivity|]); contradiction.
Qed.

Lemma governor_names_stay_unique_witness :
  unique_names 16
    (cpufreq_governor_list
       (world_after
          (cpufreq_register_governor Board.quiet false
             (Some Lab.interactive))
          Board.w0)).
Proof.
  destruct (governor_names_stay_unique Board.quiet false 15%N
              (Some Lab.interactive) Board.w0 board_names_unique)
    as [Hreg _].
  apply (Hreg 0). reflexivity.
Defined.

Lemma find_all_false {A} (f : A -> bool) (l : list A) :
  (forall x, In x l -> f x = false) -> find f l = None.
Proof.
  induction l as [|x l IH]; intros H; cbn; [reflexivity|].
  rewrite (H x (or_introl eq_refl)). apply IH.
  intros y Hy. apply H. now right.
Qed.

Lemma existsb_governor_in (g : cpufreq_governor)
    (l : list cpufreq_governor) :
  existsb (governor_eqb g) l = true -> In g l.
Proof.
  intros H. apply existsb_exists in H. destruct H as (x & Hx & E).
  apply governor_eqb_eq in E. now subst.
Qed.

(** With unique names, nothing that is left after list_del answers to the
    deleted governor's name. *)
Lemma list_del_forgets_name (n : nat) (g : cpufreq_governor)
    (l : list cpufreq_governor) :
  unique_names n l ->
  existsb (governor_eqb g) l = true ->
  forall t, In t (list_del g l) -> strnicmp (name g) (name t) n = false.
Proof.
  induction l as [|x l IH]; cbn; [discriminate|].
  intros [Hx Hl] Hex t Ht.
  destruct (governor_eqb g x) eqn:E.
  - apply governor_eqb_eq in E. subst x. now apply Hx.
  - cbn in Hex. destruct Ht as [<-|Ht].
    + rewrite strnicmp_sym. apply Hx. now apply existsb_governor_in.
    + now apply IH.
Qed.

Lemma forget_saved_spec (g : cpufreq_governor) (cpus : list nat)
    (w : world) :
  NoDup cpus ->
  exists w',
    forget_saved g cpus w = Ret tt w'
    /\ (forall c, In c cpus ->
                  cpumask_test_cpu c (cpu_online_mask w) = false ->
                  cpufreq_policy_save w' c
                  = forgotten g (cpufreq_policy_save w c))
    /\ (forall c, ~ In c cpus
                  \/ cpumask_test_cpu c (cpu_online_mask w) = true ->
                  cpufreq_policy_save w' c = cpufreq_policy_save w c)
    /\ cpufreq_governor_list w' = cpufreq_governor_list w
    /\ cpu_online_mask w' = cpu_online_mask w
    /\ heap w' = heap w
    /\ cpufreq_cpu_data w' = cpufreq_cpu_data w
    /\ trace w' = trace w.
Proof.
  intros Hnd. revert w.
  induction cpus as [|c rest IH]; intros w; cbn [forget_saved].
  - exists w. split; [reflexivity|]. split; [intros c []|].
    split; [reflexivity|]. now repeat split.
  - inversion Hnd as [|? ? Hnotin Hnd']. subst.
    unfold bind at 1. unfold cpu_online, gets.
    destruct (cpumask_test_cpu c (cpu_online_mask w)) eqn:Hon.
    + unfold bind at 1. unfold ret at 1.
      destruct (IH Hnd' w) as (w' & Hrun & Hoff & Hsame & Hrest).
      exists w'. split; [exact Hrun|]. split; [|split; [|exact Hrest]].
      * intros x [<-|Hx] Hx0; [congruence | now apply Hoff].
      * intros x [Hx|Hx]; apply Hsame; [left|now right].
        intros Hin. apply Hx. now right.
    + unfold bind at 1. unfold modify at 1.
      match goal with
      | |- context [forget_saved g rest ?w0] =>
          destruct (IH Hnd' w0)
            as (w' & Hrun & Hoff & Hsame & Hgl & Hmask & Hh & Hd & Ht)
      end.
      cbn in Hoff, Hsame, Hgl, Hmask, Hh, Hd, Ht.
      exists w'. split; [exact Hrun|].
      split; [|split; [|now repeat split]].
      * intros x [<-|Hx] Hx0.
        -- rewrite Hsame by now left. now rewrite upd_eq.
        -- rewrite (Hoff x Hx Hx0). rewrite upd_neq; [reflexivity|].
           intros ->. contradiction.
      * intros x Hx.
        assert (Hxc : x <> c).
        { intros ->. destruct Hx as [Hx|Hx]; [|congruence].
          apply Hx. now left. }
        destruct Hx as [Hx|Hx].
        -- rewrite Hsame by (left; intros Hin; apply Hx; now right).
           now rewrite upd_neq.
        -- rewrite Hsame by now right. now rewrite upd_neq.
Qed.

Lemma for_each_cpu_NoDup (nr : nat) (m : cpumask) : NoDup (for_each_cpu nr m).
Proof. unfold for_each_cpu. apply NoDup_filter, seq_NoDup. Qed.

Lemma for_each_cpu_In (nr : nat) (m : cpumask) (c : nat) :
  In c (for_each_cpu nr m) <-> (c < nr)%nat /\ cpumask_test_cpu c m = true.
Proof.
  unfold for_each_cpu. rewrite filter_In, in_seq. split.
  - intros [[_ H] E]. split; [exact H | exact E].
  - intros [H E]. split; [split; [apply Nat.le_0_l | exact H] | exact E].
Qed.

(** X12. Unregistering a governor.  For a registered governor (names
    unique) cpufreq_unregister_governor takes it off the list, so that no
    string that names it finds a governor any more.  On the way it zeroes
    the saved min and max of every present CPU that is offline, whatever
    governor that CPU was saved with (the saved name is blanked only when
    it is the unregistered one); the snapshots of the other CPUs, the
    policies and the CPU to policy map stay as they are. *)
Theorem unregister_governor_forgets (P : platform) (present : cpumask)
    (g : cpufreq_governor) (w : world) :
  existsb (governor_eqb g) (cpufreq_governor_list w) = true ->
  unique_names (CPUFREQ_NAME_LEN P) (cpufreq_governor_list w) ->
  exists w',
    cpufreq_unregister_governor P false present (Some g) w = Ret tt w'
    /\ cpufreq_governor_list w' = list_del g (cpufreq_governor_list w)
    /\ (forall s, strnicmp s (name g) (CPUFREQ_NAME_LEN P) = true ->
                  __find_governor P s w' = Ret None w')
    /\ (forall c, (c < nr_cpu_ids P)%nat ->
                  cpumask_test_cpu c present = true ->
                  cpumask_test_cpu c (cpu_online_mask w) = false ->
                  cpufreq_policy_save w' c
                  = forgotten g (cpufreq_policy_save w c))
    /\ (forall c, cpumask_test_cpu c (cpu_online_mask w) = true ->
                  cpufreq_policy_save w' c = cpufreq_policy_save w c)
    /\ heap w' = heap w
    /\ cpufreq_cpu_data w' = cpufreq_cpu_data w.
Proof.
  intros Hex Hu.
  unfold cpufreq_unregister_governor, cpufreq_disabled.
  destruct (forget_saved_spec g (for_each_cpu (nr_cpu_ids P) present) w
              (for_each_cpu_NoDup _ _))
    as (w1 & Hrun & Hoff & Hsame & Hgl & Hmask & Hh & Hd & Ht).
  erewrite bind_eq by exact Hrun.
  unfold bind, gets. rewrite Hgl, Hex. unfold modify.
  eexists. split; [reflexivity|]. cbn.
  split; [reflexivity|]. split; [|split; [|split; [|split; assumption]]].
  - intros s Hs. unfold __find_governor, gets. cbn. f_equal.
    apply find_all_false. intros t Ht'.
    pose proof (list_del_forgets_name _ g _ Hu Hex t Ht') as Hno.
    destruct (strnicmp s (name t) (CPUFREQ_NAME_LEN P)) eqn:E;
      [|reflexivity].
    rewrite strnicmp_sym in Hs.
    rewrite (strnicmp_trans _ _ _ _ Hs E) in Hno. discriminate.
  - intros c Hc Hp Ho. apply Hoff; [|exact Ho].
    apply for_each_cpu_In. now split.
  - intros c Ho. apply Hsame. now right.
Qed.

Lemma unregister_governor_forgets_witness :
  exists w',
    cpufreq_unregister_governor Board.quiet false 15%N (Some Board.broken)
      Lab.w_off_saved = Ret tt w'
    /\ cpufreq_policy_save w' 3%nat
       = {| gov := "powersave"; save_max := 0; save_min := 0 |}.
Proof.
  destruct (unregister_governor_forgets Board.quiet 15%N Board.broken
              Lab.w_off_saved eq_refl board_names_unique)
    as (w' & Hret & _ & _ & Hoff & _).
  exists w'. split; [exact Hret|].
  rewrite (Hoff 3%nat); [reflexivity | repeat constructor | reflexivity
                         | reflexivity].
Defined.

(** ** cpufreq_set_gov and cpufreq_driver_target *)

Lemma strncmp_prefix (a b : string) :
  strncmp a b (String.length b) = prefix b a.
Proof.
  revert a. induction b as [|d t IH]; intros a.
  - destruct a; reflexivity.
  - destruct a as [|c r]; cbn; [reflexivity|].
    destruct (ascii_dec d c) as [->|Hne].
    + rewrite Ascii.eqb_refl. apply IH.
    + destruct (Ascii.eqb c d) eqn:E; [|reflexivity].
      apply Ascii.eqb_eq in E. congruence.
Qed.

(** X13. cpufreq_set_gov compares the current governor's name with the
    target over the length of the target only.  So a target that is a
    prefix of the current governor's name (the name itself, a shorter
    spelling of it, or the empty string) counts as the governor already
    set: the call returns -EINVAL, having taken and given back the
    semaphore, and neither the policy nor the governor list nor the log
    changed; no governor is parsed or started. *)
Theorem set_gov_refuses_prefix (P : platform) (target : string) (c : nat)
    (w : world) (drv : cpufreq_driver_t) (pp : ptr) (p : cpufreq_policy)
    (g : cpufreq_governor) :
  (c < nr_cpu_ids P)%nat ->
  cpufreq_driver w = Some drv ->
  try_module_get P (drv_owner drv) = true ->
  cpufreq_cpu_data w c = Some pp ->
  heap w pp = Some p ->
  governor p = Some g ->
  cpufreq_policy_cpu w (cpu p) <> -1 ->
  can_down read
    (cpu_policy_rwsem w (Z.to_nat (cpufreq_policy_cpu w (cpu p)))) = true ->
  prefix target (name g) = true ->
  exists w',
    cpufreq_set_gov P (Some target) c w = Ret (- EINVAL) w'
    /\ quiescent w w'
    /\ heap w' = heap w
    /\ trace w' = trace w.
Proof.
  intros Hc Hdrv Hmod Hpp Hp Hg Hpc Hfree Hpre.
  unfold cpufreq_set_gov, cpufreq_cpu_get.
  erewrite bind_eq by (eapply cpu_get_eq; eassumption).
  rewrite Hpp. mderef Hp.
  destruct (lock_total P read (cpu p) w Hpc Hfree) as (w1 & Hlock).
  unfold lock_policy_rwsem_read. erewrite bind_eq by exact Hlock.
  pose proof (lock_spec P read (cpu p) w _ w1 Hlock) as S. cbv zeta in S.
  destruct S as (_ & _ & Hdr & Hd & Hs & Hpc1 & Hgl & _ & Hh & Hn & Ht & Hr).
  destruct (cpumask_test_cpu (cpu p)
              (hotplug_while_asleep P (cpu_online_mask w))) eqn:Hbit.
  - destruct Hr as [(Hr & _) | (_ & _ & Hsem)]; [discriminate|].
    cbn [Z.ltb Z.compare].
    assert (Hp1 : heap w1 pp = Some p) by (rewrite Hh; exact Hp).
    mderef Hp1. rewrite Hg. rewrite strncmp_prefix, Hpre.
    destruct (unlock_after_lock P read (cpu p) w w1 Hlock)
      as (w2 & Hun & Hq & Hh2 & Ht2 & _).
    unfold unlock_policy_rwsem_read. erewrite bind_eq by exact Hun.
    exists w2. split; [reflexivity|]. split; [exact Hq|]. now split.
  - destruct Hr as [(_ & _ & Hsem) | (Hr & _)]; [|discriminate].
    cbn [Z.ltb Z.compare]. exists w1. split; [reflexivity|].
    split; [unfold quiescent; repeat split; assumption|]. now split.
Qed.

Lemma set_gov_refuses_prefix_witness :
  exists w',
    cpufreq_set_gov Board.quiet (Some "power") 2 Board.w0
    = Ret (- EINVAL) w'
    /\ heap w' = heap Board.w0.
Proof.
  destruct (set_gov_refuses_prefix Board.quiet "power" 2 Board.w0 Board.msm
              1%nat Board.solo Board.powersave)
    as (w' & Hret & _ & Hheap & _);
    try reflexivity; try discriminate.
  - repeat constructor.
  - exists w'. split; [exact Hret | exact Hheap].
Defined.

(** X14. cpufreq_driver_target, for a policy that its CPU maps to and
    whose semaphore is free.  The driver's target callback runs exactly
    when the CPU is still online once the semaphore is held, cpufreq is not
    disabled, the frequency asked for differs from the policy's current
    one, and the driver has a target callback; the call then returns the
    callback's result.  Otherwise it returns -EINVAL (CPU offline, or no
    callback), -ENODEV (disabled) or 0 (already at that frequency) and no
    policy changes.  In every case the semaphore is given back and the log
    is untouched. *)
Theorem driver_target_spec (P : platform) (off : bool)
    (target_fn : cpufreq_policy -> Z -> Z -> Z * cpufreq_policy)
    (pol : ptr) (target_freq relation : Z) (w : world) (p : cpufreq_policy)
    (drv : cpufreq_driver_t) :
  heap w pol = Some p ->
  cpufreq_driver w = Some drv ->
  (cpu p < nr_cpu_ids P)%nat ->
  try_module_get P (drv_owner drv) = true ->
  cpufreq_cpu_data w (cpu p) = Some pol ->
  cpufreq_policy_cpu w (cpu p) <> -1 ->
  can_down write
    (cpu_policy_rwsem w (Z.to_nat (cpufreq_policy_cpu w (cpu p)))) = true ->
  cpu (snd (target_fn p target_freq relation)) = cpu p ->
  let online :=
    cpumask_test_cpu (cpu p) (hotplug_while_asleep P (cpu_online_mask w)) in
  let called :=
    online && negb off && negb (target_freq =? cur p) && target drv in
  exists w',
    cpufreq_driver_target P off target_fn pol target_freq relation w
    = Ret (if negb online then - EINVAL
           else if off then - ENODEV
           else if target_freq =? cur p then 0
           else if target drv then fst (target_fn p target_freq relation)
           else - EINVAL) w'
    /\ quiescent w w'
    /\ trace w' = trace w
    /\ heap w'
       = if called
         then upd (heap w) pol (Some (snd (target_fn p target_freq relation)))
         else heap w.
Proof.
  intros Hp Hdrv Hc Hmod Hmap Hpc Hfree Hcpu online called.
  unfold cpufreq_driver_target, cpufreq_cpu_get.
  mderef Hp.
  erewrite bind_eq by (eapply cpu_get_eq; eassumption).
  rewrite Hmap. mderef Hp.
  destruct (lock_total P write (cpu p) w Hpc Hfree) as (w1 & Hlock).
  fold online in Hlock.
  unfold lock_policy_rwsem_write. erewrite bind_eq by exact Hlock.
  pose proof (lock_spec P write (cpu p) w _ w1 Hlock) as S. cbv zeta in S.
  fold online in S.
  destruct S as (_ & _ & Hdr & Hd & Hs & Hpc1 & Hgl & Hmask & Hh & Hn & Ht
                 & Hr).
  subst called. destruct online eqn:Hon.
  - destruct Hr as [(Hr & _) | (_ & Hon1 & Hsem)]; [discriminate|].
    cbn [negb Z.eqb andb].
    assert (Hp1 : heap w1 pol = Some p) by (rewrite Hh; exact Hp).
    assert (Hquiet : forall code,
               __cpufreq_driver_target off target_fn pol target_freq
                 relation w1 = Ret code w1 ->
               exists w',
                 (r <- __cpufreq_driver_target off target_fn pol target_freq
                         relation ;;
                  p <- deref pol ;;
                  unlock_policy_rwsem_write (cpu p) ;;;
                  ret r) w1 = Ret code w'
                 /\ quiescent w w' /\ trace w' = trace w
                 /\ heap w' = heap w).
    { intros code Hcode. erewrite bind_eq by exact Hcode. mderef Hp1.
      destruct (unlock_after_lock P write (cpu p) w w1 Hlock)
        as (w2 & Hun & Hq & Hh2 & Ht2 & _).
      unfold unlock_policy_rwsem_write. erewrite bind_eq by exact Hun.
      exists w2. split; [reflexivity|]. split; [exact Hq|]. now split. }
    destruct off.
    + apply Hquiet. reflexivity.
    + cbn [negb andb].
      destruct (target_freq =? cur p) eqn:Hsame.
      * apply Hquiet. unfold __cpufreq_driver_target, cpufreq_disabled.
        mderef Hp1. now rewrite Hsame.
      * cbn [negb andb].
        destruct (target drv) eqn:Htarget.
        -- unfold __cpufreq_driver_target at 1, cpufreq_disabled.
           rewrite !bind_assoc. mderef Hp1. rewrite Hsame.
           rewrite !bind_assoc. mrun. rewrite Hmask.
           fold online. rewrite Hon. cbn [negb].
           rewrite !bind_assoc.
           erewrite bind_eq by (apply driver_eq; rewrite Hdr; exact Hdrv).
           rewrite Htarget. cbn [negb].
           rewrite !bind_assoc. mderef Hp1.
           rewrite !bind_assoc. mrun. mrun.
           erewrite bind_eq by (apply deref_eq; wsimpl; apply upd_eq).
           rewrite Hcpu.
           destruct (unlock_after_body P write (cpu p) w w1
                       (set_heap w1
                          (upd (heap w1) pol
                             (Some (snd (target_fn p target_freq relation)))))
                       Hlock)
             as (w2 & Hun & Hq & Hh2 & Ht2 & _); [repeat split|].
           unfold unlock_policy_rwsem_write.
           erewrite bind_eq by exact Hun.
           exists w2. split; [reflexivity|]. split; [exact Hq|].
           split; [rewrite Ht2; exact Ht|].
           rewrite Hh2. cbn. now rewrite Hh.
        -- apply Hquiet. unfold __cpufreq_driver_target, cpufreq_disabled.
           mderef Hp1. rewrite Hsame. mrun. rewrite Hmask.
           fold online. rewrite Hon. cbn [negb].
           erewrite bind_eq by (apply driver_eq; rewrite Hdr; exact Hdrv).
           now rewrite Htarget.
  - destruct Hr as [(_ & _ & Hsem) | (Hr & _)]; [|discriminate].
    cbn [negb Z.eqb andb]. exists w1. split; [reflexivity|].
    split; [unfold quiescent; repeat split; assumption|].
    split; assumption.
Qed.

Lemma driver_target_spec_witness :
  exists w',
    cpufreq_driver_target Board.quiet false Lab.set_speed 1%nat 1400000 0
      Board.w0 = Ret 0 w'
    /\ heap w' = upd (heap Board.w0) 1%nat
                   (Some (with_cur Board.solo 1400000)).
Proof.
  destruct (driver_target_spec Board.quiet false Lab.set_speed 1%nat 1400000
              0 Board.w0 Board.solo Board.msm)
    as (w' & Hret & _ & _ & Hheap);
    try reflexivity; try discriminate.
  - repeat constructor.
  - exists w'. split; [exact Hret | exact Hheap].
Defined.

(** ** Adding and removing CPUs: further paths *)

(** X15. When the driver's init fails, cpufreq_add_dev gives everything
    back.  For an online CPU without a policy (allocation succeeding, the
    CPU's own semaphore free, no concurrent hotplug) whose init returns an
    error, cpufreq_add_dev returns that error; the provisional policy is
    freed, no CPU is bound, every semaphore is as before, the snapshots
    are untouched, and the driver was called for init and for nothing
    else.  What stays behind is the owner map, where the CPU is now its
    own owner. *)
Theorem add_dev_init_failure (P : platform) (c : nat) (w : world)
    (drv : cpufreq_driver_t) (e : Z) :
  (c < nr_cpu_ids P)%nat ->
  (forall m, hotplug_while_asleep P m = m) ->
  kzalloc_policy P = true ->
  alloc_cpumask_var P = true ->
  zalloc_cpumask_var P = true ->
  cpumask_test_cpu c (cpu_online_mask w) = true ->
  can_down write (cpu_policy_rwsem w c) = true ->
  cpufreq_driver w = Some drv ->
  try_module_get P (drv_owner drv) = true ->
  cpufreq_cpu_data w c = None ->
  mapped_alive w ->
  (forall pin, cpu pin = c -> fst (init drv pin) = e) ->
  e <> 0 ->
  exists w',
    cpufreq_add_dev P c w = Ret e w'
    /\ cpufreq_cpu_data w' = cpufreq_cpu_data w
    /\ heap w' (next_ptr w) = None
    /\ (forall q, q <> next_ptr w -> heap w' q = heap w q)
    /\ (forall j, cpu_policy_rwsem w' j = cpu_policy_rwsem w j)
    /\ cpufreq_policy_save w' = cpufreq_policy_save w
    /\ cpufreq_policy_cpu w' = upd (cpufreq_policy_cpu w) c (Z.of_nat c)
    /\ trace w' = trace w ++ [EvInit c].
Proof.
  intros Hc Hrace Hk1 Hk2 Hk3 Hon Hfree Hdrv Hmod Hdata Halive Hinit He.
  unfold cpufreq_add_dev.
  mrun. rewrite Hon. cbn [negb].
  erewrite bind_eq by (eapply cpu_get_eq; eassumption).
  rewrite Hdata. mdriver Hdrv.
  rewrite Hmod, Hk1, Hk2, Hk3. cbn [negb].
  mrun. set (pol := next_ptr w).
  mupdate. mupdate. mrun.
  erewrite bind_eq.
  2:{ apply lock_write_free; wsimpl.
      - exact Hrace.
      - apply upd_eq.
      - exact Hfree.
      - exact Hon. }
  wsimpl. mrun.
  match goal with
  | |- context [bind (sibling_governor c ?l) ?k ?w0] =>
      destruct (sibling_governor_returns c l w0) as (sg & Hsg)
  end.
  { intros j x Hx. wsimpl. unfold upd.
    destruct (Nat.eqb x pol); [discriminate|]. exact (Halive j x Hx). }
  erewrite bind_eq by exact Hsg.
  mupdate.
  erewrite bind_eq by (apply deref_eq; wsimpl; apply upd_eq).
  cbv beta iota.
  match goal with
  | |- context [init drv ?x] => set (pin := x)
  end.
  pose proof (Hinit pin eq_refl) as Hi.
  mrun. mrun. rewrite Hi.
  apply Z.eqb_neq in He. rewrite He. cbn [negb].
  erewrite bind_eq by (apply unlock_write; wsimpl; apply upd_eq).
  mrun. unfold ret.
  eexists. split; [reflexivity|]. wsimpl.
  split; [reflexivity|]. split; [apply upd_eq|].
  split; [intros q Hq; now rewrite !upd_neq|].
  split; [|now repeat split].
  intros j. rewrite upd_eq. unfold upd.
  destruct (Nat.eqb j c) eqn:Hj; [|reflexivity].
  apply Nat.eqb_eq in Hj. subst j. cbn.
  destruct (cpu_policy_rwsem w c) as [rd wr]. cbn in Hfree |- *.
  apply andb_true_iff in Hfree. destruct Hfree as [Hw Hr].
  apply negb_true_iff in Hw. apply Nat.eqb_eq in Hr. now subst.
Qed.

Lemma add_dev_init_failure_witness :
  exists w',
    cpufreq_add_dev Board.quiet 3 Lab.w_dead = Ret (- ENODEV) w'
    /\ heap w' 2%nat = None
    /\ trace w' = [EvInit 3].
Proof.
  destruct (add_dev_init_failure Board.quiet 3 Lab.w_dead Lab.msm_dead
              (- ENODEV))
    as (w' & Hret & _ & Hfreed & _ & _ & _ & _ & Htrace);
    try reflexivity; try discriminate.
  - repeat constructor.
  - intros j q Hj. cbn in Hj.
    destruct j as [|[|[|j]]]; inversion Hj; subst; discriminate.
  - exists w'. split; [exact Hret|]. split; [exact Hfreed | exact Htrace].
Defined.

(** X16. Taking down a CPU that is not the owner of its policy.  The
    policy stays: the CPU is unbound and cleared from the policy's mask,
    and the governor is stopped before and started again (START, then
    LIMITS) after the mask changes.  The policy keeps its governor and its
    user_policy; no snapshot is written for the CPU, the driver's exit is
    not called, the CPU's sysfs link is removed, and the semaphore is
    given back. *)
Theorem remove_sibling_shrinks_policy (P : platform) (fuel : nat)
    (c : nat) (w : world) (dp : ptr) (p : cpufreq_policy)
    (g : cpufreq_governor) :
  (c < nr_cpu_ids P)%nat ->
  (forall m, hotplug_while_asleep P m = m) ->
  cpumask_test_cpu c (cpu_online_mask w) = true ->
  cpufreq_policy_cpu w c <> -1 ->
  can_down write
    (cpu_policy_rwsem w (Z.to_nat (cpufreq_policy_cpu w c))) = true ->
  cpufreq_cpu_data w c = Some dp ->
  heap w dp = Some p ->
  cpu p <> c ->
  governor p = Some g ->
  too_slow g p = false ->
  try_module_get P (owner g) = true ->
  governors_keep_policy P ->
  exists w' p' r1 r2 r3,
    cpufreq_cpu_callback P (S fuel) CPU_DOWN_PREPARE c w
    = Ret (Some NOTIFY_OK) w'
    /\ cpufreq_cpu_data w' = upd (cpufreq_cpu_data w) c None
    /\ heap w' dp = Some p'
    /\ cpus p' = cpumask_clear_cpu c (cpus p)
    /\ governor p' = Some g
    /\ user_policy p' = user_policy p
    /\ cpufreq_policy_save w' = cpufreq_policy_save w
    /\ (forall j, cpu_policy_rwsem w' j = cpu_policy_rwsem w j)
    /\ trace w'
       = trace w
         ++ [EvGovernor dp g CPUFREQ_GOV_STOP r1;
             EvGovernor dp g CPUFREQ_GOV_START r2;
             EvGovernor dp g CPUFREQ_GOV_LIMITS r3;
             EvSysfs (sysfs_remove_link c) (sysfs P (sysfs_remove_link c))].
Proof.
  intros Hc Hrace Hon Hpc Hfree Hdata Hp Hown Hg Hslow Hmod Hk.
  unfold cpufreq_cpu_callback.
  assert (Hnr : (nr_cpu_ids P <=? c)%nat = false) by (apply Nat.leb_gt; lia).
  rewrite Hnr.
  destruct (lock_total P write c w Hpc Hfree) as (w1 & Hlock).
  rewrite Hrace, Hon in Hlock.
  unfold lock_policy_rwsem_write. erewrite bind_eq by exact Hlock.
  cbn [negb Z.eqb].
  pose proof (lock_spec P write c w _ w1 Hlock) as S. cbv zeta in S.
  destruct S as (_ & _ & Hdr & Hd & Hs & Hpc1 & Hgl & Hmask & Hh & Hn & Ht
                 & _).
  (* the three governor calls *)
  set (p1 := snd (governor_fn P g CPUFREQ_GOV_STOP p)).
  destruct (callback_same_limits P g CPUFREQ_GOV_STOP p Hk) as [L1 G1].
  fold p1 in L1, G1.
  set (p2 := with_cpus p1 (cpumask_clear_cpu c (cpus p1))).
  set (p3 := snd (governor_fn P g CPUFREQ_GOV_START p2)).
  destruct (callback_same_limits P g CPUFREQ_GOV_START p2 Hk) as [L3 G3].
  fold p3 in L3, G3.
  set (p4 := snd (governor_fn P g CPUFREQ_GOV_LIMITS p3)).
  destruct (callback_same_limits P g CPUFREQ_GOV_LIMITS p3 Hk) as [L4 G4].
  fold p4 in L4, G4.
  assert (Hg1 : governor p1 = Some g) by (rewrite G1; exact Hg).
  assert (Hg2 : governor p2 = Some g) by exact Hg1.
  assert (Hg3 : governor p3 = Some g) by (rewrite G3; exact Hg2).
  assert (Hi1 : cpuinfo p1 = cpuinfo p) by apply L1.
  assert (Hi2 : cpuinfo p2 = cpuinfo p) by exact Hi1.
  assert (Hi3 : cpuinfo p3 = cpuinfo p).
  { destruct L3 as (_ & _ & _ & E & _). now rewrite E. }
  assert (Hs2 : too_slow g p2 = false)
    by (unfold too_slow in *; now rewrite Hi2).
  assert (Hs3 : too_slow g p3 = false)
    by (unfold too_slow in *; now rewrite Hi3).
  cbn [__cpufreq_remove_dev].
  rewrite !bind_assoc. mrun. rewrite Hd, Hdata.
  rewrite !bind_assoc. mrun.
  rewrite !bind_assoc.
  erewrite bind_eq by (apply deref_eq; wsimpl; rewrite Hh; exact Hp).
  assert (Hne : Nat.eqb c (cpu p) = false)
    by (apply Nat.eqb_neq; congruence).
  rewrite Hne. cbn [negb].
  rewrite !bind_assoc.
  erewrite bind_eq.
  2:{ apply (governor_runs P dp CPUFREQ_GOV_STOP _ p g);
        [wsimpl; rewrite Hh; exact Hp | exact Hg | exact Hslow | exact Hmod]. }
  fold p1.
  rewrite !bind_assoc.
  erewrite bind_eq by (apply update_spec; wsimpl; apply upd_eq).
  fold p2.
  rewrite !bind_assoc.
  erewrite bind_eq.
  2:{ apply (governor_runs P dp CPUFREQ_GOV_START _ p2 g);
        [wsimpl; apply upd_eq | exact Hg2 | exact Hs2 | exact Hmod]. }
  fold p3.
  rewrite !bind_assoc.
  erewrite bind_eq.
  2:{ apply (governor_runs P dp CPUFREQ_GOV_LIMITS _ p3 g);
        [wsimpl; apply upd_eq | exact Hg3 | exact Hs3 | exact Hmod]. }
  fold p4. wsimpl.
  rewrite !bind_assoc.
  match goal with
  | |- context [bind (unlock_policy_rwsem_write c) ?k ?w0] =>
      destruct (unlock_after_any P write c w w1 w0 Hlock eq_refl eq_refl)
        as (f & Hun & Hf)
  end.
  unfold unlock_policy_rwsem_write. erewrite bind_eq by exact Hun.
  unfold do_sysfs. rewrite !bind_assoc. mrun. mrun. mrun.
  unfold ret.
  eexists _, p4,
    (fst (governor_fn P g CPUFREQ_GOV_STOP p)),
    (fst (governor_fn P g CPUFREQ_GOV_START p2)),
    (fst (governor_fn P g CPUFREQ_GOV_LIMITS p3)).
  split; [reflexivity|]. wsimpl.
  split; [rewrite Hd; reflexivity|].
  split; [apply upd_eq|].
  split.
  { destruct L4 as (E4 & _). destruct L3 as (E3 & _). rewrite E4, E3.
    cbn. destruct L1 as (E1 & _). now rewrite E1. }
  split; [rewrite G4; exact Hg3|].
  split.
  { destruct L4 as (_&_&_&_&_&_&_&E4). destruct L3 as (_&_&_&_&_&_&_&E3).
    destruct L1 as (_&_&_&_&_&_&_&E1). rewrite E4, E3. cbn. exact E1. }
  split; [exact Hs|].
  split; [exact Hf|].
  rewrite Ht. rewrite <- !app_assoc. reflexivity.
Qed.

Lemma remove_sibling_shrinks_policy_witness :
  exists w' p',
    cpufreq_cpu_callback Board.quiet 1 CPU_DOWN_PREPARE 1 Board.w0
    = Ret (Some NOTIFY_OK) w'
    /\ heap w' 0%nat = Some p'
    /\ cpus p' = 1%N
    /\ cpufreq_policy_save w' = cpufreq_policy_save Board.w0.
Proof.
  destruct (remove_sibling_shrinks_policy Board.quiet 0 1 Board.w0 0%nat
              Board.shared Board.ondemand)
    as (w' & p' & r1 & r2 & r3 & Hret & _ & Hh & Hcpus & _ & _ & Hsave & _);
    try reflexivity; try discriminate.
  - repeat constructor.
  - apply board_callbacks_keep_policy.
  - exists w', p'. split; [exact Hret|]. split; [exact Hh|].
    split; [exact Hcpus | exact Hsave].
Defined.

(** ** The all_cpus attributes *)

(** X17. What is written to a per-CPU limit of all_cpus while that CPU is
    offline is kept in the CPU's snapshot and read back from there: the
    store returns count, the show that follows prints the number written,
    and the store touched nothing but that one field of that one
    snapshot. *)
Theorem pcpu_limit_offline_round_trip (P : platform) (object : limit_field)
    (num_core : nat) (buf : string) (count : Z) (w : world) (v : Z) :
  sscanf_u P buf = Some v ->
  cpumask_test_cpu num_core (cpu_online_mask w) = false ->
  exists w',
    store_pcpu_scaling_freq P object num_core buf count w = Ret count w'
    /\ show_pcpu_scaling_freq P object num_core w'
       = Ret (inr (sprintf_u v)) w'
    /\ cpufreq_policy_save w' num_core
       = with_saved_limit object (cpufreq_policy_save w num_core) v
    /\ (forall c, c <> num_core ->
                  cpufreq_policy_save w' c = cpufreq_policy_save w c)
    /\ heap w' = heap w
    /\ cpufreq_cpu_data w' = cpufreq_cpu_data w
    /\ trace w' = trace w.
Proof.
  intros Hscan Hoff.
  exists (set_policy_save w
            (upd (cpufreq_policy_save w) num_core
               (with_saved_limit object (cpufreq_policy_save w num_core) v))).
  unfold store_pcpu_scaling_freq, show_pcpu_scaling_freq, save_limit.
  rewrite Hscan. unfold bind, cpu_online, gets, modify, ret.
  cbn [cpu_online_mask set_policy_save cpufreq_policy_save heap
       cpufreq_cpu_data trace].
  rewrite Hoff. cbn [negb]. rewrite !upd_eq.
  split; [reflexivity|].
  split; [cbn [cpufreq_policy_save set_policy_save]; rewrite upd_eq;
          destruct object; reflexivity|].
  split; [reflexivity|].
  split; [intros c Hc; now rewrite upd_neq|].
  now repeat split.
Qed.

Lemma pcpu_limit_offline_round_trip_witness :
  exists w',
    store_pcpu_scaling_freq Board.quiet scaling_max_freq 3 "800000" 7
      Lab.w_off = Ret 7 w'
    /\ show_pcpu_scaling_freq Board.quiet scaling_max_freq 3 w'
       = Ret (inr (sprintf_u 800000)) w'.
Proof.
  destruct (pcpu_limit_offline_round_trip Board.quiet scaling_max_freq 3
              "800000" 7 Lab.w_off 800000 eq_refl eq_refl)
    as (w' & Hst & Hsh & _).
  exists w'. split; [exact Hst | exact Hsh].
Defined.

Lemma stable_get_policy (P : platform) (I : world -> Prop) (c : nat) :
  stable I (cpufreq_get_policy P c).
Proof.
  unfold cpufreq_get_policy, cpufreq_cpu_get.
  repeat stable_step.
Qed.

Lemma stable_store_one_blind (P : platform) (I : world -> Prop)
    (object : limit_field) (pol : ptr) (buf : string) (count : Z) :
  blind I -> stable I (store_one P object pol buf count).
Proof.
  intros HB. unfold store_one. cbv zeta.
  repeat first
    [ apply stable_get_policy
    | apply stable_set_policy_blind; exact HB
    | blind_step HB ].
Qed.

(** The loop of store_scaling_freq, whenever it returns. *)
Lemma store_scaling_freq_loop_spec (P : platform) (object : limit_field)
    (freq : Z) (buf : string) (count : Z) (cpus : list nat) (w w' : world) :
  NoDup cpus ->
  store_scaling_freq_loop P object freq buf count cpus w = Ret tt w' ->
  cpu_online_mask w' = cpu_online_mask w
  /\ (forall c, In c cpus ->
                cpumask_test_cpu c (cpu_online_mask w) = false ->
                cpufreq_policy_save w' c
                = with_saved_limit object (cpufreq_policy_save w c) freq)
  /\ (forall c, ~ In c cpus
                \/ cpumask_test_cpu c (cpu_online_mask w) = true ->
                cpufreq_policy_save w' c = cpufreq_policy_save w c).
Proof.
  intros Hnd. revert w.
  induction cpus as [|c rest IH]; intros w H;
    cbn [store_scaling_freq_loop] in H.
  - unfold ret in H. inversion H. subst. split; [reflexivity|].
    split; [intros c []|reflexivity].
  - inversion Hnd as [|? ? Hnotin Hnd']. subst.
    apply bind_inv in H. destruct H as (online & w0 & Hon & H).
    unfold cpu_online, gets in Hon. inversion Hon. subst online w0.
    clear Hon.
    apply bind_inv in H. destruct H as ([] & w1 & Hstep & H).
    destruct (IH Hnd' w1 H) as (Hmask & Hoff & Hsame).
    assert (Hstep' :
              cpu_online_mask w1 = cpu_online_mask w
              /\ (forall x, x <> c ->
                            cpufreq_policy_save w1 x = cpufreq_policy_save w x)
              /\ cpufreq_policy_save w1 c
                 = if cpumask_test_cpu c (cpu_online_mask w)
                   then cpufreq_policy_save w c
                   else with_saved_limit object (cpufreq_policy_save w c)
                          freq).
    { destruct (cpumask_test_cpu c (cpu_online_mask w)); cbn [negb] in Hstep.
      - assert (Hinv : cpu_online_mask w1 = cpu_online_mask w
                       /\ cpufreq_policy_save w1 = cpufreq_policy_save w).
        { apply bind_inv in Hstep. destruct Hstep as (q & w2 & Hq & Hstep).
          apply cpu_get_inv in Hq. destruct Hq as [-> _].
          destruct q as [q|]; [|unfold ret in Hstep; now inversion Hstep].
          apply bind_inv in Hstep. destruct Hstep as (r & w3 & Hone & Hstep).
          unfold ret in Hstep. inversion Hstep. subst w3.
          refine (stable_store_one_blind P
                    (fun x => cpu_online_mask x = cpu_online_mask w
                              /\ cpufreq_policy_save x
                                 = cpufreq_policy_save w)
                    object q buf count _ w r w1 (conj eq_refl eq_refl) Hone).
          split; intros x y Hx; exact Hx. }
        destruct Hinv as [E1 E2]. rewrite E2. now repeat split.
      - unfold save_limit, modify in Hstep. inversion Hstep. cbn.
        split; [reflexivity|]. split; [|apply upd_eq].
        intros x Hx. now rewrite upd_neq. }
    destruct Hstep' as (Hm1 & Ho1 & Hc1).
    split; [congruence|]. split.
    + intros x [<-|Hx] Hx0.
      * rewrite Hsame by now left. now rewrite Hc1, Hx0.
      * rewrite Hoff; [|exact Hx|now rewrite Hm1].
        rewrite Ho1; [reflexivity|]. intros ->. contradiction.
    + intros x Hx.
      destruct (Nat.eq_dec x c) as [->|Hxc].
      * destruct Hx as [Hx|Hx]; [exfalso; apply Hx; now left|].
        rewrite Hsame by now left. now rewrite Hc1, Hx.
      * rewrite Hsame.
        -- now apply Ho1.
        -- destruct Hx as [Hx|Hx]; [left|right; now rewrite Hm1].
           intros Hin. apply Hx. now right.
Qed.

(** X18. A write to scaling_min_freq_all_cpus or
    scaling_max_freq_all_cpus reports success whatever the CPUs made of
    it.  When the buffer holds no number it returns -EINVAL and nothing
    changed.  Otherwise, whenever it returns, it returns count (the
    results of the per-CPU stores are dropped), every possible CPU that is
    offline has the number in its snapshot, and the snapshots of the
    online CPUs are untouched. *)
Theorem store_all_cpus_reports_success (P : platform) (possible : cpumask)
    (object : limit_field) (buf : string) (count : Z) (w : world) (r : Z)
    (w' : world) :
  store_scaling_freq P possible object buf count w = Ret r w' ->
  match sscanf_u P buf with
  | None => r = - EINVAL /\ w' = w
  | Some v =>
      r = count
      /\ (forall c, (c < nr_cpu_ids P)%nat ->
                    cpumask_test_cpu c possible = true ->
                    cpumask_test_cpu c (cpu_online_mask w) = false ->
                    cpufreq_policy_save w' c
                    = with_saved_limit object (cpufreq_policy_save w c) v)
      /\ (forall c, cpumask_test_cpu c (cpu_online_mask w) = true ->
                    cpufreq_policy_save w' c = cpufreq_policy_save w c)
  end.
Proof.
  intros H. unfold store_scaling_freq in H.
  destruct (sscanf_u P buf) as [v|].
  - apply bind_inv in H. destruct H as ([] & w1 & Hloop & H).
    unfold ret in H. inversion H. subst r w1.
    destruct (store_scaling_freq_loop_spec P object v buf count _ w w'
                (for_each_cpu_NoDup _ _) Hloop) as (_ & Hoff & Hsame).
    split; [reflexivity|]. split.
    + intros c Hc Hp Ho. apply Hoff; [|exact Ho].
      apply for_each_cpu_In. now split.
    + intros c Ho. apply Hsame. now right.
  - unfold ret in H. inversion H. now split.
Qed.

Lemma store_all_cpus_reports_success_witness :
  value_after 0
    (store_scaling_freq Board.quiet 15%N scaling_max_freq "800000" 7)
    Lab.w_off = 7
  /\ save_max
       (cpufreq_policy_save
          (world_after
             (store_scaling_freq Board.quiet 15%N scaling_max_freq
                "800000" 7) Lab.w_off) 3%nat) = 800000.
Proof.
  pose proof (store_all_cpus_reports_success Board.quiet 15%N
                scaling_max_freq "800000" 7 Lab.w_off
                (value_after 0
                   (store_scaling_freq Board.quiet 15%N scaling_max_freq
                      "800000" 7) Lab.w_off)
                (world_after
                   (store_scaling_freq Board.quiet 15%N scaling_max_freq
                      "800000" 7) Lab.w_off)) as H.
  cbn [sscanf_u Board.quiet Board.board] in H.
  destruct H as (Hr & Hoff & _); [vm_compute; reflexivity|].
  split; [exact Hr|].
  rewrite (Hoff 3%nat); [reflexivity | repeat constructor | reflexivity
                         | reflexivity].
Defined.

(** The three per-CPU stores of all_cpus on an offline CPU. *)
Lemma pcpu_stores_offline (P : platform) (c : nat)
    (bmin bmax bgov : string) (n1 n2 n3 : Z) (umin umax : Z) (str : string)
    (w : world) :
  cpumask_test_cpu c (cpu_online_mask w) = false ->
  sscanf_u P bmin = Some umin ->
  sscanf_u P bmax = Some umax ->
  sscanf_15s bgov = Some str ->
  exists f,
    (store_pcpu_scaling_freq P scaling_min_freq c bmin n1 ;;;
     store_pcpu_scaling_freq P scaling_max_freq c bmax n2 ;;;
     store_pcpu_scaling_governor P c bgov n3) w
    = Ret n3 (set_policy_save w f)
    /\ f c = {| gov := strncpy str (CPUFREQ_NAME_LEN P);
                save_max := umax; save_min := umin |}.
Proof.
  intros Hoff Hmin Hmax Hgov.
  unfold store_pcpu_scaling_freq, store_pcpu_scaling_governor, save_limit,
    save_gov.
  rewrite Hmin, Hmax, Hgov.
  unfold bind, cpu_online, gets, modify, ret. wsimpl.
  rewrite Hoff. cbn [negb]. wsimpl. rewrite Hoff. cbn [negb]. wsimpl.
  rewrite Hoff. cbn [negb]. wsimpl.
  eexists. split; [reflexivity|].
  rewrite !upd_eq. reflexivity.
Qed.

(** X19. Limits and a governor written to the all_cpus attributes of an
    offline CPU take effect when the CPU comes up: after the three stores
    (each returns its count) cpufreq_add_dev for that CPU, now online,
    creates a policy governed by the governor of the written name, with the
    written bounds as the user's, and starts that governor. *)
Theorem offline_settings_apply_on_add (P : platform) (w : world) (c : nat)
    (drv : cpufreq_driver_t) (g : cpufreq_governor)
    (bmin bmax bgov : string) (n1 n2 n3 : Z) (umin umax : Z) (str : string)
    (up : cpumask) :
  (c < nr_cpu_ids P)%nat ->
  (forall m, hotplug_while_asleep P m = m) ->
  CONFIG_UNI_CPU_POLICY_LIMIT P = false ->
  kzalloc_policy P = true ->
  alloc_cpumask_var P = true ->
  zalloc_cpumask_var P = true ->
  (forall o, sysfs P o = 0) ->
  notifiers_adjust P ->
  governors_keep_policy P ->
  cpumask_test_cpu c (cpu_online_mask w) = false ->
  cpumask_test_cpu c up = true ->
  can_down write (cpu_policy_rwsem w c) = true ->
  cpufreq_driver w = Some drv ->
  setpolicy drv = None ->
  try_module_get P (drv_owner drv) = true ->
  verify_adjusts drv ->
  init_alone P drv c up ->
  cpufreq_cpu_data w c = None ->
  mapped_alive w ->
  sscanf_u P bmin = Some umin ->
  sscanf_u P bmax = Some umax ->
  sscanf_15s bgov = Some str ->
  umin <> 0 -> umax <> 0 -> umin <= umax ->
  find (fun t => strnicmp (strncpy str (CPUFREQ_NAME_LEN P)) (name t)
                   (CPUFREQ_NAME_LEN P))
       (cpufreq_governor_list w) = Some g ->
  (forall x, too_slow g x = false) ->
  try_module_get P (owner g) = true ->
  (forall x, fst (governor_fn P g CPUFREQ_GOV_START x) = 0) ->
  exists w1 w2 p2,
    (store_pcpu_scaling_freq P scaling_min_freq c bmin n1 ;;;
     store_pcpu_scaling_freq P scaling_max_freq c bmax n2 ;;;
     store_pcpu_scaling_governor P c bgov n3) w = Ret n3 w1
    /\ cpufreq_add_dev P c (set_online_mask w1 up) = Ret 0 w2
    /\ cpufreq_cpu_data w2 c = Some (next_ptr w)
    /\ heap w2 (next_ptr w) = Some p2
    /\ governor p2 = Some g
    /\ rp_min (user_policy p2) = umin
    /\ rp_max (user_policy p2) = umax
    /\ rp_governor (user_policy p2) = Some g
    /\ In (EvGovernor (next_ptr w) g CPUFREQ_GOV_START 0) (trace w2).
Proof.
  intros Hc Hrace Huni Hk1 Hk2 Hk3 Hsys Hnot Hkeep Hoff Hup Hfree Hdrv Hsp
         Hmod Hver Hinit Hdata Halive Hmin Hmax Hgov Humin Humax Hle Hfind
         Hslow Hgmod Hstart.
  destruct (pcpu_stores_offline P c bmin bmax bgov n1 n2 n3 umin umax str w
              Hoff Hmin Hmax Hgov) as (f & Hst & Hf).
  destruct (add_restores_snapshot P
              (set_online_mask (set_policy_save w f) up) c drv g
              (strncpy str (CPUFREQ_NAME_LEN P)) umin umax)
    as (w2 & p2 & Hadd & Hrest); try assumption.
  exists (set_policy_save w f), w2, p2.
  split; [exact Hst|]. split; [exact Hadd|]. exact Hrest.
Qed.

Lemma board_init_cpu3 :
  init_alone Board.quiet Board.msm 3 15%N.
Proof.
  intros pin Hcpu Hcpus. cbn. rewrite Hcpu, Hcpus. repeat split.
Qed.

Lemma lab_mapped_alive : mapped_alive Lab.w_off.
Proof. exact board_mapped_alive. Qed.

Lemma offline_settings_apply_on_add_witness :
  exists w1 w2 p2,
    (store_pcpu_scaling_freq Board.quiet scaling_min_freq 3 "800000" 7 ;;;
     store_pcpu_scaling_freq Board.quiet scaling_max_freq 3 "800000" 7 ;;;
     store_pcpu_scaling_governor Board.quiet 3 "POWERSAVE" 10) Lab.w_off
    = Ret 10 w1
    /\ cpufreq_add_dev Board.quiet 3 (set_online_mask w1 15%N) = Ret 0 w2
    /\ heap w2 2%nat = Some p2
    /\ governor p2 = Some Board.powersave
    /\ rp_min (user_policy p2) = 800000
    /\ rp_max (user_policy p2) = 800000.
Proof.
  destruct (offline_settings_apply_on_add Board.quiet Lab.w_off 3 Board.msm
              Board.powersave "800000" "800000" "POWERSAVE" 7 7 10
              800000 800000 "POWERSAVE" 15%N)
    as (w1 & w2 & p2 & Hst & Hadd & _ & Hh & Hg & Hm & HM & _);
    try reflexivity; try discriminate.
  - repeat constructor.
  - apply board_notifiers_adjust.
  - apply board_callbacks_keep_policy.
  - apply board_verify_adjusts.
  - apply board_init_cpu3.
  - apply lab_mapped_alive.
  - exists w1, w2, p2. repeat split; assumption.
Defined.

(** ** The PM QoS notifier *)

Lemma quiescent_trans (a b c : world) :
  quiescent a b -> quiescent b c -> quiescent a c.
Proof.
  unfold quiescent.
  intros (A1 & A2 & A3 & A4 & A5 & A6 & A7) (B1 & B2 & B3 & B4 & B5 & B6 & B7).
  repeat split; intros; congruence.
Qed.

Lemma cpu_freq_notify_loop_kept (P : platform) (cpus : list nat)
    (w w' : world) :
  governors_keep_policy P ->
  cpu_freq_notify_loop P cpus w = Ret tt w' ->
  quiescent w w' /\ policies_kept w w'.
Proof.
  intros Hk. revert w.
  induction cpus as [|c rest IH]; intros w H; cbn [cpu_freq_notify_loop] in H.
  - unfold ret in H. inversion H. subst.
    split; [apply quiescent_refl | now apply policies_kept_heap].
  - apply bind_inv in H. destruct H as (online & w0 & Hon & H).
    unfold cpu_online, gets in Hon. inversion Hon. subst online w0.
    clear Hon.
    apply bind_inv in H. destruct H as ([] & w1 & Hstep & H).
    destruct (IH w1 H) as [Q1 K1].
    assert (S : quiescent w w1 /\ policies_kept w w1).
    { destruct (cpumask_test_cpu c (cpu_online_mask w)); cbn [negb] in Hstep.
      - apply bind_inv in Hstep. destruct Hstep as (q & w2 & Hq & Hstep).
        unfold cpufreq_cpu_get in Hq.
        apply cpu_get_inv in Hq. destruct Hq as [-> _].
        destruct q as [q|].
        + apply bind_inv in Hstep. destruct Hstep as (p & w2 & Hp & Hstep).
          apply deref_inv in Hp. destruct Hp as [_ ->].
          apply bind_inv in Hstep. destruct Hstep as (r & w2 & Hup & Hstep).
          unfold ret in Hstep. inversion Hstep. subst w2.
          exact (update_policy_kept P (cpu p) w r w1 Hk Hup).
        + unfold ret in Hstep. inversion Hstep. subst.
          split; [apply quiescent_refl | now apply policies_kept_heap].
      - unfold ret in Hstep. inversion Hstep. subst.
        split; [apply quiescent_refl | now apply policies_kept_heap]. }
    destruct S as [Q0 K0].
    split; [eapply quiescent_trans | eapply policies_kept_trans]; eassumption.
Qed.

(** X20. A change of the PM QoS frequency floor or ceiling re-evaluates the
    policy of every online CPU and nothing more: whenever cpu_freq_notify
    returns, it returns NOTIFY_OK, every policy object is still there with
    the user's request, its owner, masks and cpuinfo as before, the map
    from CPUs to policies, the snapshots and the governor list are the
    same, and every semaphore is back in the state it was in. *)
Theorem qos_notify_keeps_user_intent (P : platform) (w : world) (r : Z)
    (w' : world) :
  governors_keep_policy P ->
  cpu_freq_notify P w = Ret r w' ->
  r = NOTIFY_OK /\ quiescent w w' /\ policies_kept w w'.
Proof.
  intros Hk H. unfold cpu_freq_notify in H.
  apply bind_inv in H. destruct H as ([] & w1 & Hloop & H).
  unfold ret in H. inversion H. subst r w1.
  split; [reflexivity|].
  exact (cpu_freq_notify_loop_kept P _ w w' Hk Hloop).
Qed.

Lemma qos_notify_keeps_user_intent_witness :
  value_after 0 (cpu_freq_notify (Board.board 1000000 2457600 (fun _ => 0)
                                    (fun m => m))) Board.w0 = NOTIFY_OK
  /\ policies_kept Board.w0
       (world_after (cpu_freq_notify (Board.board 1000000 2457600
                                        (fun _ => 0) (fun m => m)))
          Board.w0).
Proof.
  destruct (qos_notify_keeps_user_intent
              (Board.board 1000000 2457600 (fun _ => 0) (fun m => m))
              Board.w0
              (value_after 0
                 (cpu_freq_notify (Board.board 1000000 2457600 (fun _ => 0)
                                     (fun m => m))) Board.w0)
              (world_after
                 (cpu_freq_notify (Board.board 1000000 2457600 (fun _ => 0)
                                     (fun m => m))) Board.w0))
    as (Hr & _ & Hk).
  - apply board_callbacks_keep_policy.
  - vm_compute. reflexivity.
  - split; [exact Hr | exact Hk].
Defined.

(** ** Boot *)

Lemma init_policy_locks_spec (cpus : list nat) (w : world) :
  exists w',
    init_policy_locks cpus w = Ret tt w'
    /\ (forall c, In c cpus ->
                  cpufreq_policy_cpu w' c = -1
                  /\ cpu_policy_rwsem w' c
                     = {| readers := 0; writer := false |})
    /\ (forall c, ~ In c cpus ->
                  cpufreq_policy_cpu w' c = cpufreq_policy_cpu w c
                  /\ cpu_policy_rwsem w' c = cpu_policy_rwsem w c)
    /\ cpufreq_driver w' = cpufreq_driver w
    /\ cpufreq_cpu_data w' = cpufreq_cpu_data w
    /\ cpufreq_policy_save w' = cpufreq_policy_save w
    /\ cpufreq_governor_list w' = cpufreq_governor_list w
    /\ cpu_online_mask w' = cpu_online_mask w
    /\ heap w' = heap w
    /\ trace w' = trace w.
Proof.
  revert w. induction cpus as [|c rest IH]; intros w.
  - exists w. split; [reflexivity|]. split; [intros c []|]. now repeat split.
  - cbn [init_policy_locks]. unfold bind at 1. unfold modify at 1.
    match goal with
    | |- context [init_policy_locks rest ?x] =>
        destruct (IH x) as (w' & Hrun & Hin & Hout & E1 & E2 & E3 & E4 & E5
                            & E6 & E7)
    end.
    exists w'. split; [exact Hrun|]. wsimpl. split; [|split].
    + intros x Hx.
      destruct (in_dec Nat.eq_dec x rest) as [Hr|Hr]; [now apply Hin|].
      destruct Hx as [<-|Hx]; [|contradiction].
      destruct (Hout c Hr) as [A B]. rewrite A, B, !upd_eq. now split.
    + intros x Hx.
      assert (Hxc : x <> c) by (intros ->; apply Hx; now left).
      assert (Hr : ~ In x rest) by (intros Hr; apply Hx; now right).
      destruct (Hout x Hr) as [A B]. rewrite A, B, !upd_neq by exact Hxc.
      now split.
    + now repeat split.
Qed.

(** X21. What boot leaves behind.  When cpufreq is disabled
    cpufreq_core_init returns -ENODEV and changes nothing.  Otherwise
    (the kobject and the two PM QoS notifiers registered) it returns 0 and
    every possible CPU has no policy CPU: until cpufreq_add_dev assigns
    one, taking or releasing that CPU's policy semaphore, in either mode,
    runs into the BUG_ON of the locking functions.  Drivers, policies,
    governors and snapshots are as they were. *)
Theorem core_init_leaves_cpus_unowned (P : platform) (off : bool)
    (possible : cpumask) (kobj : bool) (pmq : pm_qos_class -> Z)
    (w : world) :
  kobj = true ->
  pmq PM_QOS_CPU_FREQ_MIN = 0 ->
  pmq PM_QOS_CPU_FREQ_MAX = 0 ->
  exists w',
    cpufreq_core_init P off possible kobj pmq w
    = Ret (if off then - ENODEV else 0) w'
    /\ (off = true -> w' = w)
    /\ (off = false ->
        forall c mode,
          (c < nr_cpu_ids P)%nat ->
          cpumask_test_cpu c possible = true ->
          cpufreq_policy_cpu w' c = -1
          /\ cpu_policy_rwsem w' c = {| readers := 0; writer := false |}
          /\ lock_policy_rwsem P mode c w' = Oops BUG
          /\ unlock_policy_rwsem mode c w' = Oops BUG)
    /\ cpufreq_driver w' = cpufreq_driver w
    /\ cpufreq_cpu_data w' = cpufreq_cpu_data w
    /\ cpufreq_policy_save w' = cpufreq_policy_save w
    /\ cpufreq_governor_list w' = cpufreq_governor_list w
    /\ heap w' = heap w.
Proof.
  intros Hk Hmin Hmax. unfold cpufreq_core_init, cpufreq_disabled.
  destruct off.
  - exists w. split; [reflexivity|]. split; [reflexivity|].
    split; [discriminate|]. now repeat split.
  - destruct (init_policy_locks_spec
                (for_each_cpu (nr_cpu_ids P) possible) w)
      as (w' & Hrun & Hin & _ & E1 & E2 & E3 & E4 & _ & E6 & _).
    exists w'. rewrite Hk, Hmin, Hmax. cbn [negb Z.eqb].
    unfold bind at 1. rewrite Hrun.
    split; [reflexivity|]. split; [discriminate|].
    split; [|now repeat split].
    intros _ c mode Hc Hp.
    destruct (Hin c) as [A B]; [apply for_each_cpu_In; now split|].
    split; [exact A|]. split; [exact B|].
    unfold lock_policy_rwsem, unlock_policy_rwsem, bind, gets, oops.
    rewrite A. now split.
Qed.

Lemma core_init_leaves_cpus_unowned_witness :
  exists w',
    cpufreq_core_init Board.quiet false 15%N true (fun _ => 0) Board.w0
    = Ret 0 w'
    /\ lock_policy_rwsem Board.quiet write 2 w' = Oops BUG.
Proof.
  destruct (core_init_leaves_cpus_unowned Board.quiet false 15%N true
              (fun _ => 0) Board.w0 eq_refl eq_refl eq_refl)
    as (w' & Hrun & _ & Hbug & _).
  exists w'. split; [exact Hrun|].
  destruct (Hbug eq_refl 2%nat write) as (_ & _ & Hl & _);
    [repeat constructor | reflexivity | exact Hl].
Defined.

(** ** The frequency a policy reports *)

(** X22. cpufreq_quick_get reads what the last POSTCHANGE notification for
    the policy's owner left.  A POSTCHANGE transition for a CPU with a
    policy returns; afterwards cpufreq_quick_get of every CPU of that
    policy gives the new frequency if the transition named the owner of
    the policy, and the old one if it named another CPU of the policy (the
    core then leaves policy->cur alone).  No other policy object
    changes. *)
Theorem postchange_feeds_quick_get (P : platform) (w : world)
    (freqs : cpufreq_freqs) (drv : cpufreq_driver_t) (pp : ptr)
    (p : cpufreq_policy) :
  cpufreq_driver w = Some drv ->
  try_module_get P (drv_owner drv) = true ->
  cpufreq_cpu_data w (f_cpu freqs) = Some pp ->
  heap w pp = Some p ->
  exists w',
    cpufreq_notify_transition P freqs CPUFREQ_POSTCHANGE w
    = Ret (with_flags freqs (flags drv)) w'
    /\ (forall c, (c < nr_cpu_ids P)%nat ->
                  cpufreq_cpu_data w c = Some pp ->
                  cpufreq_quick_get P c w'
                  = Ret (if Nat.eqb (cpu p) (f_cpu freqs) then f_new freqs
                         else cur p) w')
    /\ (forall q, q <> pp -> heap w' q = heap w q).
Proof.
  intros Hdrv Hmod Hdata Hp.
  unfold cpufreq_notify_transition.
  erewrite bind_eq by (apply driver_eq; exact Hdrv).
  mrun. rewrite Hdata.
  unfold bind, log, modify, deref, assign, ret. wsimpl. rewrite Hp.
  cbn [f_cpu f_new with_flags].
  destruct (Nat.eqb (cpu p) (f_cpu freqs)); wsimpl;
    (eexists; split; [reflexivity|]; wsimpl; split;
     [ intros c Hc Hcd;
       unfold cpufreq_quick_get, cpufreq_cpu_get;
       erewrite bind_eq by (eapply cpu_get_eq; wsimpl; eassumption);
       wsimpl; rewrite Hcd
     | ]).
  - erewrite bind_eq by (apply deref_eq; wsimpl; apply upd_eq).
    reflexivity.
  - intros q Hq. now rewrite upd_neq.
  - erewrite bind_eq by (apply deref_eq; wsimpl; exact Hp).
    reflexivity.
  - reflexivity.
Qed.

Lemma postchange_feeds_quick_get_witness :
  exists w',
    cpufreq_notify_transition Board.quiet
      {| f_cpu := 0; f_old := 1000000; f_new := 1500000; f_flags := 0 |}
      CPUFREQ_POSTCHANGE Board.w0
    = Ret {| f_cpu := 0; f_old := 1000000; f_new := 1500000; f_flags := 0 |}
        w'
    /\ cpufreq_quick_get Board.quiet 1 w' = Ret 1500000 w'.
Proof.
  destruct (postchange_feeds_quick_get Board.quiet Board.w0
              {| f_cpu := 0; f_old := 1000000; f_new := 1500000;
                 f_flags := 0 |}
              Board.msm 0%nat Board.shared eq_refl eq_refl eq_refl eq_refl)
    as (w' & Hrun & Hget & _).
  exists w'. split; [exact Hrun|].
  apply (Hget 1%nat); [repeat constructor | reflexivity].
Defined.

(** * Hotplug of any CPU of a policy *)








Section Cycle.

Variable P : platform.
Variable drv : cpufreq_driver_t.
Variable g : cpufreq_governor.

Hypothesis Hrace : forall m, hotplug_while_asleep P m = m.
Hypothesis Huni : CONFIG_UNI_CPU_POLICY_LIMIT P = false.
Hypothesis Hk1 : kzalloc_policy P = true.
Hypothesis Hk2 : alloc_cpumask_var P = true.
Hypothesis Hk3 : zalloc_cpumask_var P = true.
Hypothesis Hsys : forall o, sysfs P o = 0.
Hypothesis Hnot : notifiers_adjust P.
Hypothesis Hkeep : governors_keep_policy P.
Hypothesis Hsp : setpolicy drv = None.
Hypothesis Hmod : try_module_get P (drv_owner drv) = true.
Hypothesis Hver : verify_adjusts drv.
Hypothesis Hslow : forall x, too_slow g x = false.
Hypothesis Hgmod : try_module_get P (owner g) = true.
Hypothesis Hstart : forall x, fst (governor_fn P g CPUFREQ_GOV_START x) = 0.

















End Cycle.











(** What does happen to such a CPU: re-adding CPU 1 finds CPU 0 managed and
    joins its policy, which kept its governor and user bounds all along; the
    provisional policy is given back to the driver and freed, and no
    policy-set runs. *)
Lemma sibling_rejoins_shared_policy :
  exists w1 w2 p2,
    cpufreq_cpu_callback Board.quiet 1 CPU_DOWN_PREPARE 1 Board.w_pair
      = Ret (Some NOTIFY_OK) w1
    /\ cpufreq_cpu_data w1 1%nat = None
    /\ cpufreq_cpu_callback Board.quiet 1 CPU_ONLINE 1 w1
       = Ret (Some NOTIFY_OK) w2
    /\ cpufreq_cpu_data w2 1%nat = Some 0%nat
    /\ heap w2 0%nat = Some p2
    /\ governor p2 = Some Board.powersave
    /\ rp_min (user_policy p2) = 900000
    /\ rp_max (user_policy p2) = 1400000
    /\ cpufreq_policy_save w2 1%nat = Board.empty_save
    /\ enforcing (trace w2)
       = [EvGovernor 0%nat Board.powersave CPUFREQ_GOV_STOP 0;
          EvGovernor 0%nat Board.powersave CPUFREQ_GOV_START 0;
          EvGovernor 0%nat Board.powersave CPUFREQ_GOV_LIMITS 0;
          EvGovernor 0%nat Board.powersave CPUFREQ_GOV_STOP 0;
          EvGovernor 0%nat Board.powersave CPUFREQ_GOV_START 0;
          EvGovernor 0%nat Board.powersave CPUFREQ_GOV_LIMITS 0].
Proof.
  exists (world_after
            (cpufreq_cpu_callback Board.quiet 1 CPU_DOWN_PREPARE 1)
            Board.w_pair).
  exists (world_after
            (cpufreq_cpu_callback Board.quiet 1 CPU_ONLINE 1)
            (world_after
               (cpufreq_cpu_callback Board.quiet 1 CPU_DOWN_PREPARE 1)
               Board.w_pair)).
  exists Board.pair.
  vm_compute. repeat (split; [reflexivity|]). reflexivity.
Qed.
